(** * adpn-cli: the JSON pipeline tools, embedded and verified

    A shallow embedding of the parts of
      - [ADPNCommandLineTool.py] (classes [ADPNScriptPipeline] and
        [ADPNCommandLineTool]),
      - [adpn-json.py] (class [ADPNGetJSON], the query path), and
      - [adpn-do-package.py] (class [ADPNPackageContentScript], the failure
        handling of [execute])
    that the specification's properties are about.

    Conventions of the embedding.
      - A Python value that can come out of a JSON document or a switch table
        is a [pyval]; a [dict] is an association list in insertion order,
        looked up by its first binding.
      - A Python [str] is a [string]; its characters are read as the code
        points 0..255.
      - Code that can raise returns a [res]; code that also updates [self]
        runs in the state-and-exception monad [M], in which the state
        survives a raised exception, as the attributes of a Python object do.
      - Writing to [sys.stdout] / [sys.stderr] appends to the [console] of the
        tool.
      - Functions of the Python runtime and of modules that are not part of
        the embedded sources ([str], [json.dumps], [re.match] on a
        user-supplied pattern, [os.path.realpath], the class [myPyJSON]) are
        Section variables. *)

From Stdlib Require Import ZArith String Ascii List Floats.SpecFloat.
From stdpp Require Import gmap strings list.

Local Open Scope string_scope.
Local Open Scope list_scope.
Local Open Scope Z_scope.

(** ** Python values and exceptions *)

#[local] Set Warnings "-register-all".

Inductive pyval : Type :=
| PNone
| PBool (b : bool)
| PInt (z : Z)
| PFloat (f : spec_float)
| PStr (s : string)
| PList (l : list pyval)
| PDict (d : list (string * pyval)).

(** The exception classes the sources raise or catch. [JSONDecodeError] is
    [json.decoder.JSONDecodeError], a subclass of [ValueError]; [ReError] is
    [re.error]; [RecursionError] is raised when the nesting of calls exceeds
    the bound given to a recursive method. [Unsupported] is not an exception
    of Python: it marks the few places where the embedding does not follow
    the source (a dict key that is not a [str], a float as an exit
    status). *)
Inductive exn : Type :=
| TypeError
| ValueError
| KeyError
| IndexError
| AttributeError
| OverflowError
| JSONDecodeError
| ReError
| AssertionError (args : list pyval)
| KeyboardInterrupt
| FileNotFoundError
| UnboundLocalError
| RecursionError
| Unsupported.

Inductive res (A : Type) : Type :=
| Ok (a : A)
| Raise (e : exn).
Arguments Ok {A} a.
Arguments Raise {A} e.

Definition res_bind {A B} (r : res A) (k : A -> res B) : res B :=
  match r with
  | Ok a => k a
  | Raise e => Raise e
  end.

(** [except ValueError] also catches the subclass [JSONDecodeError]. *)
Definition is_ValueError (e : exn) : bool :=
  match e with
  | ValueError | JSONDecodeError => true
  | _ => false
  end.

Definition is_JSONDecodeError (e : exn) : bool :=
  match e with
  | JSONDecodeError => true
  | _ => false
  end.

Definition is_KeyError (e : exn) : bool :=
  match e with
  | KeyError => true
  | _ => false
  end.

(** The state-and-exception monad. *)
Definition M (S A : Type) : Type := S -> S * res A.

Definition ret {S A} (a : A) : M S A := fun s => (s, Ok a).

Definition raise {S A} (e : exn) : M S A := fun s => (s, Raise e).

Definition bind {S A B} (m : M S A) (k : A -> M S B) : M S B :=
  fun s =>
    match m s with
    | (s', Ok a) => k a s'
    | (s', Raise e) => (s', Raise e)
    end.

Definition lift {S A} (r : res A) : M S A := fun s => (s, r).

Definition gets {S A} (f : S -> A) : M S A := fun s => (s, Ok (f s)).

Definition modify {S} (f : S -> S) : M S unit := fun s => (f s, Ok tt).

(** [try : body except <class> : handler]. *)
Definition try_except {S A} (body : M S A) (catches : exn -> bool)
    (handler : exn -> M S A) : M S A :=
  fun s =>
    match body s with
    | (s', Ok a) => (s', Ok a)
    | (s', Raise e) => if catches e then handler e s' else (s', Raise e)
    end.

Declare Scope py_scope.
Delimit Scope py_scope with py.
Notation "x <- m ;; k" := (bind m (fun x => k))
  (at level 100, m at next level, right associativity) : py_scope.
Notation "m ;;; k" := (bind m (fun _ => k))
  (at level 100, right associativity) : py_scope.

(** [for x in xs : body x]. *)
Fixpoint for_each {S A} (xs : list A) (body : A -> M S unit) : M S unit :=
  match xs with
  | [] => ret tt
  | x :: xs' => bind (body x) (fun _ => for_each xs' body)
  end.

(** ** Strings *)

Definition chr_newline : ascii := Ascii.ascii_of_nat 10.

Definition chr_tab : ascii := Ascii.ascii_of_nat 9.

Definition is_digit (c : ascii) : bool :=
  let n := N_of_ascii c in ((48 <=? n) && (n <=? 57))%N.

Definition digit_value (c : ascii) : Z := Z.of_N (N_of_ascii c) - 48.

(** The characters [int()] skips around a number: the ASCII white space
    [\t \n \v \f \r] and the blank, and, of the code points 128..255,
    U+0085 and U+00A0. *)
Definition is_int_space (c : ascii) : bool :=
  let n := N_of_ascii c in
  (((9 <=? n) && (n <=? 13)) || (n =? 32) || (n =? 133) || (n =? 160))%N.

(** The characters [str.strip()] removes, of the code points 0..255. *)
Definition is_str_space (c : ascii) : bool :=
  let n := N_of_ascii c in
  (((9 <=? n) && (n <=? 13)) || ((28 <=? n) && (n <=? 32))
   || (n =? 133) || (n =? 160))%N.

Fixpoint lstrip (sp : ascii -> bool) (s : string) : string :=
  match s with
  | String c s' => if sp c then lstrip sp s' else s
  | EmptyString => EmptyString
  end.

Fixpoint rstrip (sp : ascii -> bool) (s : string) : string :=
  match s with
  | String c s' =>
      match rstrip sp s' with
      | EmptyString => if sp c then EmptyString else String c EmptyString
      | r => String c r
      end
  | EmptyString => EmptyString
  end.

(** [s.strip()]. *)
Definition str_strip (s : string) : string := rstrip is_str_space (lstrip is_str_space s).

(** The number that a text of decimal digits writes, after [acc]. *)
Fixpoint digits_value (acc : Z) (s : string) : Z :=
  match s with
  | String c s' => digits_value (10 * acc + digit_value c) s'
  | EmptyString => acc
  end.

(** Decimal digits, where a single underscore may stand between two digits.
    [sep] tells that a digit has to come next. *)
Fixpoint int_digits (acc : Z) (sep : bool) (s : string) : option Z :=
  match s with
  | EmptyString => if sep then None else Some acc
  | String c s' =>
      if is_digit c then int_digits (10 * acc + digit_value c) false s'
      else if Ascii.eqb c "_" then
        if sep then None else int_digits acc true s'
      else None
  end.

(** [int(s)] for a [str] (base 10); [None] stands for [ValueError]. The
    limit on the number of digits that recent interpreters can be configured
    with is not part of the embedding. *)
Definition py_int_of_str (s : string) : option Z :=
  match rstrip is_int_space (lstrip is_int_space s) with
  | String "+" ds => int_digits 0 true ds
  | String "-" ds => option_map Z.opp (int_digits 0 true ds)
  | ds => int_digits 0 true ds
  end.

(** What a greedy [.*] followed by the final [$] of a pattern matches on the
    rest [s] of the subject: [.] stands for any character but the newline,
    and [$] holds at the end of the subject and before a newline that ends
    it. *)
Fixpoint dotstar_eol (s : string) : option string :=
  match s with
  | EmptyString => Some EmptyString
  | String c s' =>
      if Ascii.eqb c chr_newline then
        match s' with
        | EmptyString => Some EmptyString
        | _ => None
        end
      else option_map (String c) (dotstar_eol s')
  end.

(** The longest prefix of digits [0-9] and what follows it. *)
Fixpoint span_digits (s : string) : string * string :=
  match s with
  | String c s' =>
      if is_digit c then
        let (ds, rest) := span_digits s' in (String c ds, rest)
      else (EmptyString, s)
  | EmptyString => (EmptyString, EmptyString)
  end.

(** [s] without its last character, when that character is [c]. *)
Fixpoint strip_last (c : ascii) (s : string) : option string :=
  match s with
  | EmptyString => None
  | String a EmptyString => if Ascii.eqb a c then Some EmptyString else None
  | String a s' => option_map (String a) (strip_last c s')
  end.

(** Group 1 of [re.match] with the pattern [^ [@] ( .* ) $] (written here
    with blanks between its parts) on [key]. *)
Definition re_match_at (key : string) : option string :=
  match key with
  | String "@" rest => dotstar_eol rest
  | _ => None
  end.

(** Group 1 of [re.match] with the pattern [^ ( [0-9]+ ) [,] .* $] on [s]. *)
Definition re_match_leading_number (s : string) : option string :=
  match span_digits s with
  | (EmptyString, _) => None
  | (ds, String "," rest) =>
      match dotstar_eol rest with
      | Some _ => Some ds
      | None => None
      end
  | _ => None
  end.

(** Group 1 of [re.match] with the pattern [^ [/] ( .* ) [/] $] on [value]. *)
Definition re_match_slashes (value : string) : option string :=
  match value with
  | String "/" rest =>
      match dotstar_eol rest with
      | Some body => strip_last "/" body
      | None => None
      end
  | _ => None
  end.

(** [s.split(sep, 1)] for a one-character separator: one piece when [sep]
    does not occur, else the text before and after its first occurrence. *)
Fixpoint split_once (sep : ascii) (s : string) : string * option string :=
  match s with
  | EmptyString => (EmptyString, None)
  | String c s' =>
      if Ascii.eqb c sep then (EmptyString, Some s')
      else let (a, b) := split_once sep s' in (String c a, b)
  end.

(** [s.split(sep)] for a one-character separator. *)
Fixpoint split_all (sep : ascii) (s : string) : list string :=
  match s with
  | EmptyString => [EmptyString]
  | String c s' =>
      if Ascii.eqb c sep then EmptyString :: split_all sep s'
      else
        match split_all sep s' with
        | p :: ps => String c p :: ps
        | [] => [String c EmptyString]
        end
  end.

(** [sep.join(parts)]. *)
Fixpoint join (sep : string) (parts : list string) : string :=
  match parts with
  | [] => EmptyString
  | [p] => p
  | p :: ps => p +:+ sep +:+ join sep ps
  end.

(** ** Operations of the runtime on values *)

(** Truth value of a float: only the zeros are false. *)
Definition float_truthy (f : spec_float) : bool :=
  match f with
  | S754_zero _ => false
  | _ => true
  end.

Definition py_truthy (v : pyval) : bool :=
  match v with
  | PNone => false
  | PBool b => b
  | PInt z => negb (z =? 0)
  | PFloat f => float_truthy f
  | PStr s => negb (String.eqb s "")
  | PList l => match l with [] => false | _ => true end
  | PDict d => match d with [] => false | _ => true end
  end.

Definition is_None (v : pyval) : bool :=
  match v with
  | PNone => true
  | _ => false
  end.

(** [int(f)] for a float: the value [m * 2^e] cut towards zero. *)
Definition int_of_float (f : spec_float) : res Z :=
  match f with
  | S754_zero _ => Ok 0
  | S754_infinity _ => Raise OverflowError
  | S754_nan => Raise ValueError
  | S754_finite s m e =>
      let q := Z.shiftl (Z.pos m) e in
      Ok (if s then - q else q)
  end.

(** [{ **d, **{ key: value } }]: the value of [key] replaced where it
    stands, or the entry added at the end. *)
Fixpoint dict_update (d : list (string * pyval)) (key : string) (value : pyval)
    : list (string * pyval) :=
  match d with
  | [] => [(key, value)]
  | (k, v) :: d' =>
      if String.eqb k key then (k, value) :: d'
      else (k, v) :: dict_update d' key value
  end.

(** [s] without the prefix [p], when it starts with it. *)
Fixpoint strip_prefix (p s : string) : option string :=
  match p, s with
  | EmptyString, _ => Some s
  | String a p', String b s' =>
      if Ascii.eqb a b then strip_prefix p' s' else None
  | String _ _, EmptyString => None
  end.

(** [d.get(key)] of a dict with [str] keys: the value, or [None]. *)
Fixpoint dict_lookup (d : list (string * pyval)) (key : string) : option pyval :=
  match d with
  | [] => None
  | (k, v) :: d' => if String.eqb k key then Some v else dict_lookup d' key
  end.

Definition dict_get (d : list (string * pyval)) (key : string) : pyval :=
  match dict_lookup d key with
  | Some v => v
  | None => PNone
  end.

(** [x == s] for a [str] [s]: only an equal [str] is equal to it. *)
Definition eq_str (x : pyval) (s : string) : bool :=
  match x with
  | PStr t => String.eqb t s
  | _ => false
  end.

(** The option table of a script, [switches]: looked up with [.get]. *)
Definition switches_get (switches : gmap string pyval) (key : string) : pyval :=
  match switches !! key with
  | Some v => v
  | None => PNone
  end.

(** [len(v)]. *)
Definition py_len (v : pyval) : res Z :=
  match v with
  | PStr s => Ok (Z.of_nat (String.length s))
  | PList l => Ok (Z.of_nat (length l))
  | PDict d => Ok (Z.of_nat (length d))
  | _ => Raise TypeError
  end.

(** [(a, b) = v] for a [v] of length 2: the two items of a list, the two
    characters of a [str], the two keys of a dict. *)
Definition unpack_pair (v : pyval) : option (pyval * pyval) :=
  match v with
  | PList [a; b] => Some (a, b)
  | PStr (String a (String b EmptyString)) =>
      Some (PStr (String a EmptyString), PStr (String b EmptyString))
  | PDict [(k1, _); (k2, _)] => Some (PStr k1, PStr k2)
  | _ => None
  end.

(** [obj.get(key)] where [obj] is expected to be a dict: any other value has
    no attribute [get]. *)
Definition py_get (obj : pyval) (key : string) : res pyval :=
  match obj with
  | PDict d => Ok (dict_get d key)
  | _ => Raise AttributeError
  end.

(** The pieces of [s] between the characters that satisfy [sep], the empty
    pieces included. *)
Fixpoint split_on (sep : ascii -> bool) (s : string) : list string :=
  match s with
  | EmptyString => [EmptyString]
  | String c s' =>
      if sep c then EmptyString :: split_on sep s'
      else
        match split_on sep s' with
        | p :: ps => String c p :: ps
        | [] => [String c EmptyString]
        end
  end.

Definition is_crlf (c : ascii) : bool :=
  let n := N_of_ascii c in ((n =? 10) || (n =? 13))%N.

Definition nonempty (s : string) : bool := negb (String.eqb s "").

(** [[ line for line in re.split(r'[\r\n]+', text) if line ]]: splitting at
    every run of line breaks and dropping the empty pieces leaves the pieces
    between single line breaks that are not empty. *)
Definition split_lines (text : string) : list string :=
  filter (fun line => Is_true (nonempty line)) (split_on is_crlf text).

(** ** The interface of [myPyJSON]

    The class [myPyJSON] of module [myLockssScripts] is used by the sources
    through its constructor ([new_store], with the flags [splat] and
    [cascade]), [accept] (with the flag [screen]), [select_where], [allData],
    [raw] and [add_prolog]; the sources below are embedded over any
    implementation of this interface. [allData] and [raw] read the state of
    the store. *)
Class MyPyJSON (J : Type) : Type := {
  new_store : bool -> bool -> J;
  accept : list string -> bool -> M J unit;
  select_where : (pyval -> res bool) -> M J unit;
  allData : J -> pyval;
  raw : J -> pyval;
  add_prolog : J -> string -> string;
}.

(** ** [ADPNCommandLineTool.py]: class [ADPNScriptPipeline] *)

Module ScriptPipeline.

(** The input stream: whether [test_piped_input] finds a pipe or a file
    behind it, and the text that is still to be read. *)
Record stream_in : Type := {
  is_piped : bool;
  unread : string;
}.

Record pipeline (J : Type) : Type := {
  _stream_in : stream_in;
  _pipelines : option (list string);
  _conditional : bool;
  json : J;
}.
Arguments _stream_in {J} _.
Arguments _pipelines {J} _.
Arguments _conditional {J} _.
Arguments json {J} _.

(** The objects a call can reach: [self], and the dicts that callers hold
    references to (option tables), by address. *)
Record world (J : Type) : Type := {
  self : pipeline J;
  heap : gmap positive (gmap string pyval);
}.
Arguments self {J} _.
Arguments heap {J} _.

Section Pipeline.
Context {J : Type} `{MyPyJSON J}.

Definition test_piped_input (p : pipeline J) : bool := is_piped (_stream_in p).

(** [self._stream_in.read()] hands out the whole text and leaves the stream
    at its end. *)
Definition read_all : M (pipeline J) string :=
  fun p =>
    ({| _stream_in := {| is_piped := is_piped (_stream_in p); unread := "" |};
        _pipelines := _pipelines p;
        _conditional := _conditional p;
        json := json p |},
     Ok (unread (_stream_in p))).

Definition set_pipelines (lines : list string) : M (pipeline J) unit :=
  modify (fun p =>
    {| _stream_in := _stream_in p;
       _pipelines := Some lines;
       _conditional := _conditional p;
       json := json p |}).

(** Property [pipelines]. *)
Definition pipelines : M (pipeline J) (option (list string)) :=
  (cached <- gets _pipelines ;;
   match cached with
   | None =>
       piped <- gets test_piped_input ;;
       conditional <- gets _conditional ;;
       (if piped || negb conditional then
          text <- read_all ;;
          set_pipelines (split_lines text)
        else ret tt) ;;;
       gets _pipelines
   | Some _ => gets _pipelines
   end)%py.

(** A method of [self.json] run on the store that [self] holds. *)
Definition on_json {A} (m : M J A) : M (pipeline J) A :=
  fun p =>
    let (j', r) := m (json p) in
    ({| _stream_in := _stream_in p;
        _pipelines := _pipelines p;
        _conditional := _conditional p;
        json := j' |}, r).

(** The body of [for pair in parameters] in [get_data]: [name] is [m[1]],
    [result] the value found so far. *)
Definition scan_pair (name : string) (result : pyval) (item : pyval) : res pyval :=
  res_bind (py_len item) (fun n =>
    if n =? 2 then
      match unpack_pair item with
      | Some (key, value) => Ok (if eq_str key name then value else result)
      | None => Ok result
      end
    else Ok result).

Fixpoint scan_parameters (name : string) (result : pyval) (parameters : list pyval)
    : res pyval :=
  match parameters with
  | [] => Ok result
  | item :: rest =>
      res_bind (scan_pair name result item) (fun result' =>
        scan_parameters name result' rest)
  end.

(** [get_data(self, key=None)]. *)
Definition get_data (key : option string) : M (pipeline J) pyval :=
  (lines <- pipelines ;;
   match lines with
   | None => ret PNone
   | Some lines =>
       on_json (accept lines false) ;;;
       match key with
       | None => gets (fun p => allData (json p))
       | Some key =>
           data <- gets (fun p => allData (json p)) ;;
           result <- lift (py_get data key) ;;
           parameters <- lift (py_get data "parameters") ;;
           match parameters with
           | PList pairs =>
               match re_match_at key with
               | Some name => lift (scan_parameters name result pairs)
               | None => ret result
               end
           | _ => ret result
           end
       end
   end)%py.

(** A method of [self] run in a world. *)
Definition on_self {A} (m : M (pipeline J) A) : M (world J) A :=
  fun w =>
    let (p', r) := m (self w) in
    ({| self := p'; heap := heap w |}, r).

(** [{ **table }]: a new dict with the entries of the dict at [table]. *)
Definition copy_dict (table : positive) : M (world J) positive :=
  fun w =>
    let r := fresh (dom (heap w)) in
    ({| self := self w; heap := <[r := heap w !!! table]> (heap w) |}, Ok r).

Definition read_dict (r : positive) : M (world J) (gmap string pyval) :=
  gets (fun w => heap w !!! r).

(** [result[key] = value]. *)
Definition setitem (r : positive) (key : string) (value : pyval) : M (world J) unit :=
  modify (fun w =>
    {| self := self w; heap := <[r := <[key := value]> (heap w !!! r)]> (heap w) |}).

(** [backfilled(self, table, key, data_source)]; the result is the address
    of the dict it returns. *)
Definition backfilled (table : positive) (key : string) (data_source : option string)
    : M (world J) positive :=
  (result <- copy_dict table ;;
   current <- read_dict result ;;
   (if is_None (switches_get current key) then
      value <- on_self (get_data data_source) ;;
      if negb (is_None value) then setitem result key value else ret tt
    else ret tt) ;;;
   ret result)%py.

End Pipeline.

End ScriptPipeline.

(** ** [ADPNCommandLineTool.py]: class [ADPNCommandLineTool] *)

Inductive stream : Type := Stdout | Stderr.

(** How a process ends: [sys.exit(code)], or an exception nobody caught. *)
Inductive outcome : Type :=
| Exited (code : Z)
| Uncaught (e : exn).

Module CommandLineTool.

Record tool : Type := {
  scriptname : string;
  switches : gmap string pyval;
  _exitcode : Z;
  _verbose : Z;
  _debug : Z;
  console : list (stream * string);
}.

Definition with_exitcode (code : Z) (t : tool) : tool :=
  {| scriptname := scriptname t; switches := switches t; _exitcode := code;
     _verbose := _verbose t; _debug := _debug t; console := console t |}.

Definition with_verbose (v : Z) (t : tool) : tool :=
  {| scriptname := scriptname t; switches := switches t; _exitcode := _exitcode t;
     _verbose := v; _debug := _debug t; console := console t |}.

Definition with_debug (v : Z) (t : tool) : tool :=
  {| scriptname := scriptname t; switches := switches t; _exitcode := _exitcode t;
     _verbose := _verbose t; _debug := v; console := console t |}.

(** [print(text, end=terminator, file=s)]. *)
Definition print_to (s : stream) (text terminator : string) (t : tool) : tool :=
  {| scriptname := scriptname t; switches := switches t; _exitcode := _exitcode t;
     _verbose := _verbose t; _debug := _debug t;
     console := console t ++ [(s, text +:+ terminator)] |}.

Definition print (s : stream) (text : string) : M tool unit :=
  modify (print_to s text (String chr_newline "")).

(** [self.switches.get(switch)] where [switch] may be [None]: the keys of the
    table are [str], so that [None] is never one of them. *)
Definition switches_get_opt (sw : gmap string pyval) (switch : option string) : pyval :=
  match switch with
  | Some k => switches_get sw k
  | None => PNone
  end.

(** [convertto_numeric_value(self, switch=None, value=None)]. *)
Definition convertto_numeric_value (sw : gmap string pyval)
    (switch : option string) (value : pyval) : res Z :=
  let rhs := if is_None value then switches_get_opt sw switch else value in
  let m := re_match_leading_number (match rhs with PStr s => s | _ => "" end) in
  let rhs := match m with Some m1 => PStr m1 | None => rhs end in
  match rhs with
  | PBool b => Ok (Z.b2z b)
  | PInt z => Ok z
  | PFloat f => int_of_float f
  | PStr s =>
      match py_int_of_str s with
      | Some z => Ok z
      | None => Ok (Z.b2z (0 <? Z.of_nat (String.length s)))
      end
  | PNone => Ok 0
  | PList _ | PDict _ => Raise TypeError
  end.

(** The setter of [verbose] that is in force (the later of the two
    definitions in the class). *)
Definition verbose_setter (rhs : pyval) : M tool unit :=
  match rhs with
  | PBool b => modify (with_verbose (Z.b2z b))
  | PInt z => modify (with_verbose z)
  | PFloat f => (z <- lift (int_of_float f) ;; modify (with_verbose z))%py
  | PStr s =>
      match py_int_of_str s with
      | Some z => modify (with_verbose z)
      | None => modify (with_verbose (Z.b2z (0 <? Z.of_nat (String.length s))))
      end
  | PNone => modify (with_verbose 0)
  | PList _ | PDict _ => raise TypeError
  end.

Definition debug_setter (rhs : pyval) : M tool unit :=
  (z <- (fun t => (t, convertto_numeric_value (switches t) None rhs)) ;;
   modify (with_debug z))%py.

(** [switched(self, key, just_present=False, default=None)]. *)
Definition switched (sw : gmap string pyval) (key : string) (just_present : bool) : bool :=
  let result := match sw !! key with Some v => v | None => PNone end in
  let present :=
    match result with
    | PList l => (0 <? Z.of_nat (length l))
    | _ => negb (is_None result)
    end in
  if just_present then present else py_truthy result.

(** [set_exitcode(self, code: int)]. *)
Definition set_exitcode (code : Z) : M tool unit :=
  if (0 <=? code) && (code <=? 255) then modify (with_exitcode code)
  else raise ValueError.

(** The setter of property [exitcode]. *)
Definition exitcode_setter (code : Z) : M tool unit := set_exitcode code.

(** The getter of property [exitcode]. *)
Definition exitcode (t : tool) : Z := _exitcode t.

Definition still_ok (t : tool) : bool := (exitcode t =? 0).

(** Property [plain_text_output]. *)
Definition plain_text_output (t : tool) : bool :=
  is_None (switches_get (switches t) "output")
  || eq_str (switches_get (switches t) "output") "text/plain".

(** [write_status(self, message, prolog=None, is_notice=True, verbosity=0)]. *)
Definition write_status (message : string) (prolog : option string)
    (is_notice : bool) (verbosity : Z) : M tool unit :=
  fun t =>
    let prefix :=
      match prolog with
      | None => "[" +:+ scriptname t +:+ "] "
      | Some prolog => prolog +:+ " "
      end in
    let (s, text) :=
      if is_notice then
        (if negb (plain_text_output t) && (0 <? verbosity) then Stderr else Stdout,
         prefix +:+ message)
      else (Stdout, message) in
    if verbosity <=? _verbose t then print s text t else (t, Ok tt).

(** [write_error(self, code, message, prefix="")]. *)
Definition write_error (code : option Z) (message : string) (prefix : string)
    : M tool unit :=
  ((match code with
    | Some code => exitcode_setter code
    | None => ret tt
    end) ;;;
   name <- gets scriptname ;;
   print Stderr (prefix +:+ "[" +:+ name +:+ "] " +:+ message))%py.

(** [__init__(self, scriptpath, argv, switches, scriptname)], with the name
    of the script as it is derived from the path. *)
Definition init (name : string) (sw : gmap string pyval) : tool * res unit :=
  let t0 := {| scriptname := name; switches := sw; _exitcode := 0;
               _verbose := 0; _debug := 0; console := [] |} in
  (exitcode_setter 0 ;;;
   verbose_setter (if py_truthy (switches_get sw "quiet") then PInt 0
                   else switches_get sw "verbose") ;;;
   debug_setter (switches_get sw "debug") ;;;
   d <- gets _debug ;;
   v <- gets _verbose ;;
   if v <? d then verbose_setter (PInt d) else ret tt)%py t0.

(** [exit(self)]: [sys.exit(self.exitcode)]. *)
Definition exit (t : tool) : outcome := Exited (exitcode t).

End CommandLineTool.

(** ** [adpn-json.py]: class [ADPNGetJSON] *)

Module GetJSON.
Import CommandLineTool.

(** The names of the lists of [self._flags]. *)
Inductive flag : Type := json_error | key_error | nothing_found | output_error.

Record flags : Type := {
  flag_json_error : list pyval;
  flag_key_error : list pyval;
  flag_nothing_found : list pyval;
  flag_output_error : list pyval;
}.

Definition no_flags : flags :=
  {| flag_json_error := []; flag_key_error := [];
     flag_nothing_found := []; flag_output_error := [] |}.

Definition flags_get (fl : flags) (f : flag) : list pyval :=
  match f with
  | json_error => flag_json_error fl
  | key_error => flag_key_error fl
  | nothing_found => flag_nothing_found fl
  | output_error => flag_output_error fl
  end.

Definition flags_extend (f : flag) (v : pyval) (fl : flags) : flags :=
  match f with
  | json_error =>
      {| flag_json_error := flag_json_error fl ++ [v]; flag_key_error := flag_key_error fl;
         flag_nothing_found := flag_nothing_found fl; flag_output_error := flag_output_error fl |}
  | key_error =>
      {| flag_json_error := flag_json_error fl; flag_key_error := flag_key_error fl ++ [v];
         flag_nothing_found := flag_nothing_found fl; flag_output_error := flag_output_error fl |}
  | nothing_found =>
      {| flag_json_error := flag_json_error fl; flag_key_error := flag_key_error fl;
         flag_nothing_found := flag_nothing_found fl ++ [v]; flag_output_error := flag_output_error fl |}
  | output_error =>
      {| flag_json_error := flag_json_error fl; flag_key_error := flag_key_error fl;
         flag_nothing_found := flag_nothing_found fl; flag_output_error := flag_output_error fl ++ [v] |}
  end.

(** An [ADPNGetJSON] object: the attributes of the base class, and its own. *)
Record getjson (J : Type) : Type := {
  base : tool;
  _output : list string;
  _flags : flags;
  _default_mime : string;
  _json : option J;
}.
Arguments base {J} _.
Arguments _output {J} _.
Arguments _flags {J} _.
Arguments _default_mime {J} _.
Arguments _json {J} _.

(** The text that a formatting pass hands to [print]: [None] when nothing is
    printed. *)
Definition emitted : Type := option string.

Section GetJSON.
Context {J : Type} `{MyPyJSON J}.

(** Functions of the runtime: [str(v)]; [urllib.parse.quote] of the UTF-8
    encoding of a [str]; [json.dumps(v, indent=i)]; the decoding of the
    escapes of a template followed by [template % data]; [re.compile] of a
    pattern, giving whether it matches at the beginning of a subject, or
    nothing for a pattern that is not a regular expression; [a + b]. *)
Context (py_str : pyval -> string)
        (url_quote : string -> string)
        (json_dumps : pyval -> pyval -> string)
        (py_percent : string -> list (string * pyval) -> res string)
        (re_compile : string -> option (string -> bool))
        (py_add : pyval -> pyval -> res pyval).

Definition with_base (b : tool) (g : getjson J) : getjson J :=
  {| base := b; _output := _output g; _flags := _flags g;
     _default_mime := _default_mime g; _json := _json g |}.

Definition with_output (o : list string) (g : getjson J) : getjson J :=
  {| base := base g; _output := o; _flags := _flags g;
     _default_mime := _default_mime g; _json := _json g |}.

Definition with_flags (fl : flags) (g : getjson J) : getjson J :=
  {| base := base g; _output := _output g; _flags := fl;
     _default_mime := _default_mime g; _json := _json g |}.

Definition with_json (j : J) (g : getjson J) : getjson J :=
  {| base := base g; _output := _output g; _flags := _flags g;
     _default_mime := _default_mime g; _json := Some j |}.

(** A method of the base class run on the attributes of the base class. *)
Definition on_base {A} (m : M tool A) : M (getjson J) A :=
  fun g => let (b', r) := m (base g) in (with_base b' g, r).

Definition switch (g : getjson J) (key : string) : pyval :=
  switches_get (switches (base g)) key.

Definition output_extend (lines : list string) : M (getjson J) unit :=
  modify (fun g => with_output (_output g ++ lines) g).

(** [add_flag(self, flag, value)]. *)
Definition add_flag (f : flag) (value : pyval) : M (getjson J) unit :=
  if is_None value then ret tt
  else modify (fun g => with_flags (flags_extend f value (_flags g)) g).

(** [test_flagged(self, flag)]. *)
Definition test_flagged (g : getjson J) (f : flag) : bool :=
  0 <? Z.of_nat (length (flags_get (_flags g) f)).

(** The getter of property [exitcode]. *)
Definition exitcode : M (getjson J) Z :=
  fun g =>
    let code :=
      if test_flagged g json_error then 2
      else if test_flagged g key_error then 1
      else if test_flagged g output_error then 254
      else 0 in
    let g' := with_base (with_exitcode code (base g)) g in
    (g', Ok (CommandLineTool.exitcode (base g'))).

(** The setter of property [exitcode]. *)
Definition exitcode_setter (code : Z) : M (getjson J) unit :=
  on_base (set_exitcode code).

(** [write_error] as inherited: it assigns to [self.exitcode] through the
    setter of this class. *)
Definition write_error (code : option Z) (message : string) (prefix : string)
    : M (getjson J) unit :=
  ((match code with
    | Some code => exitcode_setter code
    | None => ret tt
    end) ;;;
   name <- gets (fun g => scriptname (base g)) ;;
   on_base (print Stderr (prefix +:+ "[" +:+ name +:+ "] " +:+ message)))%py.

(** [exit(self)]: [sys.exit(self.exitcode)]. *)
Definition exit (g : getjson J) : getjson J * outcome :=
  match exitcode g with
  | (g', Ok code) => (g', Exited code)
  | (g', Raise e) => (g', Uncaught e)
  end.

Definition wants_splat (g : getjson J) : bool := is_None (switch g "nosplat").

Definition wants_cascade (g : getjson J) : bool := negb (is_None (switch g "cascade")).

(** Property [json]: the store, made at its first use. *)
Definition json (g : getjson J) : J :=
  match _json g with
  | Some j => j
  | None => new_store (wants_splat g) (wants_cascade g)
  end.

(** A method of [self.json] run on the store. *)
Definition on_json {A} (m : M J A) : M (getjson J) A :=
  fun g => let (j', r) := m (json g) in (with_json j' g, r).

(** [get_output_format(self, index=0)]. *)
Definition get_output_format (g : getjson J) (index : nat) : res (option string) :=
  let sSpec := if is_None (switch g "output") then PStr (_default_mime g)
               else switch g "output" in
  match sSpec with
  | PStr sSpec => Ok (split_all ";" sSpec !! index)
  | _ => Raise AttributeError
  end.

Definition opt_eq_str (o : option string) (s : string) : bool :=
  match o with
  | Some t => String.eqb t s
  | None => false
  end.

(** [wants_table(self)]. *)
Definition wants_table (g : getjson J) : res bool :=
  res_bind (get_output_format g 0) (fun fmt0 =>
    res_bind (if opt_eq_str fmt0 "text/tab-separated-values" then Ok true
              else res_bind (get_output_format g 1) (fun fmt1 =>
                     Ok (opt_eq_str fmt1 "table"))) (fun requested_table =>
      res_bind (if is_None (switch g "key")
                then res_bind (get_output_format g 0) (fun fmt0 =>
                       Ok (match fmt0 with None => true | Some _ => false end))
                else Ok false) (fun implies_table =>
        Ok (implies_table || requested_table)))).

(** [wants_printf_output(self)]. *)
Definition wants_printf_output (g : getjson J) : res bool :=
  res_bind (get_output_format g 0) (fun fmt =>
    Ok (opt_eq_str fmt "text/plain" && negb (is_None (switch g "template")))).

(** [wants_json_output(self)]. *)
Definition wants_json_output (g : getjson J) : res bool :=
  res_bind (get_output_format g 0) (fun fmt =>
    if opt_eq_str fmt "json" then Ok true
    else res_bind (get_output_format g 0) (fun fmt =>
           Ok (opt_eq_str fmt "application/json"))).

(** [isinstance(v, int)]: a [bool] is an [int]. *)
Definition as_int (v : pyval) : option Z :=
  match v with
  | PInt z => Some z
  | PBool b => Some (Z.b2z b)
  | _ => None
  end.

(** [data_matches(self, item, key, value)]. *)
Definition data_matches (item : pyval) (key value : string) : res bool :=
  match item with
  | PDict d =>
      match re_match_slashes value with
      | Some pattern =>
          match re_compile pattern with
          | None => Raise ReError
          | Some matches =>
              match dict_get d key with
              | PStr subject => Ok (matches subject)
              | _ => Raise TypeError
              end
          end
      | None =>
          match dict_get d key with
          | PStr field => Ok (String.eqb field value)
          | field =>
              match as_int field with
              | Some n =>
                  match py_int_of_str value with
                  | Some v => Ok (n =? v)
                  | None => Raise ValueError
                  end
              | None => Ok false
              end
          end
      end
  | _ => Ok true
  end.

(** Property [selected]: the filter that [--where] asks for. *)
Definition selected (g : getjson J) : res (pyval -> res bool) :=
  if py_truthy (switch g "where") then
    match switch g "where" with
    | PStr spec =>
        match split_once ":" spec with
        | (key, Some value) => Ok (fun x => data_matches x key value)
        | (_, None) => Raise ValueError
        end
    | _ => Raise AttributeError
    end
  else Ok (fun _ => Ok true).

(** [is_multiline_output(self, output=None)]. *)
Definition is_multiline_output (g : getjson J) (output : option (list string)) : bool :=
  let out := match output with None => _output g | Some output => output end in
  1 <? Z.of_nat (length out).

(** [get_output_terminator(self, output=None)]. *)
Definition get_output_terminator (g : getjson J) (output : option (list string))
    : res string :=
  res_bind (wants_table g) (fun table_mode =>
    Ok (if table_mode || is_multiline_output g output
        then String chr_newline "" else "")).

(** [int(v)]. *)
Definition py_int (v : pyval) : res Z :=
  match v with
  | PBool b => Ok (Z.b2z b)
  | PInt z => Ok z
  | PFloat f => int_of_float f
  | PStr s =>
      match py_int_of_str s with
      | Some z => Ok z
      | None => Raise ValueError
      end
  | PNone | PList _ | PDict _ => Raise TypeError
  end.

(** [try : indent = int(v) except ValueError : indent = str(v)]. *)
Definition int_or_str (v : pyval) : res pyval :=
  match py_int v with
  | Ok z => Ok (PInt z)
  | Raise e => if is_ValueError e then Ok (PStr (py_str v)) else Raise e
  end.

(** [get_json_indent(self)]. *)
Definition get_json_indent (g : getjson J) : res pyval :=
  res_bind (get_output_format g 1) (fun fmt1 =>
    let fmt := match fmt1 with Some f => f | None => "" end in
    if negb (is_None (switch g "indent")) then int_or_str (switch g "indent")
    else
      res_bind (get_output_format g 1) (fun fmt1 =>
        if opt_eq_str fmt1 "prettyprint" then Ok (PInt 0)
        else
          match strip_prefix "indent=" fmt with
          | Some rest =>
              match dotstar_eol rest with
              | Some m1 => int_or_str (PStr m1)
              | None => Ok PNone
              end
          | None => Ok PNone
          end)).

(** [get_output(self, value, key=None, pair=False, table={}, context={})]. *)
Definition get_output (g : getjson J) (value key : pyval) (pair : bool)
    : res (list string) :=
  res_bind (get_output_format g 0) (fun fmt =>
    res_bind (if opt_eq_str fmt "urlencode" then Ok true
              else res_bind (get_output_format g 0) (fun fmt =>
                     Ok (opt_eq_str fmt "multipart/form-data"))) (fun quoted =>
      let display_value :=
        if quoted then url_quote (py_str value) else py_str value in
      Ok [if pair then py_str key +:+ String chr_tab "" +:+ display_value
          else display_value])).

(** [add_output(self, value, key=None, pair=False, table={}, context={})];
    [get_output] always hands back a list. *)
Definition add_output (value : pyval) : M (getjson J) unit :=
  (out <- (fun g => (g, get_output g value PNone false)) ;;
   output_extend out)%py.

(** [display_templated_text(self, text, table)]. *)
Definition display_templated_text (text : pyval) (table : list (string * pyval))
    : res string :=
  let data :=
    dict_update (dict_update (dict_update table
      "$n" (PStr (String chr_newline "")))
      "$t" (PStr (String chr_tab "")))
      "$json" (PStr (json_dumps (PDict table) PNone)) in
  match text with
  | PStr text => py_percent text data
  | _ => Raise TypeError
  end.

(** Property [data_keys]. *)
Definition data_keys (g : getjson J) : pyval :=
  match switches (base g) !! "key" with
  | Some v => v
  | None => PList []
  end.

(** [l_keys] of [display_data_dict]: the keys of the table when [keys] is
    [None] or empty, else the items of [keys]. *)
Definition dict_keys (d : list (string * pyval)) : list pyval :=
  map (fun kv => PStr (fst kv)) d.

Definition select_keys (table : list (string * pyval)) (keys : pyval)
    : res (list pyval) :=
  match keys with
  | PNone => Ok (dict_keys table)
  | PList [] => Ok (dict_keys table)
  | PList l => Ok l
  | PStr EmptyString => Ok (dict_keys table)
  | PStr s => Ok (map (fun c => PStr (String c "")) (list_ascii_of_string s))
  | PDict [] => Ok (dict_keys table)
  | PDict d => Ok (dict_keys d)
  | PBool _ | PInt _ | PFloat _ => Raise TypeError
  end.

(** [table[key]] for a dict with [str] keys. *)
Definition dict_getitem (table : list (string * pyval)) (key : pyval) : res pyval :=
  match key with
  | PStr k =>
      match dict_lookup table k with
      | Some v => Ok v
      | None => Raise KeyError
      end
  | PList _ | PDict _ => Raise TypeError
  | PNone | PBool _ | PInt _ | PFloat _ => Raise KeyError
  end.

(** The items of a list of [str]. *)
Fixpoint str_items (l : list pyval) : option (list string) :=
  match l with
  | [] => Some []
  | PStr s :: l' => option_map (cons s) (str_items l')
  | _ => None
  end.

(** [out.extend(lines)]. *)
Definition out_extend (out : pyval) (lines : list string) : res pyval :=
  match out with
  | PList l => Ok (PList (l ++ map PStr lines))
  | _ => Raise AttributeError
  end.

(** [sep.join(v)]: the items have to be [str]. *)
Definition join_value (sep : string) (v : pyval) : res string :=
  match v with
  | PList l =>
      match str_items l with
      | Some items => Ok (join sep items)
      | None => Raise TypeError
      end
  | PStr s => Ok (join sep (map (fun c => String c "") (list_ascii_of_string s)))
  | PDict d => Ok (join sep (map fst d))
  | PNone | PBool _ | PInt _ | PFloat _ => Raise TypeError
  end.

(** [self.output.extend(out)]; the lines of the output are [str]. *)
Definition output_extend_value (out : pyval) : M (getjson J) unit :=
  match out with
  | PList l =>
      match str_items l with
      | Some items => output_extend items
      | None => raise Unsupported
      end
  | PDict d => output_extend (map fst d)
  | PStr s => output_extend (map (fun c => String c "") (list_ascii_of_string s))
  | PNone | PBool _ | PInt _ | PFloat _ => raise TypeError
  end.

(** [{ **out, **{ key: value } }]. *)
Definition out_with_key (out key value : pyval) : res pyval :=
  match out with
  | PDict o =>
      match key with
      | PStr k => Ok (PDict (dict_update o k value))
      | PList _ | PDict _ => Raise TypeError
      | PNone | PBool _ | PInt _ | PFloat _ => Raise Unsupported
      end
  | _ => Raise TypeError
  end.

(** The loop [for key in l_keys] of [display_data_dict] inside its [try]:
    the value of [out] when the loop ends or is left by a [KeyError], and
    the [key] it was left at in that case. [body] is the body of the loop. *)
Fixpoint keys_loop (body : pyval -> pyval -> M (getjson J) pyval)
    (l_keys : list pyval) (out : pyval) : M (getjson J) (pyval * option pyval) :=
  match l_keys with
  | [] => ret (out, None)
  | key :: rest =>
      fun g =>
        match body key out g with
        | (g', Ok out') => keys_loop body rest out' g'
        | (g', Raise e) =>
            if is_KeyError e then (g', Ok (out, Some key)) else (g', Raise e)
        end
  end.

Definition result_of {A} (r : res A) : M (getjson J) A := fun g => (g, r).

(** [display_data], [display_data_dict] and [display_data_list]; [fuel]
    bounds the nesting of the calls. *)
Fixpoint display_data (fuel : nat) (table context parse : pyval) (depth : Z)
    {struct fuel} : M (getjson J) unit :=
  match fuel with
  | O => raise RecursionError
  | S fuel' =>
      match table with
      | PDict d =>
          (keys <- gets data_keys ;;
           display_data_dict fuel' d context parse keys (depth + 1))%py
      | PList l => display_data_list fuel' l context parse (depth + 1)
      | _ =>
          if negb (is_None table) || (1 <? depth) then add_output table
          else ret tt
      end
  end

with display_data_dict (fuel : nat) (table : list (string * pyval))
    (context parse keys : pyval) (depth : Z) {struct fuel} : M (getjson J) unit :=
  match fuel with
  | O => raise RecursionError
  | S fuel' =>
      (l_keys <- result_of (select_keys table keys) ;;
       json_mode <- (fun g => (g, wants_json_output g)) ;;
       let out := if json_mode then PDict [] else PList [] in
       table_mode <- (fun g => (g, wants_table g)) ;;
       let paired := table_mode || (1 <? Z.of_nat (length l_keys)) in
       let body (key out : pyval) : M (getjson J) pyval :=
         (json_mode <- (fun g => (g, wants_json_output g)) ;;
          if json_mode then
            without_key <- gets (fun g => switched (switches (base g)) "without-key" false) ;;
            if negb without_key then
              match out with
              | PDict _ =>
                  value <- result_of (dict_getitem table key) ;;
                  result_of (out_with_key out key value)
              | _ => raise TypeError
              end
            else result_of (dict_getitem table key)
          else if Z.of_nat (length l_keys) <? 2 then
            value <- result_of (dict_getitem table key) ;;
            match value with
            | PList l =>
                display_data_list fuel' l context parse (depth + 1) ;;;
                ret out
            | PDict d =>
                display_data_dict fuel' d context parse PNone (depth + 1) ;;;
                ret out
            | _ =>
                lines <- (fun g => (g, get_output g value key paired)) ;;
                result_of (out_extend out lines)
            end
          else
            value <- result_of (dict_getitem table key) ;;
            lines <- (fun g => (g, get_output g value key paired)) ;;
            result_of (out_extend out lines)) in
       looped <- keys_loop body l_keys out ;;
       let out := fst looped in
       (match snd looped with
        | Some key => add_flag key_error key
        | None => ret tt
        end) ;;;
       let last_key :=
         match snd looped with
         | Some key => Some key
         | None => last l_keys
         end in
       printf_mode <- (fun g => (g, wants_printf_output g)) ;;
       if printf_mode then
         try_except
           (template <- gets (fun g => switch g "template") ;;
            text <- result_of (display_templated_text template table) ;;
            output_extend [text])
           is_KeyError
           (fun _ =>
              match last_key with
              | Some key => add_flag key_error key
              | None => raise UnboundLocalError
              end)
       else
         json_mode <- (fun g => (g, wants_json_output g)) ;;
         if json_mode then
           indent <- (fun g => (g, get_json_indent g)) ;;
           output_extend [json_dumps out indent]
         else
           table_mode <- (fun g => (g, wants_table g)) ;;
           if table_mode || match context with PList _ => true | _ => false end then
             line <- result_of (join_value (String chr_tab "") out) ;;
             output_extend [line]
           else output_extend_value out)%py
  end

with display_data_list (fuel : nat) (table : list pyval)
    (context parse : pyval) (depth : Z) {struct fuel} : M (getjson J) unit :=
  match fuel with
  | O => raise RecursionError
  | S fuel' =>
      for_each table (fun item =>
        (ok <- (fun g => (g, selected g)) ;;
         keep <- result_of (ok item) ;;
         if keep then
           if py_truthy parse then
             display_data fuel' item context (PInt 0) (depth + 1)
           else
             match item with
             | PList _ =>
                 line <- result_of (join_value (String chr_tab "") item) ;;
                 output_extend [line]
             | _ => add_output item
             end
         else ret tt)%py)
  end.

(** [format_line(self, line)]. *)
Definition format_line (line : string) : M (getjson J) string :=
  (with_prolog <- gets (fun g => switched (switches (base g)) "prolog" false) ;;
   output <-
     (if negb with_prolog then ret line
      else fun g => (with_json (json g) g, Ok (add_prolog (json g) line))) ;;
   with_epilog <- gets (fun g => switched (switches (base g)) "epilog" false) ;;
   ret (if negb with_epilog then output else output +:+ String chr_newline ""))%py.

Fixpoint format_lines (lines : list string) : M (getjson J) (list string) :=
  match lines with
  | [] => ret []
  | line :: rest =>
      (l <- format_line line ;;
       ls <- format_lines rest ;;
       ret (l :: ls))%py
  end.

(** The end of a formatting pass, as [execute] has it:
    [oData = ADPNDataConverter(table)], [oData.output = self.output] and
    [oData.write_output(template=lambda s: self.format_line(s),
    end=self.get_output_terminator())], where [write_output] of
    [ADPNDataConverter] prints the lines, joined by the delimiter (a newline)
    and followed by [end], when there is a line at all. *)
Definition write_output : M (getjson J) unit :=
  (terminator <- (fun g => (g, get_output_terminator g None)) ;;
   lines <- gets _output ;;
   fmt <- format_lines lines ;;
   if 0 <? Z.of_nat (length fmt) then
     on_base (modify (print_to Stdout (join (String chr_newline "") fmt) terminator))
   else ret tt)%py.

(** One pass of the store over the input: the statements that stand both in
    the [try] and in the [except] of [get_json_input]. *)
Definition input_pass (lineInput : list string) (screen : bool) : M (getjson J) pyval :=
  (on_json (accept lineInput screen) ;;;
   ok <- (fun g => (g, selected g)) ;;
   on_json (select_where ok) ;;;
   gets (fun g => allData (json g)))%py.

(** The [try] ... [except json.decoder.JSONDecodeError] of [get_json_input]. *)
Definition input_table (lineInput : list string) : M (getjson J) pyval :=
  try_except (input_pass lineInput false) is_JSONDecodeError
    (fun _ => input_pass lineInput true).

(** The [if self.switched('key+')] of [get_json_input]. *)
Definition append_value (table : pyval) : M (getjson J) pyval :=
  (key <- gets (fun g => switch g "key+") ;;
   match table with
   | PDict d =>
       match key with
       | PStr k =>
           let old_value := dict_get d k in
           new_value <- gets (fun g => switch g "value+") ;;
           sw_value <- gets (fun g => switch g "value:") ;;
           let old_value := if is_None new_value then PNone else old_value in
           let new_value := if is_None new_value then sw_value else new_value in
           value <-
             (if is_None old_value then ret new_value
              else
                match old_value, new_value with
                | PList _, PList _ => result_of (py_add old_value new_value)
                | PList l, _ => ret (PList (l ++ [new_value]))
                | _, _ => result_of (py_add old_value new_value)
                end) ;;
           ret (PDict (dict_update d k value))
       | PList _ | PDict _ => raise TypeError
       | PNone | PBool _ | PInt _ | PFloat _ => raise Unsupported
       end
   | _ => raise AttributeError
   end)%py.

(** The [if self.switched('into')] of [get_json_input]. *)
Definition wrap_into (table : pyval) : M (getjson J) pyval :=
  (key <- gets (fun g => switch g "into") ;;
   match key with
   | PStr k => ret (PDict [(k, table)])
   | PList _ | PDict _ => raise TypeError
   | PNone | PBool _ | PInt _ | PFloat _ => raise Unsupported
   end)%py.

(** [get_json_input(self)]; [lineInput] is what [fileinput.input()] reads. *)
Definition get_json_input (lineInput : list string) : M (getjson J) pyval :=
  (table <- input_table lineInput ;;
   with_key <- gets (fun g => switched (switches (base g)) "key+" false) ;;
   table <- (if with_key then append_value table else ret table) ;;
   with_into <- gets (fun g => switched (switches (base g)) "into" false) ;;
   if with_into then wrap_into table else ret table)%py.

Definition json_error_message (err : string) : string :=
  "JSON encoding error. Could not extract data or key-value pairs from the provided data: '"
  +:+ str_strip err +:+ "'".

(** The body of [execute] on the path of a query, that is, when none of
    [--help], [--version], [--regex] or [--key] together with [--value] is
    switched; the other paths are not embedded. *)
Definition query (fuel : nat) (lineInput : list string) : M (getjson J) unit :=
  (try_except
     (table <- get_json_input lineInput ;;
      parse <- gets (fun g => switch g "parse") ;;
      display_data fuel table table parse 0 ;;;
      write_output)
     is_JSONDecodeError
     (fun _ =>
        text <- (fun g => (with_json (json g) g, Ok (raw (json g)))) ;;
        add_flag json_error text) ;;;
   errors <- gets (fun g => flags_get (_flags g) json_error) ;;
   for_each errors (fun err =>
     quiet <- gets (fun g => switched (switches (base g)) "quiet" false) ;;
     if negb quiet then
       match err with
       | PStr err => write_error (Some 2) (json_error_message err) ""
       | _ => raise AttributeError
       end
     else ret tt))%py.

(** [execute(self, terminate=True)] on the path of a query, to the end of the
    process. *)
Definition execute (fuel : nat) (lineInput : list string) (g : getjson J)
    : getjson J * outcome :=
  match query fuel lineInput g with
  | (g', Ok _) => exit g'
  | (g', Raise e) => (g', Uncaught e)
  end.

(** [__init__(self, scriptpath, argv, switches, scriptname)]. *)
Definition init (name : string) (sw : gmap string pyval) : getjson J * res unit :=
  let (b, r) := CommandLineTool.init name sw in
  ({| base := b; _output := []; _flags := no_flags;
      _default_mime := "text/plain"; _json := None |}, r).

End GetJSON.

End GetJSON.

(** ** [adpn-do-package.py]: class [ADPNPackageContentScript] *)

Module PackageContent.
Import CommandLineTool.

Section PackageContent.

(** Functions of the runtime: [str(v)], the text that [print] shows for the
    tuple [e.args], and [os.path.realpath]. *)
Context (py_str : pyval -> string)
        (py_str_args : list pyval -> string)
        (realpath : string -> string).

(** [e.args[i]]. *)
Definition arg (args : list pyval) (i : nat) : res pyval :=
  match args !! i with
  | Some v => Ok v
  | None => Raise IndexError
  end.

(** [os.path.realpath(v)]. *)
Definition realpath_of (v : pyval) : res string :=
  match v with
  | PStr p => Ok (realpath p)
  | _ => Raise TypeError
  end.

(** The exit status in [e.args[3]], an [int]; [100 + v] and the conversion
    [%d] are not followed for a float. *)
Definition exit_status (v : pyval) : res Z :=
  match v with
  | PInt n => Ok n
  | PBool b => Ok (Z.b2z b)
  | PFloat _ => Raise Unsupported
  | PNone | PStr _ | PList _ | PDict _ => Raise TypeError
  end.

(** [[ parameter for parameter in req if self.switches.get(parameter) is None ]]. *)
Fixpoint missing_of (sw : gmap string pyval) (req : list pyval) : res (list pyval) :=
  match req with
  | [] => Ok []
  | parameter :: rest =>
      match parameter with
      | PList _ | PDict _ => Raise TypeError
      | PStr name =>
          res_bind (missing_of sw rest) (fun missing =>
            Ok (if is_None (switches_get sw name) then parameter :: missing else missing))
      | PNone | PBool _ | PInt _ | PFloat _ =>
          res_bind (missing_of sw rest) (fun missing => Ok (parameter :: missing))
      end
  end.

(** The items that [for parameter in req] goes through. *)
Definition items_of (req : pyval) : res (list pyval) :=
  match req with
  | PList l => Ok l
  | PStr s => Ok (map (fun c => PStr (String c "")) (list_ascii_of_string s))
  | PDict d => Ok (map (fun kv => PStr (fst kv)) d)
  | PNone | PBool _ | PInt _ | PFloat _ => Raise TypeError
  end.

(** [sep.join(items)]. *)
Definition join_items (sep : string) (items : list pyval) : res string :=
  match GetJSON.str_items items with
  | Some l => Ok (join sep l)
  | None => Raise TypeError
  end.

(** [except AssertionError as e] of [execute]. *)
Definition on_assertion (args : list pyval) : M tool unit :=
  (a0 <- lift (arg args 0) ;;
   if eq_str a0 "BagIt" then
     a3 <- lift (arg args 3) ;;
     code <- lift (exit_status a3) ;;
     a1 <- lift (arg args 1) ;;
     a2 <- lift (arg args 2) ;;
     path <- lift (realpath_of a2) ;;
     write_error (Some (100 + code))
       (py_str a1 +:+ " on " +:+ path +:+ ", exit code " +:+ py_str (PInt code)
        +:+ ". Output:") "" ;;;
     a4 <- lift (arg args 4) ;;
     items <- lift (items_of a4) ;;
     text <- lift (join_items (String chr_newline "") items) ;;
     print Stderr text
   else
     a0 <- lift (arg args 0) ;;
     if eq_str a0 "manifest" then
       a1 <- lift (arg args 1) ;;
       a2 <- lift (arg args 2) ;;
       path <- lift (realpath_of a2) ;;
       a3 <- lift (arg args 3) ;;
       write_error (Some 4)
         (py_str a1 +:+ " for " +:+ path +:+ ". Required boilerplate: " +:+ py_str a3) ""
     else if Z.of_nat (length args) =? 2 then
       req <- lift (arg args 1) ;;
       print Stderr "ERR:" ;;;
       print Stderr (py_str_args args) ;;;
       items <- lift (items_of req) ;;
       sw <- gets switches ;;
       missing <- lift (missing_of sw items) ;;
       text <- lift (join_items ", " missing) ;;
       write_error (Some 2) ("Required parameter missing: " +:+ text) ""
     else
       message <- lift (arg args 0) ;;
       write_error (Some 2) ("Requirement failure: " +:+ py_str message) "")%py.

(** The three [except] clauses of [execute]. *)
Definition handler (e : exn) : M tool unit :=
  match e with
  | AssertionError args => on_assertion args
  | KeyboardInterrupt =>
      write_error (Some 255) "Keyboard Interrupt." ("^C" +:+ String chr_newline "")
  | FileNotFoundError =>
      (code <- gets exitcode ;;
       if 3 =? code then ret tt else raise FileNotFoundError)%py
  | _ => raise e
  end.

Definition handled (e : exn) : bool :=
  match e with
  | AssertionError _ | KeyboardInterrupt | FileNotFoundError => true
  | _ => false
  end.

(** [execute(self, terminate=True)] to the end of the process, when neither
    [--help] nor [--version] is switched. [steps] stands for the statements
    of the [try], which run the steps of the packaging through classes that
    are not part of the embedded sources. *)
Definition execute (steps : M tool unit) (t : tool) : tool * outcome :=
  match try_except steps handled handler t with
  | (t', Ok _) => (t', exit t')
  | (t', Raise e) => (t', Uncaught e)
  end.

End PackageContent.

End PackageContent.

(** ** The JSON Packet Store, from the specification *)

Module PacketStore.

Definition chr_quote : ascii := Ascii.ascii_of_nat 34.

Definition chr_backslash : ascii := Ascii.ascii_of_nat 92.

(** Modelled from the spec: the search for a balanced span of class
    [myPyJSON], which is not among the sources (section 4.2, and the scanner
    of section 9: quote state and brace depth, character by character).
    [close_span s depth quoted escaped] is the text up to and including the
    brace that closes [depth + 1] open braces. *)
Fixpoint close_span (s : string) (depth : nat) (quoted escaped : bool) : option string :=
  match s with
  | EmptyString => None
  | String c s' =>
      option_map (String c)
        (if quoted then
           if escaped then close_span s' depth true false
           else if Ascii.eqb c chr_backslash then close_span s' depth true true
           else if Ascii.eqb c chr_quote then close_span s' depth false false
           else close_span s' depth true false
         else if Ascii.eqb c chr_quote then close_span s' depth true false
         else if Ascii.eqb c "{" then close_span s' (S depth) false false
         else if Ascii.eqb c "}" then
           match depth with
           | O => Some EmptyString
           | S depth' => close_span s' depth' false false
           end
         else close_span s' depth false false)
  end.

(** Modelled from the spec: the first balanced [{...}] substring of a line,
    for class [myPyJSON], which is not among the sources (section 4.2). *)
Fixpoint first_balanced (line : string) : option string :=
  match line with
  | EmptyString => None
  | String c rest =>
      if Ascii.eqb c "{" then
        match close_span rest 0 false false with
        | Some span => Some (String c span)
        | None => first_balanced rest
        end
      else first_balanced rest
  end.

(** Modelled from the spec: the state of an object of class [myPyJSON],
    which is not among the sources: its two modes, the accumulated packet
    and the text it was last given (section 4.2). *)
Record store : Type := {
  splat : bool;
  cascade : bool;
  packet : list (string * pyval);
  raw_text : pyval;
}.

Section PacketStore.

(** [json.loads], with nothing for a text that it does not decode. *)
Context (json_loads : string -> option pyval).

(** Modelled from the spec: the extraction of class [myPyJSON], which is not
    among the sources (section 4.2): a line is parsed as it is; when that
    fails, the pass ends with a decode error, or, in screen mode, the first
    balanced span of the line is parsed, and the line gives nothing when
    that fails too. *)
Definition extract (screen : bool) (line : string) : res (option pyval) :=
  match json_loads line with
  | Some v => Ok (Some v)
  | None =>
      if screen then
        match first_balanced line with
        | Some span => Ok (json_loads span)
        | None => Ok None
        end
      else Raise JSONDecodeError
  end.

(** Modelled from the spec: the shallow merge at the top level of class
    [myPyJSON], which is not among the sources (sections 3 and 4.2): the
    keys of the later object overwrite. *)
Definition merge (acc : list (string * pyval)) (v : pyval) : list (string * pyval) :=
  match v with
  | PDict d => fold_left (fun a kv => dict_update a (fst kv) (snd kv)) d acc
  | _ => acc
  end.

(** Modelled from the spec: one pass of [accept] of class [myPyJSON], which
    is not among the sources, over the lines: the packet merged so far and
    whether a line has given an object. *)
Fixpoint accept_lines (screen : bool) (lines : list string)
    (acc : list (string * pyval)) (found : bool)
    : list (string * pyval) * res bool :=
  match lines with
  | [] => (acc, Ok found)
  | line :: rest =>
      match extract screen line with
      | Ok (Some v) => accept_lines screen rest (merge acc v) true
      | Ok None => accept_lines screen rest acc found
      | Raise e => (acc, Raise e)
      end
  end.

(** Modelled from the spec: [accept] of class [myPyJSON], which is not among
    the sources (section 4.2); it fails with a decode error when no line
    yields valid JSON. *)
Definition store_accept (lines : list string) (screen : bool) : M store unit :=
  fun st =>
    let (acc, r) := accept_lines screen lines (packet st) false in
    let st' := {| splat := splat st; cascade := cascade st; packet := acc;
                  raw_text := PStr (join (String chr_newline "") lines) |} in
    match r with
    | Ok true => (st', Ok tt)
    | Ok false => (st', Raise JSONDecodeError)
    | Raise e => (st', Raise e)
    end.

(** Modelled from the spec: the splat of class [myPyJSON], which is not
    among the sources (section 4.2): a value that is a sequence of one
    element is unwrapped to that element. *)
Definition unsplat (v : pyval) : pyval :=
  match v with
  | PList [x] => x
  | _ => v
  end.

(** Modelled from the spec: [allData] of class [myPyJSON], which is not
    among the sources (section 4.2). *)
Definition store_allData (st : store) : pyval :=
  PDict (if splat st then map (fun kv => (fst kv, unsplat (snd kv))) (packet st)
         else packet st).

(** Modelled from the spec: class [myPyJSON], which is not among the
    sources, as an implementation of the interface. The specification gives
    [select_where] no effect on a packet that is a mapping, and the label of
    a packet on the wire as the prolog. *)
#[local] Instance spec_store : MyPyJSON store := {|
  new_store := fun sp ca =>
    {| splat := sp; cascade := ca; packet := []; raw_text := PNone |};
  accept := store_accept;
  select_where := fun _ => ret tt;
  allData := store_allData;
  raw := raw_text;
  add_prolog := fun _ line => "JSON PACKET:" +:+ String chr_tab "" +:+ line;
|}.

End PacketStore.

(** A decoder of JSON texts for the values of objects, arrays, strings with
    the one-letter escapes, integers and the three literals; it decodes no
    other text. *)
Definition is_json_space (c : ascii) : bool :=
  let n := N_of_ascii c in ((n =? 32) || (n =? 9) || (n =? 10) || (n =? 13))%N.

Definition unescape (c : ascii) : option ascii :=
  if Ascii.eqb c chr_quote then Some chr_quote
  else if Ascii.eqb c chr_backslash then Some chr_backslash
  else if Ascii.eqb c "/" then Some "/"%char
  else if Ascii.eqb c "b" then Some (Ascii.ascii_of_nat 8)
  else if Ascii.eqb c "f" then Some (Ascii.ascii_of_nat 12)
  else if Ascii.eqb c "n" then Some (Ascii.ascii_of_nat 10)
  else if Ascii.eqb c "r" then Some (Ascii.ascii_of_nat 13)
  else if Ascii.eqb c "t" then Some (Ascii.ascii_of_nat 9)
  else None.

Definition prepend (c : ascii) (r : option (string * string)) : option (string * string) :=
  match r with
  | Some (t, rest) => Some (String c t, rest)
  | None => None
  end.

(** The characters of a JSON string after its opening quote, and the text
    after its closing quote. *)
Fixpoint read_string (s : string) : option (string * string) :=
  match s with
  | EmptyString => None
  | String c s' =>
      if Ascii.eqb c chr_quote then Some (EmptyString, s')
      else if Ascii.eqb c chr_backslash then
        match s' with
        | String e s'' =>
            match unescape e with
            | Some ch => prepend ch (read_string s'')
            | None => None
            end
        | EmptyString => None
        end
      else if (N_of_ascii c <? 32)%N then None
      else prepend c (read_string s')
  end.

(** An integer of JSON without its sign: a zero, or digits that do not start
    with a zero. *)
Definition read_natural (s : string) : option (Z * string) :=
  match span_digits s with
  | (EmptyString, _) => None
  | (String "0" EmptyString, rest) => Some (0, rest)
  | (String "0" _, _) => None
  | (ds, rest) => Some (digits_value 0 ds, rest)
  end.

Definition read_scalar (s : string) : option (pyval * string) :=
  match strip_prefix "null" s with
  | Some rest => Some (PNone, rest)
  | None =>
  match strip_prefix "true" s with
  | Some rest => Some (PBool true, rest)
  | None =>
  match strip_prefix "false" s with
  | Some rest => Some (PBool false, rest)
  | None =>
  match s with
  | String "-" s' =>
      match read_natural s' with
      | Some (n, rest) => Some (PInt (- n), rest)
      | None => None
      end
  | _ =>
      match read_natural s with
      | Some (n, rest) => Some (PInt n, rest)
      | None => None
      end
  end end end end.

Fixpoint read_value (fuel : nat) (s : string) {struct fuel} : option (pyval * string) :=
  match fuel with
  | O => None
  | S fuel' =>
      match lstrip is_json_space s with
      | EmptyString => None
      | String c rest =>
          if Ascii.eqb c "{" then
            match lstrip is_json_space rest with
            | String "}" rest' => Some (PDict [], rest')
            | _ => read_members fuel' rest []
            end
          else if Ascii.eqb c "[" then
            match lstrip is_json_space rest with
            | String "]" rest' => Some (PList [], rest')
            | _ => read_elements fuel' rest []
            end
          else if Ascii.eqb c chr_quote then
            match read_string rest with
            | Some (t, rest') => Some (PStr t, rest')
            | None => None
            end
          else read_scalar (String c rest)
      end
  end

with read_elements (fuel : nat) (s : string) (acc : list pyval) {struct fuel}
    : option (pyval * string) :=
  match fuel with
  | O => None
  | S fuel' =>
      match read_value fuel' s with
      | Some (v, rest) =>
          match lstrip is_json_space rest with
          | String "," rest' => read_elements fuel' rest' (acc ++ [v])
          | String "]" rest' => Some (PList (acc ++ [v]), rest')
          | _ => None
          end
      | None => None
      end
  end

with read_members (fuel : nat) (s : string) (acc : list (string * pyval)) {struct fuel}
    : option (pyval * string) :=
  match fuel with
  | O => None
  | S fuel' =>
      match lstrip is_json_space s with
      | String c rest =>
          if Ascii.eqb c chr_quote then
            match read_string rest with
            | Some (key, rest1) =>
                match lstrip is_json_space rest1 with
                | String ":" rest2 =>
                    match read_value fuel' rest2 with
                    | Some (v, rest3) =>
                        match lstrip is_json_space rest3 with
                        | String "," rest4 => read_members fuel' rest4 (dict_update acc key v)
                        | String "}" rest4 => Some (PDict (dict_update acc key v), rest4)
                        | _ => None
                        end
                    | None => None
                    end
                | _ => None
                end
            | None => None
            end
          else None
      | EmptyString => None
      end
  end.

Definition decode (text : string) : option pyval :=
  match read_value (2 * String.length text + 2) text with
  | Some (v, rest) =>
      match lstrip is_json_space rest with
      | EmptyString => Some v
      | _ => None
      end
  | None => None
  end.

(** The double quote, for writing JSON texts. *)
Definition q : string := String chr_quote "".

End PacketStore.

(** ** Definitions for the statements *)

(** A text of digits [0-9] only. *)
Fixpoint all_digits (s : string) : bool :=
  match s with
  | String c s' => is_digit c && all_digits s'
  | EmptyString => true
  end.

Fixpoint no_newline (s : string) : bool :=
  match s with
  | String c s' => negb (Ascii.eqb c chr_newline) && no_newline s'
  | EmptyString => true
  end.

(** A text without a line break, but for one newline that may end it. *)
Definition single_line (s : string) : Prop :=
  exists body, no_newline body = true /\
    (s = body \/ s = body +:+ String chr_newline "").

(** The specification's pattern for a number with a comment, [^ ( \d+ ) ,]:
    digits and a comma at the start of the text, whatever follows. *)
Definition spec_leading_number (s : string) : option string :=
  match span_digits s with
  | (EmptyString, _) => None
  | (ds, String "," _) => Some ds
  | _ => None
  end.

(** The value of the last pair of [pairs] whose name is [name]. *)
Fixpoint last_named (name : string) (pairs : list (pyval * pyval)) : option pyval :=
  match pairs with
  | [] => None
  | (n, v) :: rest =>
      match last_named name rest with
      | Some v' => Some v'
      | None => if eq_str n name then Some v else None
      end
  end.

(** A list of [[name, value]] pairs as a value. *)
Definition pairs_value (pairs : list (pyval * pyval)) : list pyval :=
  map (fun nv => PList [fst nv; snd nv]) pairs.

(** The exit code that the specification gives a run of the JSON query
    tool, from its flags. *)
Definition priority_code (fl : GetJSON.flags) : Z :=
  match GetJSON.flag_json_error fl, GetJSON.flag_key_error fl, GetJSON.flag_output_error fl with
  | _ :: _, _, _ => 2
  | [], _ :: _, _ => 1
  | [], [], _ :: _ => 254
  | [], [], [] => 0
  end.

(** What a console shows on one stream. *)
Definition shown_on (s : stream) (console : list (stream * string)) : list string :=
  omap (fun e => match e, s with
                 | (Stdout, text), Stdout => Some text
                 | (Stderr, text), Stderr => Some text
                 | _, _ => None
                 end) console.

(** A store that keeps, next to the state of a store [J], the calls of
    [accept] it has received: the lines and the flag [screen]. *)
Definition call_log : Type := list (list string * bool).

#[local] Instance logged (J : Type) `{MyPyJSON J} : MyPyJSON (J * call_log) := {|
  new_store := fun sp ca => (new_store sp ca, []);
  accept := fun lines screen st =>
    let (j', r) := accept lines screen (fst st) in
    ((j', (snd st ++ [(lines, screen)])%list), r);
  select_where := fun ok st =>
    let (j', r) := select_where ok (fst st) in ((j', snd st), r);
  allData := fun st => allData (fst st);
  raw := fun st => raw (fst st);
  add_prolog := fun st line => add_prolog (fst st) line;
|}.

(** The operations of [ADPNCommandLineTool] that assign the exit code. *)
Inductive exit_op : Type :=
| Assign_exitcode (code : Z)
| Call_set_exitcode (code : Z)
| Call_write_error (code : option Z) (message prefix : string).

Definition run_exit_op (op : exit_op) : M CommandLineTool.tool unit :=
  match op with
  | Assign_exitcode code => CommandLineTool.exitcode_setter code
  | Call_set_exitcode code => CommandLineTool.set_exitcode code
  | Call_write_error code message prefix =>
      CommandLineTool.write_error code message prefix
  end.

(** The object after a sequence of these operations, each of which may have
    raised. *)
Fixpoint run_exit_ops (ops : list exit_op) (t : CommandLineTool.tool)
    : CommandLineTool.tool :=
  match ops with
  | [] => t
  | op :: rest => run_exit_ops rest (fst (run_exit_op op t))
  end.

(** Objects and inputs for the examples. *)
Definition no_switches : gmap string pyval := ∅.

Definition package_tool : CommandLineTool.tool :=
  fst (CommandLineTool.init "adpn-do-package.py" {[ "output" := PStr "text/plain"; "verbose" := PInt 1 ]}).

Definition json_package_tool : CommandLineTool.tool :=
  fst (CommandLineTool.init "adpn-do-package.py"
         {[ "output" := PStr "application/json"; "verbose" := PInt 1 ]}).

Definition example_store : MyPyJSON PacketStore.store :=
  PacketStore.spec_store PacketStore.decode.

Definition piped (text : string) : ScriptPipeline.pipeline PacketStore.store :=
  {| ScriptPipeline._stream_in := {| ScriptPipeline.is_piped := true; ScriptPipeline.unread := text |};
     ScriptPipeline._pipelines := None;
     ScriptPipeline._conditional := false;
     ScriptPipeline.json := @new_store _ example_store true false |}.

(** The text [[["foo","bar"],["baz","qux"]]]. *)
Definition pairs_text : string :=
  "[[" +:+ PacketStore.q +:+ "foo" +:+ PacketStore.q +:+ ","
  +:+ PacketStore.q +:+ "bar" +:+ PacketStore.q +:+ "],["
  +:+ PacketStore.q +:+ "baz" +:+ PacketStore.q +:+ ","
  +:+ PacketStore.q +:+ "qux" +:+ PacketStore.q +:+ "]]".

(** The text [{"parameters": [["foo","bar"],["baz","qux"]]}]. *)
Definition parameters_text : string :=
  "{" +:+ PacketStore.q +:+ "parameters" +:+ PacketStore.q +:+ ": "
  +:+ pairs_text +:+ "}".

(** The text [{"@foo": "direct", "parameters": [["foo","bar"],["baz","qux"]]}]. *)
Definition shadowed_text : string :=
  "{" +:+ PacketStore.q +:+ "@foo" +:+ PacketStore.q +:+ ": "
  +:+ PacketStore.q +:+ "direct" +:+ PacketStore.q +:+ ", "
  +:+ PacketStore.q +:+ "parameters" +:+ PacketStore.q +:+ ": "
  +:+ pairs_text +:+ "}".

(** The option table [{"au_title": None, "jar": "plugin.jar"}] at the
    address 1, next to a pipeline. *)
Definition example_world (text : string) : ScriptPipeline.world PacketStore.store :=
  {| ScriptPipeline.self := piped text;
     ScriptPipeline.heap :=
       {[ 1%positive := {[ "au_title" := PNone; "jar" := PStr "plugin.jar" ]} ]} |}.

(** The text [{"AU Title": "Minutes 1901"}]. *)
Definition title_text : string :=
  "{" +:+ PacketStore.q +:+ "AU Title" +:+ PacketStore.q +:+ ": "
  +:+ PacketStore.q +:+ "Minutes 1901" +:+ PacketStore.q +:+ "}".

(** The text [{"a":1}]. *)
Definition a1_text : string :=
  "{" +:+ PacketStore.q +:+ "a" +:+ PacketStore.q +:+ ":1}".

(** The text [{"k":1}], and the same with noise around it. *)
Definition k1_text : string :=
  "{" +:+ PacketStore.q +:+ "k" +:+ PacketStore.q +:+ ":1}".

Definition noisy_text : string := "Some noise " +:+ k1_text +:+ " trailing text".

(** [str(v)] for the values of the examples: the text of a [str], the
    decimals of a small natural number. *)
Definition example_str (v : pyval) : string :=
  match v with
  | PStr s => s
  | PInt z => String (Ascii.ascii_of_N (48 + Z.to_N z)) ""
  | _ => ""
  end.

(** The line that [write_status] prints. *)
Definition status_text (t : CommandLineTool.tool) (message : string)
    (prolog : option string) (is_notice : bool) : string :=
  (if is_notice then
     match prolog with
     | None => ("[" +:+ CommandLineTool.scriptname t +:+ "] ") +:+ message
     | Some prolog => (prolog +:+ " ") +:+ message
     end
   else message) +:+ String chr_newline "".

(** A line of the output as [format_line] hands it to [print]: with the
    prolog of the store before it, and a newline as epilog after it, as the
    switches ask. *)
Definition formatted {J : Type} `{MyPyJSON J} (g : GetJSON.getjson J) (line : string)
    : string :=
  let sw := CommandLineTool.switches (GetJSON.base g) in
  let labelled :=
    if CommandLineTool.switched sw "prolog" false
    then add_prolog (GetJSON.json g) line else line in
  if CommandLineTool.switched sw "epilog" false
  then labelled +:+ String chr_newline "" else labelled.

(** A regular expression engine for the examples: every pattern compiles,
    and matches every subject. *)
Definition match_all (pattern : string) : option (string -> bool) :=
  Some (fun _ => true).

(** An [ADPNGetJSON] object after a use of its property [json]. *)
Definition used_json {J : Type} `{MyPyJSON J} (g : GetJSON.getjson J)
    : GetJSON.getjson J :=
  GetJSON.with_json (GetJSON.json g) g.

(** The calls of [accept] that the store of an [ADPNGetJSON] object has
    received. *)
Definition accept_calls {J : Type} `{MyPyJSON J}
    (g : GetJSON.getjson (J * call_log)) : call_log :=
  snd (GetJSON.json g).

(** An [ADPNGetJSON] object as the query tool makes it, without switches. *)
Definition query_tool : GetJSON.getjson PacketStore.store :=
  fst (GetJSON.init "adpn-json.py" no_switches).

(** The switch [output] holds a text, or nothing. *)
Definition output_is_text {J : Type} (g : GetJSON.getjson J) : Prop :=
  GetJSON.switch g "output" = PNone \/ exists s, GetJSON.switch g "output" = PStr s.

(** Two states of an [ADPNGetJSON] object that differ by the store only. *)
Definition same_attributes {J : Type} (g g1 : GetJSON.getjson J) : Prop :=
  GetJSON.base g1 = GetJSON.base g /\
  GetJSON._output g1 = GetJSON._output g /\
  GetJSON._flags g1 = GetJSON._flags g /\
  GetJSON._default_mime g1 = GetJSON._default_mime g.

(** The query tool as it is made for [--key=missing]. *)
Definition missing_key_tool : GetJSON.getjson PacketStore.store :=
  fst (GetJSON.init "adpn-json.py" {[ "key" := PList [PStr "missing"] ]}).

(** The text [{"items":[{"name":"x"},{"id":1}]}], and the query tool as it
    is made for [--key=items --where=name:/x/]. *)
Definition items_text : string :=
  "{" +:+ PacketStore.q +:+ "items" +:+ PacketStore.q +:+ ":[{"
  +:+ PacketStore.q +:+ "name" +:+ PacketStore.q +:+ ":"
  +:+ PacketStore.q +:+ "x" +:+ PacketStore.q +:+ "},{"
  +:+ PacketStore.q +:+ "id" +:+ PacketStore.q +:+ ":1}]}".

Definition where_tool : GetJSON.getjson PacketStore.store :=
  fst (GetJSON.init "adpn-json.py"
         {[ "key" := PList [PStr "items"]; "where" := PStr "name:/x/" ]}).

(** The text [{"a":1,"b":2}], and the query tool as it is made for
    [--key=a --key=b]. *)
Definition ab_text : string :=
  "{" +:+ PacketStore.q +:+ "a" +:+ PacketStore.q +:+ ":1,"
  +:+ PacketStore.q +:+ "b" +:+ PacketStore.q +:+ ":2}".

Definition two_keys_tool : GetJSON.getjson PacketStore.store :=
  fst (GetJSON.init "adpn-json.py" {[ "key" := PList [PStr "a"; PStr "b"] ]}).

Definition one_key_tool : GetJSON.getjson PacketStore.store :=
  fst (GetJSON.init "adpn-json.py" {[ "key" := PList [PStr "a"] ]}).

(** ** [ADPNCommandLineTool.py]: the output of a tool *)

Module ToolOutput.
Import CommandLineTool.

(** What follows [json] in a subject matched by the pattern
    [^ ( [^/]+ / )? ( json ) ( ; .* )? $]: nothing, a newline that ends the
    subject, or a semicolon and a rest on a single line. *)
Definition json_tail (rest : string) : bool :=
  match rest with
  | EmptyString => true
  | String c r =>
      if Ascii.eqb c ";" then
        match dotstar_eol r with Some _ => true | None => false end
      else if Ascii.eqb c chr_newline then
        match r with EmptyString => true | _ => false end
      else false
  end.

Definition after_json (s : string) : bool :=
  match strip_prefix "json" s with
  | Some rest => json_tail rest
  | None => false
  end.

(** Whether [re.match] finds the pattern
    [^ ( [^/]+ / )? ( json ) ( ; .* )? $] in [s]: with a major type, which is
    the text before the first slash and is not empty, or without one. *)
Definition re_match_json (s : string) : bool :=
  match split_once "/" s with
  | (major, Some rest) => (nonempty major && after_json rest) || after_json s
  | (_, None) => after_json s
  end.

(** Property [json_output]: [self.switches.get('output', '')] is the empty
    text only when the table has no key [output]. *)
Definition json_output (t : tool) : res bool :=
  match switches t !! "output" with
  | None => Ok (re_match_json "")
  | Some (PStr s) => Ok (re_match_json s)
  | Some _ => Raise TypeError
  end.

Section ToolOutput.

(** Functions of the runtime: [str(v)] and [json.dumps(v)]. *)
Context (py_str : pyval -> string) (json_dumps : pyval -> string).

(** [write_output(self, data, prolog=None, json_encode=None, end, stream)];
    [json_encode] is [None], [True] or [False]; the prolog is printed
    without a [file] argument. *)
Definition write_output (data : pyval) (prolog : option string)
    (json_encode : option bool) (terminator : string) (s : stream) : M tool unit :=
  ((match prolog with
    | Some text =>
        if nonempty text then modify (print_to Stdout text "") else ret tt
    | None => ret tt
    end) ;;;
   encode <-
     (match json_encode with
      | Some b => ret b
      | None => fun t => (t, json_output t)
      end) ;;
   if encode then modify (print_to s (json_dumps data) terminator)
   else modify (print_to s (py_str data) terminator))%py.

End ToolOutput.

End ToolOutput.

(** ** [adpn-json.py]: class [ADPNDataConverter] *)

Module DataConverter.

Record converter : Type := {
  data : pyval;
  _output : list string;
  _mime : string;
}.

(** The message of the assertion of [add_output]. *)
Definition lines_message : string :=
  "argument lines must be a str or a list of str".

(** [add_output(self, lines)]: the items are checked on [to_add], and the
    output is extended with [lines] itself, whose items are its characters
    when it is a [str]. *)
Definition add_output (lines : pyval) : M converter unit :=
  match lines with
  | PStr s =>
      modify (fun c =>
        {| data := data c;
           _output := _output c ++ map (fun ch => String ch "") (list_ascii_of_string s);
           _mime := _mime c |})
  | PList l =>
      match GetJSON.str_items l with
      | Some items =>
          modify (fun c =>
            {| data := data c; _output := _output c ++ items; _mime := _mime c |})
      | None => raise (AssertionError [PStr lines_message])
      end
  | _ => raise TypeError
  end.

(** [write_output(self, template, where, delimiter, end, file)]: what it
    prints. [template] and [where] are the callables, when given; [end] is
    the end of [print], a newline when it is [None]. *)
Definition write_output (template : option (string -> string))
    (where_ : option (string -> bool)) (delimiter : string)
    (terminator : option string) (file : stream) (c : converter)
    : list (stream * string) :=
  let ok := match where_ with Some f => f | None => fun _ => true end in
  let tmpl := match template with Some f => f | None => fun s => s end in
  let fmt := map tmpl (List.filter ok (_output c)) in
  if 0 <? Z.of_nat (length fmt) then
    [(file, join delimiter fmt
            +:+ match terminator with
                | Some e => e
                | None => String chr_newline ""
                end)]
  else [].

End DataConverter.

(** ** [adpn-do-package.py]: the title and the subdirectory of a package *)

Module PackageTitle.

(** The attributes of [ADPNPackageContentScript] that the title is read
    from. *)
Record script : Type := {
  switches : gmap string pyval;
  manifest_data : pyval;
}.

Section PackageTitle.

(** What [self.package.read_manifest_data()] returns; the class of the
    package is not part of the embedded sources. *)
Context (read_manifest_data : pyval).

(** [get_manifest_data(self, key=None)]. *)
Definition get_manifest_data (key : option string) : M script pyval :=
  ((fun s =>
      if is_None (manifest_data s)
      then ({| switches := switches s; manifest_data := read_manifest_data |}, Ok tt)
      else (s, Ok tt)) ;;;
   manifest <- gets manifest_data ;;
   match manifest with
   | PDict d =>
       match key with
       | Some key => ret (dict_get d key)
       | None => ret manifest
       end
   | _ => ret PNone
   end)%py.

(** Property [subdirectory], read; the global [switches] of the script is
    the table of the object. *)
Definition subdirectory (s : script) : pyval :=
  if negb (is_None (switches_get (switches s) "directory"))
  then switches_get (switches s) "directory"
  else switches_get (switches s) "subdirectory".

(** Property [subdirectory], assigned. *)
Definition subdirectory_setter (rhs : pyval) (s : script) : script :=
  {| switches := <["directory" := rhs]> (<["subdirectory" := rhs]> (switches s));
     manifest_data := manifest_data s |}.

(** [get_au_title(self, load_manifest=True, use_directory=False)]. *)
Definition get_au_title (load_manifest use_directory : bool) : M script pyval :=
  (au_title <- gets (fun s => switches_get (switches s) "au_title") ;;
   au_title <-
     (if load_manifest && negb (py_truthy au_title)
      then get_manifest_data (Some "AU Package") else ret au_title) ;;
   au_title <-
     (if load_manifest && negb (py_truthy au_title)
      then get_manifest_data (Some "Ingest Title") else ret au_title) ;;
   if use_directory && negb (py_truthy au_title)
   then gets subdirectory else ret au_title)%py.

(** Property [au_title], read. *)
Definition au_title : M script pyval := get_au_title false false.

End PackageTitle.

End PackageTitle.

(** ** Definitions for the statements about the further code *)

(** [s] without the characters that satisfy [sep]. *)
Fixpoint without (sep : ascii -> bool) (s : string) : string :=
  match s with
  | EmptyString => EmptyString
  | String c s' => if sep c then without sep s' else String c (without sep s')
  end.

(** Whether a character of [s] satisfies [sep]. *)
Fixpoint has_char (sep : ascii -> bool) (s : string) : bool :=
  match s with
  | EmptyString => false
  | String c s' => sep c || has_char sep s'
  end.

(** The texts of a list, one after the other. *)
Fixpoint concat_all (l : list string) : string :=
  match l with
  | [] => EmptyString
  | p :: ps => p +:+ concat_all ps
  end.

(** A conditional pipeline on a terminal: nothing is piped. *)
Definition on_terminal (text : string) : ScriptPipeline.pipeline PacketStore.store :=
  {| ScriptPipeline._stream_in :=
       {| ScriptPipeline.is_piped := false; ScriptPipeline.unread := text |};
     ScriptPipeline._pipelines := None;
     ScriptPipeline._conditional := true;
     ScriptPipeline.json := @new_store _ example_store true false |}.

(** A value that [len] accepts, and one whose length is 2. *)
Definition sized (v : pyval) : bool :=
  match py_len v with
  | Ok _ => true
  | Raise _ => false
  end.

Definition is_pair (v : pyval) : bool :=
  match py_len v with
  | Ok n => n =? 2
  | Raise _ => false
  end.

(** The text [{"parameters":[1,2]}]. *)
Definition numbers_text : string :=
  "{" +:+ PacketStore.q +:+ "parameters" +:+ PacketStore.q +:+ ":[1,2]}".

(** A method of a tool that prints on the standard error stream only. *)
Definition prints_errors_only {A} (m : M CommandLineTool.tool A) : Prop :=
  forall t, exists lines : list string,
    CommandLineTool.console (fst (m t))
    = CommandLineTool.console t ++ map (fun line => (Stderr, line)) lines.

(** A packaging script with its manifest not read yet. *)
Definition title_script (sw : gmap string pyval) : PackageTitle.script :=
  {| PackageTitle.switches := sw; PackageTitle.manifest_data := PNone |}.

(** A converter that has no output yet. *)
Definition new_converter (table : pyval) : DataConverter.converter :=
  {| DataConverter.data := table; DataConverter._output := [];
     DataConverter._mime := "text/tab-separated-values" |}.

(** The format that [get_output_format] splits: the switch [output], or the
    default of the tool when the switch is [None]. *)
Definition output_spec {J : Type} (g : GetJSON.getjson J) : pyval :=
  if is_None (GetJSON.switch g "output") then PStr (GetJSON._default_mime g)
  else GetJSON.switch g "output".

(** The keys of a dict, in its order. *)
Definition keys_of (d : list (string * pyval)) : list string := map fst d.

(** A value that is not a list. *)
Definition not_list (v : pyval) : bool :=
  match v with
  | PList _ => false
  | _ => true
  end.

(** The text [{"items":["x","y","z"]}], and the query tool as it is made
    for [--key=items]. *)
Definition xyz_text : string :=
  "{" +:+ PacketStore.q +:+ "items" +:+ PacketStore.q +:+ ":["
  +:+ PacketStore.q +:+ "x" +:+ PacketStore.q +:+ ","
  +:+ PacketStore.q +:+ "y" +:+ PacketStore.q +:+ ","
  +:+ PacketStore.q +:+ "z" +:+ PacketStore.q +:+ "]}".

Definition items_tool : GetJSON.getjson PacketStore.store :=
  fst (GetJSON.init "adpn-json.py" {[ "key" := PList [PStr "items"] ]}).

(** The query tool as it is made for [--key+=tags --value+=new], and for
    [--output=application/json;indent=2]. *)
Definition append_tool : GetJSON.getjson PacketStore.store :=
  fst (GetJSON.init "adpn-json.py" {[ "key+" := PStr "tags"; "value+" := PStr "new" ]}).

Definition indent_tool : GetJSON.getjson PacketStore.store :=
  fst (GetJSON.init "adpn-json.py" {[ "output" := PStr "application/json;indent=2" ]}).

(** A value that is neither a list nor a dict. *)
Definition is_scalar (v : pyval) : bool :=
  match v with
  | PList _ | PDict _ => false
  | _ => true
  end.

(** The keys of [keys] up to the first one that the dict [d] does not have,
    and that key. *)
Fixpoint keys_found (d : list (string * pyval)) (keys : list string) : list string :=
  match keys with
  | [] => []
  | k :: rest =>
      match dict_lookup d k with
      | Some _ => k :: keys_found d rest
      | None => []
      end
  end.

Fixpoint key_missing (d : list (string * pyval)) (keys : list string) : option string :=
  match keys with
  | [] => None
  | k :: rest =>
      match dict_lookup d k with
      | Some _ => key_missing d rest
      | None => Some k
      end
  end.

(** The query tool as it is made for [--key=a --key=zz --key=b]. *)
Definition three_keys_tool : GetJSON.getjson PacketStore.store :=
  fst (GetJSON.init "adpn-json.py" {[ "key" := PList [PStr "a"; PStr "zz"; PStr "b"] ]}).

Definition is_dict (v : pyval) : bool :=
  match v with
  | PDict _ => true
  | _ => false
  end.

(** The query tool as it is made for [--where=id:abc]. *)
Definition where_id_tool : GetJSON.getjson PacketStore.store :=
  fst (GetJSON.init "adpn-json.py" {[ "where" := PStr "id:abc" ]}).

(** The text of [a], a carriage return, two newlines and [b]. *)
Definition crlf_text : string :=
  "a" +:+ String (Ascii.ascii_of_nat 13) (String chr_newline (String chr_newline "b")).

(** * Properties *)

(** ** The functions on texts, on the inputs that the interpreter was
    observed on *)

Example py_int_of_str_examples :
  py_int_of_str " 5 " = Some 5 /\
  py_int_of_str "+5" = Some 5 /\
  py_int_of_str "-5" = Some (-5) /\
  py_int_of_str "1_0" = Some 10 /\
  py_int_of_str "007" = Some 7 /\
  py_int_of_str ("5" +:+ String chr_newline "") = Some 5 /\
  py_int_of_str "" = None /\
  py_int_of_str "- 5" = None /\
  py_int_of_str "_1" = None /\
  py_int_of_str "1_" = None /\
  py_int_of_str "1__0" = None /\
  py_int_of_str "0x10" = None /\
  py_int_of_str "5.0" = None /\
  py_int_of_str "abc" = None.
Proof. repeat split; reflexivity. Qed.

Example re_match_at_examples :
  re_match_at "@foo" = Some "foo" /\
  re_match_at "@" = Some "" /\
  re_match_at "foo" = None /\
  re_match_at ("@foo" +:+ String chr_newline "") = Some "foo" /\
  re_match_at ("@a" +:+ String chr_newline "b") = None.
Proof. repeat split; reflexivity. Qed.

Example re_match_leading_number_examples :
  re_match_leading_number "3,ignored" = Some "3" /\
  re_match_leading_number "03,x" = Some "03" /\
  re_match_leading_number "3," = Some "3" /\
  re_match_leading_number "3" = None /\
  re_match_leading_number ",x" = None /\
  re_match_leading_number "3 ,x" = None /\
  re_match_leading_number ("3,a" +:+ String chr_newline "") = Some "3" /\
  re_match_leading_number ("3,a" +:+ String chr_newline "b") = None.
Proof. repeat split; reflexivity. Qed.

Example re_match_slashes_examples :
  re_match_slashes "/a/" = Some "a" /\
  re_match_slashes "//" = Some "" /\
  re_match_slashes "/a/b/" = Some "a/b" /\
  re_match_slashes "/a//" = Some "a/" /\
  re_match_slashes "/" = None /\
  re_match_slashes "a/b/" = None /\
  re_match_slashes "/a/b" = None.
Proof. repeat split; reflexivity. Qed.

Example split_examples :
  split_all ";" "application/json;indent=2" = ["application/json"; "indent=2"] /\
  split_all ";" "" = [""] /\
  split_once ":" "a:b:c" = ("a", Some "b:c") /\
  split_once ":" "abc" = ("abc", None) /\
  split_lines ("a" +:+ String (Ascii.ascii_of_nat 13) (String chr_newline
                 (String chr_newline ("b" +:+ String chr_newline "")))) = ["a"; "b"].
Proof. repeat split; reflexivity. Qed.

Example decode_examples :
  PacketStore.decode k1_text = Some (PDict [("k", PInt 1)]) /\
  PacketStore.decode noisy_text = None /\
  PacketStore.first_balanced noisy_text = Some k1_text /\
  PacketStore.decode items_text
  = Some (PDict [("items", PList [PDict [("name", PStr "x")]; PDict [("id", PInt 1)]])]) /\
  PacketStore.decode "01" = None /\
  PacketStore.decode "[1,]" = None.
Proof. repeat split; reflexivity. Qed.

(** ** Facts about the texts *)

Lemma digit_not_space c : is_digit c = true -> is_int_space c = false.
Proof.
  unfold is_digit, is_int_space.
  destruct c as [[] [] [] [] [] [] [] []]; vm_compute; congruence.
Qed.

Lemma digit_not_sign c :
  is_digit c = true ->
  Ascii.eqb c "+" = false /\ Ascii.eqb c "-" = false /\ Ascii.eqb c "_" = false.
Proof.
  unfold is_digit.
  destruct c as [[] [] [] [] [] [] [] []]; vm_compute; intuition congruence.
Qed.

Lemma all_digits_cons c s :
  all_digits (String c s) = true -> is_digit c = true /\ all_digits s = true.
Proof. simpl. intros Hd. apply andb_prop in Hd. exact Hd. Qed.

Lemma rstrip_digits s : all_digits s = true -> rstrip is_int_space s = s.
Proof.
  induction s as [|c s IH]; [reflexivity|].
  intros Hd. apply all_digits_cons in Hd as [Hc Hs].
  simpl. rewrite (IH Hs). rewrite (digit_not_space c Hc).
  destruct s; reflexivity.
Qed.

Lemma lstrip_digits s : all_digits s = true -> lstrip is_int_space s = s.
Proof.
  destruct s as [|c s]; [reflexivity|].
  intros Hd. apply all_digits_cons in Hd as [Hc _].
  simpl. rewrite (digit_not_space c Hc). reflexivity.
Qed.

Lemma int_digits_all_digits s :
  all_digits s = true ->
  forall acc, int_digits acc false s = Some (digits_value acc s).
Proof.
  induction s as [|c s IH]; intros Hd acc; [reflexivity|].
  apply all_digits_cons in Hd as [Hc Hs].
  simpl. rewrite Hc. apply IH, Hs.
Qed.

Lemma py_int_of_digits ds :
  all_digits ds = true -> ds <> "" ->
  py_int_of_str ds = Some (digits_value 0 ds).
Proof.
  intros Hd Hne. unfold py_int_of_str.
  rewrite (lstrip_digits ds Hd), (rstrip_digits ds Hd).
  destruct ds as [|c s]; [congruence|].
  apply all_digits_cons in Hd as [Hc Hs].
  destruct (digit_not_sign c Hc) as (Hplus & Hminus & _).
  assert (Hgo : int_digits 0 true (String c s) = Some (digits_value 0 (String c s))).
  { simpl. rewrite Hc. apply int_digits_all_digits, Hs. }
  destruct c as [[] [] [] [] [] [] [] []]; try exact Hgo;
    vm_compute in Hplus, Hminus; congruence.
Qed.

Lemma span_digits_comma ds rest :
  all_digits ds = true ->
  span_digits (ds +:+ String "," rest) = (ds, String "," rest).
Proof.
  induction ds as [|c s IH]; intros Hd; [reflexivity|].
  apply all_digits_cons in Hd as [Hc Hs].
  simpl. rewrite Hc, (IH Hs). reflexivity.
Qed.

Lemma dotstar_eol_no_newline body :
  no_newline body = true -> dotstar_eol body = Some body.
Proof.
  induction body as [|c s IH]; [reflexivity|].
  simpl. intros Hn. apply andb_prop in Hn as [Hc Hs].
  apply negb_true_iff in Hc. rewrite Hc, (IH Hs). reflexivity.
Qed.

Lemma dotstar_eol_final_newline body :
  no_newline body = true ->
  dotstar_eol (body +:+ String chr_newline "") = Some body.
Proof.
  induction body as [|c s IH]; [reflexivity|].
  simpl. intros Hn. apply andb_prop in Hn as [Hc Hs].
  apply negb_true_iff in Hc. rewrite Hc, (IH Hs). reflexivity.
Qed.

Lemma dotstar_eol_single_line s :
  single_line s -> exists body, dotstar_eol s = Some body.
Proof.
  intros (body & Hn & [-> | ->]); exists body.
  - apply dotstar_eol_no_newline, Hn.
  - apply dotstar_eol_final_newline, Hn.
Qed.

Lemma re_match_leading_number_digits ds rest :
  all_digits ds = true -> ds <> "" -> single_line rest ->
  re_match_leading_number (ds +:+ String "," rest) = Some ds.
Proof.
  intros Hd Hne Hl. unfold re_match_leading_number.
  rewrite (span_digits_comma ds rest Hd).
  destruct (dotstar_eol_single_line rest Hl) as [body ->].
  destruct ds; [congruence | reflexivity].
Qed.

(** [int(f)] cuts the value [m * 2^e] of a finite float towards zero. *)
Lemma int_of_float_truncates s m e :
  exists t,
    int_of_float (S754_finite s m e) = Ok (if s then - t else t) /\
    0 <= t /\
    (0 <= e -> t = Z.pos m * 2 ^ e) /\
    (e < 0 -> t * 2 ^ (- e) <= Z.pos m < (t + 1) * 2 ^ (- e)).
Proof.
  exists (Z.shiftl (Z.pos m) e). split; [reflexivity|].
  split; [apply Z.shiftl_nonneg; lia|].
  split.
  - intros He. apply Z.shiftl_mul_pow2, He.
  - intros He. rewrite Z.shiftl_div_pow2 by lia.
    assert (Hp : 0 < 2 ^ (- e)) by (apply Z.pow_pos_nonneg; lia).
    pose proof (Z.mul_div_le (Z.pos m) (2 ^ (- e)) Hp).
    pose proof (Z.mul_succ_div_gt (Z.pos m) (2 ^ (- e)) Hp).
    lia.
Qed.

(** ** [convertto_numeric_value] *)

(** C2, as the specification states it for texts with a number and a
    comment, does not hold: the text [3,a] followed by a line break and [b]
    starts with digits and a comma, its leading digits are 3, and the result
    is 1. *)
Lemma convertto_numeric_value_leading_digits_fails :
  ~ (forall (sw : gmap string pyval) (s ds : string),
       spec_leading_number s = Some ds ->
       CommandLineTool.convertto_numeric_value sw None (PStr s)
       = Ok (digits_value 0 ds)).
Proof.
  intros Hclaim.
  specialize (Hclaim no_switches ("3,a" +:+ String chr_newline "b") "3" eq_refl).
  vm_compute in Hclaim. discriminate Hclaim.
Qed.

(** C2 (amended): [convertto_numeric_value] gives a number cut to an integer
    (a [bool] as 0 or 1, a float cut towards zero); for a text made of
    digits, a comma and a comment on a single line, the number the digits
    write; for any other non-empty text that [int] does not read, 1, and
    for one that [int] reads, its number; for the empty text and for
    [None], 0; and it raises [TypeError] for a value of another type. *)
Theorem convertto_numeric_value_cases (sw : gmap string pyval) :
  (forall z, CommandLineTool.convertto_numeric_value sw None (PInt z) = Ok z) /\
  (forall b, CommandLineTool.convertto_numeric_value sw None (PBool b) = Ok (Z.b2z b)) /\
  (forall s m e, exists t,
      CommandLineTool.convertto_numeric_value sw None (PFloat (S754_finite s m e))
      = Ok (if s then - t else t) /\
      0 <= t /\
      (0 <= e -> t = Z.pos m * 2 ^ e) /\
      (e < 0 -> t * 2 ^ (- e) <= Z.pos m < (t + 1) * 2 ^ (- e))) /\
  (forall ds rest,
      all_digits ds = true -> ds <> "" -> single_line rest ->
      CommandLineTool.convertto_numeric_value sw None (PStr (ds +:+ String "," rest))
      = Ok (digits_value 0 ds)) /\
  (forall s,
      s <> "" -> re_match_leading_number s = None -> py_int_of_str s = None ->
      CommandLineTool.convertto_numeric_value sw None (PStr s) = Ok 1) /\
  (forall s z,
      re_match_leading_number s = None -> py_int_of_str s = Some z ->
      CommandLineTool.convertto_numeric_value sw None (PStr s) = Ok z) /\
  CommandLineTool.convertto_numeric_value sw None (PStr "") = Ok 0 /\
  CommandLineTool.convertto_numeric_value sw None PNone = Ok 0 /\
  (forall l, CommandLineTool.convertto_numeric_value sw None (PList l) = Raise TypeError) /\
  (forall d, CommandLineTool.convertto_numeric_value sw None (PDict d) = Raise TypeError).
Proof.
  repeat split; try reflexivity.
  - intros s m e. apply int_of_float_truncates.
  - intros ds rest Hd Hne Hl.
    unfold CommandLineTool.convertto_numeric_value. simpl.
    rewrite (re_match_leading_number_digits ds rest Hd Hne Hl).
    rewrite (py_int_of_digits ds Hd Hne). reflexivity.
  - intros s Hne Hm Hi.
    unfold CommandLineTool.convertto_numeric_value. simpl.
    rewrite Hm, Hi. destruct s; [congruence | reflexivity].
  - intros s z Hm Hi.
    unfold CommandLineTool.convertto_numeric_value. simpl.
    rewrite Hm, Hi. reflexivity.
Qed.

(** The examples of the specification, from the theorem: [3,ignored] gives
    3 and [abc] gives 1; and [42] gives 42. *)
Lemma convertto_numeric_value_examples :
  CommandLineTool.convertto_numeric_value no_switches None (PStr "3,ignored") = Ok 3 /\
  CommandLineTool.convertto_numeric_value no_switches None (PStr "abc") = Ok 1 /\
  CommandLineTool.convertto_numeric_value no_switches None (PStr "42") = Ok 42.
Proof.
  destruct (convertto_numeric_value_cases no_switches)
    as (_ & _ & _ & Hnum & Hother & Hint & _).
  split; [|split].
  - apply (Hnum "3" "ignored"); [reflexivity | discriminate |].
    exists "ignored". split; [reflexivity | left; reflexivity].
  - apply (Hother "abc"); [discriminate | reflexivity | reflexivity].
  - apply (Hint "42" 42); reflexivity.
Defined.

(** ** The exit code of [ADPNCommandLineTool] *)

Lemma set_exitcode_in_range code t :
  0 <= code <= 255 ->
  CommandLineTool.set_exitcode code t = (CommandLineTool.with_exitcode code t, Ok tt).
Proof.
  intros Hr. unfold CommandLineTool.set_exitcode.
  replace ((0 <=? code) && (code <=? 255)) with true; [reflexivity|].
  symmetry. apply andb_true_intro. split; apply Z.leb_le; lia.
Qed.

Lemma set_exitcode_out_of_range code t :
  ~ (0 <= code <= 255) ->
  CommandLineTool.set_exitcode code t = (t, Raise ValueError).
Proof.
  intros Hr. unfold CommandLineTool.set_exitcode.
  replace ((0 <=? code) && (code <=? 255)) with false; [reflexivity|].
  symmetry. apply andb_false_iff.
  destruct (Z.leb_spec 0 code); [right | left; reflexivity].
  apply Z.leb_gt. lia.
Qed.

Lemma set_exitcode_cases code t :
  (0 <= code <= 255 /\
   CommandLineTool.set_exitcode code t = (CommandLineTool.with_exitcode code t, Ok tt)) \/
  (~ (0 <= code <= 255) /\
   CommandLineTool.set_exitcode code t = (t, Raise ValueError)).
Proof.
  destruct (Z_le_dec 0 code) as [H0|H0]; [destruct (Z_le_dec code 255) as [H1|H1]|].
  - left. split; [lia | apply set_exitcode_in_range; lia].
  - right. split; [lia | apply set_exitcode_out_of_range; lia].
  - right. split; [lia | apply set_exitcode_out_of_range; lia].
Qed.

Lemma write_error_cases code message prefix t :
  (exists c, code = Some c /\ ~ (0 <= c <= 255) /\
     CommandLineTool.write_error code message prefix t = (t, Raise ValueError)) \/
  (exists t1,
     t1 = match code with
          | Some c => CommandLineTool.with_exitcode c t
          | None => t
          end /\
     match code with Some c => 0 <= c <= 255 | None => True end /\
     CommandLineTool.write_error code message prefix t =
       (CommandLineTool.print_to Stderr
          (prefix +:+ "[" +:+ CommandLineTool.scriptname t +:+ "] " +:+ message)
          (String chr_newline "") t1, Ok tt)).
Proof.
  destruct code as [c|].
  - destruct (set_exitcode_cases c t) as [[Hr He]|[Hr He]].
    + right. eexists. split; [reflexivity|]. split; [exact Hr|].
      unfold CommandLineTool.write_error, CommandLineTool.exitcode_setter, bind.
      rewrite He. reflexivity.
    + left. exists c. split; [reflexivity|]. split; [exact Hr|].
      unfold CommandLineTool.write_error, CommandLineTool.exitcode_setter, bind.
      rewrite He. reflexivity.
  - right. eexists. split; [reflexivity|]. split; [exact I|]. reflexivity.
Qed.

Lemma run_exit_op_range op t :
  0 <= CommandLineTool._exitcode t <= 255 ->
  0 <= CommandLineTool._exitcode (fst (run_exit_op op t)) <= 255.
Proof.
  intros Ht. destruct op as [code|code|code message prefix]; simpl.
  - unfold CommandLineTool.exitcode_setter.
    destruct (set_exitcode_cases code t) as [[Hr ->]|[Hr ->]]; simpl; lia.
  - destruct (set_exitcode_cases code t) as [[Hr ->]|[Hr ->]]; simpl; lia.
  - destruct (write_error_cases code message prefix t)
      as [(c & -> & Hr & ->)|(t1 & -> & Hr & ->)]; [exact Ht|].
    destruct code; simpl; [lia | exact Ht].
Qed.

Lemma run_exit_ops_range ops : forall t,
  0 <= CommandLineTool._exitcode t <= 255 ->
  0 <= CommandLineTool._exitcode (run_exit_ops ops t) <= 255.
Proof.
  induction ops as [|op ops IH]; intros t Ht; [exact Ht|].
  simpl. apply IH, run_exit_op_range, Ht.
Qed.

Lemma init_exitcode name sw :
  CommandLineTool._exitcode (fst (CommandLineTool.init name sw)) = 0.
Proof.
  unfold CommandLineTool.init, bind, CommandLineTool.exitcode_setter.
  rewrite set_exitcode_in_range by lia.
  set (t0 := CommandLineTool.with_exitcode 0 _).
  assert (Hv : forall v t, CommandLineTool._exitcode
                 (fst (CommandLineTool.verbose_setter v t)) = CommandLineTool._exitcode t).
  { intros v t. destruct v as [| | |f| s | |]; simpl; try reflexivity.
    - unfold bind, lift. destruct (int_of_float f); reflexivity.
    - destruct (py_int_of_str s); reflexivity. }
  assert (Hd : forall v t, CommandLineTool._exitcode
                 (fst (CommandLineTool.debug_setter v t)) = CommandLineTool._exitcode t).
  { intros v t. unfold CommandLineTool.debug_setter, bind.
    destruct (CommandLineTool.convertto_numeric_value _ _ _); reflexivity. }
  match goal with
  | |- context [CommandLineTool.verbose_setter ?v t0] =>
      pose proof (Hv v t0) as H1;
      destruct (CommandLineTool.verbose_setter v t0) as [t1 [[]|e1]]
  end; simpl in H1; [|simpl; rewrite H1; reflexivity].
  match goal with
  | |- context [CommandLineTool.debug_setter ?v t1] =>
      pose proof (Hd v t1) as H2;
      destruct (CommandLineTool.debug_setter v t1) as [t2 [[]|e2]]
  end; simpl in H2; [|simpl; rewrite H2, H1; reflexivity].
  unfold gets. simpl.
  destruct (CommandLineTool._verbose t2 <? CommandLineTool._debug t2).
  - simpl. rewrite H2, H1. reflexivity.
  - simpl. rewrite H2, H1. reflexivity.
Qed.

(** C10: an operation that assigns the exit code of an
    [ADPNCommandLineTool] stores a code from 0 to 255, or raises
    [ValueError] and leaves the object as it was; so the stored exit code of
    an object stays within 0..255 from its construction on, whatever
    operations follow; and an offset code [100 + N] with [N] above 155 is
    not stored. *)
Theorem exitcode_always_in_range :
  (forall code t,
      (0 <= code <= 255 /\
       CommandLineTool.set_exitcode code t = (CommandLineTool.with_exitcode code t, Ok tt)) \/
      (~ (0 <= code <= 255) /\
       CommandLineTool.set_exitcode code t = (t, Raise ValueError))) /\
  (forall code t,
      CommandLineTool.exitcode_setter code t = CommandLineTool.set_exitcode code t) /\
  (forall code message prefix t,
      let (t', r) := CommandLineTool.write_error code message prefix t in
      (r = Raise ValueError /\ t' = t) \/
      (r = Ok tt /\
       match code with
       | Some c => 0 <= c <= 255 /\ CommandLineTool._exitcode t' = c
       | None => CommandLineTool._exitcode t' = CommandLineTool._exitcode t
       end)) /\
  (forall name sw ops,
      0 <= CommandLineTool.exitcode
             (run_exit_ops ops (fst (CommandLineTool.init name sw))) <= 255) /\
  (forall N message prefix t,
      155 < N ->
      CommandLineTool.write_error (Some (100 + N)) message prefix t
      = (t, Raise ValueError)).
Proof.
  split; [intros; apply set_exitcode_cases|].
  split; [reflexivity|].
  split.
  { intros code message prefix t.
    destruct (write_error_cases code message prefix t)
      as [(c & -> & Hr & ->)|(t1 & -> & Hr & ->)].
    - left. split; reflexivity.
    - right. split; [reflexivity|]. destruct code; simpl; [split|]; auto. }
  split.
  { intros name sw ops. unfold CommandLineTool.exitcode.
    apply run_exit_ops_range. rewrite init_exitcode. lia. }
  intros N message prefix t HN.
  destruct (write_error_cases (Some (100 + N)) message prefix t)
    as [(c & Hc & Hr & ->)|(t1 & _ & Hr & _)]; [reflexivity | lia].
Qed.

(** The offset code for a validation tool that ended with 200 is not
    stored. *)
Lemma exitcode_offset_200_rejected :
  155 < 200 /\
  CommandLineTool.write_error (Some (100 + 200)) "failed" "" package_tool
  = (package_tool, Raise ValueError).
Proof.
  split; [lia|].
  apply (proj2 (proj2 (proj2 (proj2 exitcode_always_in_range)))). lia.
Defined.

(** ** Where [write_status] and [write_error] write *)

Lemma shown_on_snoc s console s' text :
  shown_on s (console ++ [(s', text)]) =
  shown_on s console ++
    match s', s with
    | Stdout, Stdout | Stderr, Stderr => [text]
    | _, _ => []
    end.
Proof.
  unfold shown_on. rewrite omap_app. f_equal.
  destruct s', s; reflexivity.
Qed.

Lemma write_status_console message prolog is_notice verbosity t :
  CommandLineTool.write_status message prolog is_notice verbosity t =
  (if verbosity <=? CommandLineTool._verbose t then
     CommandLineTool.print_to
       (if is_notice && negb (CommandLineTool.plain_text_output t) && (0 <? verbosity)
        then Stderr else Stdout)
       (match is_notice, prolog with
        | true, None => ("[" +:+ CommandLineTool.scriptname t +:+ "] ") +:+ message
        | true, Some prolog => (prolog +:+ " ") +:+ message
        | false, _ => message
        end)
       (String chr_newline "") t
   else t, Ok tt).
Proof.
  unfold CommandLineTool.write_status, CommandLineTool.print, modify.
  destruct is_notice, prolog, (CommandLineTool.plain_text_output t), (0 <? verbosity),
    (verbosity <=? CommandLineTool._verbose t); reflexivity.
Qed.

(** C6, as the specification states it, does not hold: with plain text
    output, the notice that the packaging tool writes about its BagIt check
    appears on standard output. *)
Lemma write_status_stdout_claim_fails :
  ~ (forall (t : CommandLineTool.tool) (message : string) (prolog : option string)
            (is_notice : bool) (verbosity : Z),
       shown_on Stdout
         (CommandLineTool.console
            (fst (CommandLineTool.write_status message prolog is_notice verbosity t)))
       = shown_on Stdout (CommandLineTool.console t)).
Proof.
  intros Hclaim.
  specialize (Hclaim package_tool "* Checking BagIt packaging" None true 1).
  vm_compute in Hclaim. discriminate Hclaim.
Qed.

(** C6 (amended): [write_error] writes one line, on standard error, made of
    the caller's prefix, the name of the script in brackets and the message,
    and nothing on standard output. [write_status] writes nothing when its
    verbosity is above the level of the tool; else it writes one line: on
    standard error when it is a notice, the output format is not plain text
    and its verbosity is above 0, and on standard output in every other
    case; a notice starts with the name of the script in brackets when no
    prolog is given, and with the prolog otherwise. *)
Theorem diagnostics_streams (t : CommandLineTool.tool) :
  (forall code message prefix,
      let (t', r) := CommandLineTool.write_error code message prefix t in
      shown_on Stdout (CommandLineTool.console t')
      = shown_on Stdout (CommandLineTool.console t) /\
      match r with
      | Ok _ =>
          shown_on Stderr (CommandLineTool.console t')
          = shown_on Stderr (CommandLineTool.console t)
            ++ [(prefix +:+ "[" +:+ CommandLineTool.scriptname t +:+ "] " +:+ message)
                +:+ String chr_newline ""]
      | Raise _ => t' = t
      end) /\
  (forall message prolog is_notice verbosity,
      let (t', r) := CommandLineTool.write_status message prolog is_notice verbosity t in
      r = Ok tt /\
      (CommandLineTool._verbose t < verbosity -> t' = t) /\
      (verbosity <= CommandLineTool._verbose t ->
       is_notice = true -> CommandLineTool.plain_text_output t = false -> 0 < verbosity ->
       shown_on Stdout (CommandLineTool.console t')
       = shown_on Stdout (CommandLineTool.console t) /\
       shown_on Stderr (CommandLineTool.console t')
       = shown_on Stderr (CommandLineTool.console t)
         ++ [status_text t message prolog true]) /\
      (verbosity <= CommandLineTool._verbose t ->
       is_notice = false \/ CommandLineTool.plain_text_output t = true \/ verbosity <= 0 ->
       shown_on Stderr (CommandLineTool.console t')
       = shown_on Stderr (CommandLineTool.console t) /\
       shown_on Stdout (CommandLineTool.console t')
       = shown_on Stdout (CommandLineTool.console t)
         ++ [status_text t message prolog is_notice])).
Proof.
  split.
  - intros code message prefix.
    destruct (write_error_cases code message prefix t)
      as [(c & -> & Hr & ->)|(t1 & -> & Hr & ->)].
    + split; reflexivity.
    + destruct code as [c|]; simpl; rewrite !shown_on_snoc, ?app_nil_r;
        split; reflexivity.
  - intros message prolog is_notice verbosity.
    rewrite write_status_console.
    split; [reflexivity|].
    split; [|split].
    + intros Hv. apply Z.leb_gt in Hv. rewrite Hv. reflexivity.
    + intros Hv -> Hp Hpos.
      apply Z.leb_le in Hv. apply Z.ltb_lt in Hpos.
      rewrite Hv, Hp, Hpos. simpl.
      rewrite !shown_on_snoc, ?app_nil_r.
      split; [reflexivity|]. unfold status_text. destruct prolog; reflexivity.
    + intros Hv Hcase.
      apply Z.leb_le in Hv. rewrite Hv.
      assert (Hs : is_notice && negb (CommandLineTool.plain_text_output t)
                   && (0 <? verbosity) = false).
      { destruct Hcase as [-> | [-> | Hle]]; [reflexivity | |].
        - rewrite andb_false_r. reflexivity.
        - apply Z.ltb_ge in Hle. rewrite Hle, andb_false_r. reflexivity. }
      rewrite Hs. simpl. rewrite !shown_on_snoc, ?app_nil_r.
      split; [reflexivity|]. unfold status_text.
      destruct is_notice, prolog; reflexivity.
Qed.

(** The notice about the BagIt check of the packaging tool: with the output
    format [application/json] it is written on standard error, and with
    plain text output on standard output. *)
Lemma diagnostics_streams_notice :
  (let t' := fst (CommandLineTool.write_status "* Checking BagIt packaging" None true 1
                    json_package_tool) in
   shown_on Stdout (CommandLineTool.console t')
   = shown_on Stdout (CommandLineTool.console json_package_tool) /\
   shown_on Stderr (CommandLineTool.console t')
   = shown_on Stderr (CommandLineTool.console json_package_tool)
     ++ [status_text json_package_tool "* Checking BagIt packaging" None true]) /\
  (let t' := fst (CommandLineTool.write_status "* Checking BagIt packaging" None true 1
                    package_tool) in
   shown_on Stderr (CommandLineTool.console t')
   = shown_on Stderr (CommandLineTool.console package_tool) /\
   shown_on Stdout (CommandLineTool.console t')
   = shown_on Stdout (CommandLineTool.console package_tool)
     ++ [status_text package_tool "* Checking BagIt packaging" None true]).
Proof.
  split.
  - pose proof (proj2 (diagnostics_streams json_package_tool)
                  "* Checking BagIt packaging" None true 1) as Hs.
    destruct (CommandLineTool.write_status "* Checking BagIt packaging" None true 1
                json_package_tool) as [t' r].
    destruct Hs as (_ & _ & Herr & _).
    apply Herr.
    + vm_compute. congruence.
    + reflexivity.
    + reflexivity.
    + lia.
  - pose proof (proj2 (diagnostics_streams package_tool)
                  "* Checking BagIt packaging" None true 1) as Hs.
    destruct (CommandLineTool.write_status "* Checking BagIt packaging" None true 1
                package_tool) as [t' r].
    destruct Hs as (_ & _ & _ & Hout).
    apply Hout.
    + vm_compute. congruence.
    + right. left. reflexivity.
Defined.

(** ** The exit codes of the packaging tool *)

Lemma write_error_in_range c message prefix t :
  0 <= c <= 255 ->
  CommandLineTool.write_error (Some c) message prefix t =
  (CommandLineTool.print_to Stderr
     (prefix +:+ "[" +:+ CommandLineTool.scriptname t +:+ "] " +:+ message)
     (String chr_newline "") (CommandLineTool.with_exitcode c t), Ok tt).
Proof.
  intros Hr.
  unfold CommandLineTool.write_error, CommandLineTool.exitcode_setter, bind.
  rewrite (set_exitcode_in_range c t Hr). reflexivity.
Qed.

Lemma write_error_out_of_range c message prefix t :
  ~ (0 <= c <= 255) ->
  CommandLineTool.write_error (Some c) message prefix t = (t, Raise ValueError).
Proof.
  intros Hr.
  unfold CommandLineTool.write_error, CommandLineTool.exitcode_setter, bind.
  rewrite (set_exitcode_out_of_range c t Hr). reflexivity.
Qed.

Lemma str_items_strs lines : GetJSON.str_items (map PStr lines) = Some lines.
Proof.
  induction lines as [|l lines IH]; [reflexivity|].
  simpl. rewrite IH. reflexivity.
Qed.

Lemma missing_of_names sw req :
  exists missing,
    PackageContent.missing_of sw (map PStr req) = Ok (map PStr missing).
Proof.
  induction req as [|name req [missing IH]]; [exists []; reflexivity|].
  simpl. rewrite IH. simpl.
  destruct (is_None (switches_get sw name)).
  - exists (name :: missing). reflexivity.
  - exists missing. reflexivity.
Qed.

(** C7, as the specification states it, does not hold: when the validation
    tool ends with the exit code 200, the packaging tool does not exit with
    the code 300; the assignment of the code raises [ValueError], which
    nobody catches. *)
Lemma package_bagit_offset_claim_fails :
  ~ (forall (py_str : pyval -> string) (py_str_args : list pyval -> string)
            (realpath : string -> string) (N : Z) (message path : string)
            (output : list string) (t : CommandLineTool.tool),
       snd (PackageContent.execute py_str py_str_args realpath
              (raise (AssertionError
                        [PStr "BagIt"; PStr message; PStr path; PInt N;
                         PList (map PStr output)])) t)
       = Exited (100 + N)).
Proof.
  intros Hclaim.
  specialize (Hclaim example_str (fun _ => "") (fun p => p) 200
                "BagIt validation failed" "/tmp/au" [] package_tool).
  vm_compute in Hclaim. discriminate Hclaim.
Qed.

(** C7 (amended): when the steps of the packaging fail with a requirement
    on the BagIt validation whose tool ended with the exit code [N], the
    packaging tool exits with [100 + N] when that is a code from 0 to 255,
    and ends with an uncaught [ValueError] otherwise; when they fail on the
    boilerplate of the manifest it exits with 4; when they fail on required
    parameters it exits with 2. *)
Theorem package_failure_exit_codes
    (py_str : pyval -> string) (py_str_args : list pyval -> string)
    (realpath : string -> string)
    (steps : M CommandLineTool.tool unit) (t t1 : CommandLineTool.tool)
    (args : list pyval)
    (Hsteps : steps t = (t1, Raise (AssertionError args))) :
  (forall message path N output,
      args = [PStr "BagIt"; message; PStr path; PInt N; PList (map PStr output)] ->
      snd (PackageContent.execute py_str py_str_args realpath steps t)
      = if (0 <=? 100 + N) && (100 + N <=? 255) then Exited (100 + N)
        else Uncaught ValueError) /\
  (forall message path phrase,
      args = [PStr "manifest"; message; PStr path; phrase] ->
      snd (PackageContent.execute py_str py_str_args realpath steps t) = Exited 4) /\
  (forall message req,
      args = [message; PList (map PStr req)] ->
      eq_str message "BagIt" = false -> eq_str message "manifest" = false ->
      snd (PackageContent.execute py_str py_str_args realpath steps t) = Exited 2).
Proof.
  unfold PackageContent.execute, try_except. rewrite Hsteps. simpl.
  split; [|split].
  - intros message path N output ->.
    unfold PackageContent.on_assertion, bind, lift. simpl.
    destruct ((0 <=? 100 + N) && (100 + N <=? 255)) eqn:Hr.
    + apply andb_prop in Hr as [H0 H1].
      apply Z.leb_le in H0. apply Z.leb_le in H1.
      rewrite write_error_in_range by lia.
      unfold PackageContent.join_items. rewrite str_items_strs. reflexivity.
    + rewrite write_error_out_of_range; [reflexivity|].
      intros [H0 H1]. apply Z.leb_le in H0. apply Z.leb_le in H1.
      rewrite H0, H1 in Hr. discriminate Hr.
  - intros message path phrase ->.
    unfold PackageContent.on_assertion, bind, lift. simpl.
    reflexivity.
  - intros message req -> Hb Hm.
    unfold PackageContent.on_assertion, bind, lift. simpl.
    rewrite Hb, Hm. simpl. unfold gets.
    destruct (missing_of_names (CommandLineTool.switches t1) req) as [missing Hmiss].
    simpl. rewrite Hmiss.
    unfold PackageContent.join_items. rewrite str_items_strs.
    reflexivity.
Qed.

(** The packaging fails on the BagIt validation, whose tool ended with 3:
    the packaging tool exits with 103; it fails on the boilerplate of the
    manifest: 4; it fails on the required parameter [institution]: 2. *)
Lemma package_failure_exit_codes_examples :
  snd (PackageContent.execute example_str (fun _ => "") (fun p => p)
         (raise (AssertionError
                   [PStr "BagIt"; PStr "BagIt validation failed"; PStr "/tmp/au";
                    PInt 3; PList (map PStr ["bad checksum"])]))
         package_tool)
  = Exited 103 /\
  snd (PackageContent.execute example_str (fun _ => "") (fun p => p)
         (raise (AssertionError
                   [PStr "manifest"; PStr "Manifest does not match"; PStr "/tmp/au";
                    PStr "LOCKSS system has permission"]))
         package_tool)
  = Exited 4 /\
  snd (PackageContent.execute example_str (fun _ => "") (fun p => p)
         (raise (AssertionError
                   [PStr "Required parameters"; PList (map PStr ["institution"])]))
         package_tool)
  = Exited 2.
Proof.
  split; [|split].
  - exact (proj1 (package_failure_exit_codes example_str (fun _ => "") (fun p => p)
                    (raise (AssertionError
                              [PStr "BagIt"; PStr "BagIt validation failed";
                               PStr "/tmp/au"; PInt 3;
                               PList (map PStr ["bad checksum"])]))
                    package_tool package_tool _ eq_refl)
             (PStr "BagIt validation failed") "/tmp/au" 3 ["bad checksum"] eq_refl).
  - exact (proj1 (proj2 (package_failure_exit_codes example_str (fun _ => "")
                           (fun p => p)
                           (raise (AssertionError
                                     [PStr "manifest"; PStr "Manifest does not match";
                                      PStr "/tmp/au";
                                      PStr "LOCKSS system has permission"]))
                           package_tool package_tool _ eq_refl))
             (PStr "Manifest does not match") "/tmp/au"
             (PStr "LOCKSS system has permission") eq_refl).
  - exact (proj2 (proj2 (package_failure_exit_codes example_str (fun _ => "")
                           (fun p => p)
                           (raise (AssertionError
                                     [PStr "Required parameters";
                                      PList (map PStr ["institution"])]))
                           package_tool package_tool _ eq_refl))
             (PStr "Required parameters") ["institution"] eq_refl eq_refl eq_refl).
Defined.

(** ** [get_data] and the [parameters] of a packet *)

Lemma scan_parameters_pairs name pairs : forall result,
  ScriptPipeline.scan_parameters name result (pairs_value pairs)
  = Ok (default result (last_named name pairs)).
Proof.
  induction pairs as [|[n v] pairs IH]; intros result; [reflexivity|].
  simpl. rewrite IH.
  destruct (last_named name pairs); [reflexivity|].
  destruct (eq_str n name); reflexivity.
Qed.

Lemma re_match_at_marked name :
  no_newline name = true -> re_match_at (String "@" name) = Some name.
Proof. intros Hn. simpl. apply dotstar_eol_no_newline, Hn. Qed.

Section GetData.
Context {J : Type} `{MyPyJSON J}.

(** What [get_data] gives for a key, once the lines of the pipeline are
    accepted and the store holds a dict. *)
Lemma get_data_key (p p1 : ScriptPipeline.pipeline J) lines j d key :
  ScriptPipeline.pipelines p = (p1, Ok (Some lines)) ->
  accept lines false (ScriptPipeline.json p1) = (j, Ok tt) ->
  allData j = PDict d ->
  snd (ScriptPipeline.get_data (Some key) p) =
  match dict_get d "parameters", re_match_at key with
  | PList pairs, Some name => ScriptPipeline.scan_parameters name (dict_get d key) pairs
  | _, _ => Ok (dict_get d key)
  end.
Proof.
  intros Hp Ha Hd.
  unfold ScriptPipeline.get_data, bind. rewrite Hp.
  unfold ScriptPipeline.on_json. rewrite Ha. unfold gets, lift. simpl.
  rewrite Hd. simpl.
  destruct (dict_get d "parameters"); try reflexivity.
  destruct (re_match_at key); [|reflexivity].
  destruct (ScriptPipeline.scan_parameters _ _ _); reflexivity.
Qed.

End GetData.

(** C1, as the specification states it, does not hold: the packet
    [{"@foo": "direct", "parameters": [["foo","bar"],["baz","qux"]]}] has
    the key [@foo], and selecting [@foo] gives ["bar"], the value of the
    pair, not ["direct"]. *)
Lemma get_data_plain_lookup_first_fails :
  ~ (forall (J : Type) (S : MyPyJSON J) (p p' : ScriptPipeline.pipeline J)
            (key : string) (d : list (string * pyval)) (v r : pyval),
       ScriptPipeline.get_data (Some key) p = (p', Ok r) ->
       allData (ScriptPipeline.json p') = PDict d ->
       dict_lookup d key = Some v ->
       r = v).
Proof.
  intros Hclaim.
  specialize (Hclaim PacketStore.store example_store (piped shadowed_text)
                (fst (@ScriptPipeline.get_data _ example_store (Some "@foo")
                        (piped shadowed_text)))
                "@foo"
                [("@foo", PStr "direct");
                 ("parameters", PList [PList [PStr "foo"; PStr "bar"];
                                       PList [PStr "baz"; PStr "qux"]])]
                (PStr "direct") (PStr "bar")).
  assert (Hr : PStr "bar" = PStr "direct").
  { apply Hclaim; vm_compute; reflexivity. }
  discriminate Hr.
Qed.

(** C1 (amended): once the lines of the pipeline are accepted and the store
    holds a packet, [get_data] gives, for a key without the mark [@] and for
    a packet without a list of [parameters], the value of the plain lookup,
    so that the list is not consulted; for a key [@name] and a list of
    [[name, value]] pairs, it gives the value of the last pair with that
    name, whether the plain lookup of [@name] succeeds or not, and the value
    of the plain lookup (absent when the packet has no such key) when no
    pair has that name. *)
Theorem get_data_parameters {J : Type} `{MyPyJSON J}
    (p p1 : ScriptPipeline.pipeline J) (lines : list string) (j : J)
    (d : list (string * pyval))
    (Hpipe : ScriptPipeline.pipelines p = (p1, Ok (Some lines)))
    (Haccept : accept lines false (ScriptPipeline.json p1) = (j, Ok tt))
    (Hdata : allData j = PDict d) :
  (forall key,
      re_match_at key = None ->
      snd (ScriptPipeline.get_data (Some key) p) = Ok (dict_get d key)) /\
  (forall key,
      (forall pairs, dict_get d "parameters" <> PList pairs) ->
      snd (ScriptPipeline.get_data (Some key) p) = Ok (dict_get d key)) /\
  (forall name pairs,
      no_newline name = true ->
      dict_get d "parameters" = PList (pairs_value pairs) ->
      snd (ScriptPipeline.get_data (Some (String "@" name)) p)
      = Ok (default (dict_get d (String "@" name)) (last_named name pairs))).
Proof.
  split; [|split].
  - intros key Hm. rewrite (get_data_key p p1 lines j d key Hpipe Haccept Hdata).
    rewrite Hm. destruct (dict_get d "parameters"); reflexivity.
  - intros key Hno. rewrite (get_data_key p p1 lines j d key Hpipe Haccept Hdata).
    destruct (dict_get d "parameters") as [| | | | |pairs|] eqn:Hp; try reflexivity.
    exfalso. exact (Hno pairs eq_refl).
  - intros name pairs Hn Hp.
    rewrite (get_data_key p p1 lines j d _ Hpipe Haccept Hdata).
    rewrite Hp, (re_match_at_marked name Hn).
    apply scan_parameters_pairs.
Qed.

(** The examples of the specification on a packet with the pairs
    [["foo","bar"]] and [["baz","qux"]]: [@foo] gives ["bar"], and
    [@missing] gives nothing. *)
Lemma get_data_parameters_examples :
  snd (@ScriptPipeline.get_data _ example_store (Some "@foo") (piped parameters_text))
  = Ok (PStr "bar") /\
  snd (@ScriptPipeline.get_data _ example_store (Some "@missing") (piped parameters_text))
  = Ok PNone.
Proof.
  pose proof (@get_data_parameters _ example_store (piped parameters_text)
                (fst (@ScriptPipeline.pipelines _ (piped parameters_text)))
                [parameters_text]
                (fst (@accept _ example_store [parameters_text] false
                        (@new_store _ example_store true false)))
                [("parameters", PList [PList [PStr "foo"; PStr "bar"];
                                       PList [PStr "baz"; PStr "qux"]])]
                eq_refl eq_refl eq_refl) as (_ & _ & Hmarked).
  split.
  - exact (Hmarked "foo" [(PStr "foo", PStr "bar"); (PStr "baz", PStr "qux")]
             eq_refl eq_refl).
  - exact (Hmarked "missing" [(PStr "foo", PStr "bar"); (PStr "baz", PStr "qux")]
             eq_refl eq_refl).
Defined.

(** ** [backfilled] *)

(** C9: [backfilled] leaves the table it is given, and every dict that
    exists when it is called, as they are. When [get_data] is not called or
    returns, it returns a new dict; in it every key other than the named
    one has the value of the table; it is equal to the table when the table
    has a value other than [None] for the named key; and it differs from
    the table only by the named key, absent from the table, being filled
    with the value that [get_data] gives for the data source. It raises
    only what [get_data] raises. *)
Theorem backfilled_frame {J : Type} `{MyPyJSON J}
    (w : ScriptPipeline.world J) (table : positive) (tbl : gmap string pyval)
    (key : string) (data_source : option string)
    (Hlive : ScriptPipeline.heap w !! table = Some tbl) :
  let (w', r) := ScriptPipeline.backfilled table key data_source w in
  ScriptPipeline.heap w' !! table = Some tbl /\
  (forall l, l ∈ dom (ScriptPipeline.heap w) ->
             ScriptPipeline.heap w' !! l = ScriptPipeline.heap w !! l) /\
  match r with
  | Ok result =>
      ScriptPipeline.heap w !! result = None /\
      exists filled,
        ScriptPipeline.heap w' !! result = Some filled /\
        (forall k, k <> key -> filled !! k = tbl !! k) /\
        (is_None (switches_get tbl key) = false -> filled = tbl) /\
        (filled = tbl \/
         exists v,
           is_None (switches_get tbl key) = true /\
           snd (ScriptPipeline.get_data data_source (ScriptPipeline.self w)) = Ok v /\
           is_None v = false /\
           filled = <[key := v]> tbl)
  | Raise e =>
      is_None (switches_get tbl key) = true /\
      snd (ScriptPipeline.get_data data_source (ScriptPipeline.self w)) = Raise e
  end.
Proof.
  pose proof (is_fresh (dom (ScriptPipeline.heap w))) as Hfresh.
  set (r0 := fresh (dom (ScriptPipeline.heap w))) in *.
  assert (Hnew : ScriptPipeline.heap w !! r0 = None)
    by (apply not_elem_of_dom; exact Hfresh).
  assert (Hne : r0 <> table) by (intros ->; congruence).
  assert (Htbl : ScriptPipeline.heap w !!! table = tbl)
    by (apply lookup_total_correct; exact Hlive).
  assert (Hold : forall (x : gmap string pyval) l,
             l ∈ dom (ScriptPipeline.heap w) ->
             <[r0 := x]> (ScriptPipeline.heap w) !! l = ScriptPipeline.heap w !! l).
  { intros x l Hl. apply lookup_insert_ne. intros <-. exact (Hfresh Hl). }
  unfold ScriptPipeline.backfilled, bind, ScriptPipeline.copy_dict,
    ScriptPipeline.read_dict, gets, ret.
  fold r0. cbn [ScriptPipeline.heap ScriptPipeline.self].
  rewrite Htbl, lookup_total_insert_eq.
  destruct (is_None (switches_get tbl key)) eqn:Habsent.
  - unfold ScriptPipeline.on_self. cbn [ScriptPipeline.heap ScriptPipeline.self].
    destruct (ScriptPipeline.get_data data_source (ScriptPipeline.self w))
      as [p' [v|e]] eqn:Hget; cbn [snd].
    + destruct (is_None v) eqn:Hv; cbn [negb].
      * cbn [ScriptPipeline.heap].
        split; [rewrite lookup_insert_ne by exact Hne; exact Hlive|].
        split; [intros l Hl; apply Hold, Hl|].
        split; [exact Hnew|].
        exists tbl. rewrite lookup_insert_eq.
        split; [reflexivity|]. split; [reflexivity|].
        split; [reflexivity | left; reflexivity].
      * unfold ScriptPipeline.setitem, modify.
        cbn [ScriptPipeline.heap ScriptPipeline.self].
        rewrite lookup_total_insert_eq, insert_insert_eq.
        split; [rewrite lookup_insert_ne by exact Hne; exact Hlive|].
        split; [intros l Hl; apply Hold, Hl|].
        split; [exact Hnew|].
        exists (<[key := v]> tbl). rewrite lookup_insert_eq.
        split; [reflexivity|].
        split; [intros k Hk; apply lookup_insert_ne; congruence|].
        split; [congruence|].
        right. exists v.
        split; [reflexivity|]. split; [reflexivity|].
        split; [exact Hv | reflexivity].
    + cbn [ScriptPipeline.heap].
      split; [rewrite lookup_insert_ne by exact Hne; exact Hlive|].
      split; [intros l Hl; apply Hold, Hl|].
      split; reflexivity.
  - cbn [ScriptPipeline.heap].
    split; [rewrite lookup_insert_ne by exact Hne; exact Hlive|].
    split; [intros l Hl; apply Hold, Hl|].
    split; [exact Hnew|].
    exists tbl. rewrite lookup_insert_eq.
    split; [reflexivity|]. split; [reflexivity|].
    split; [reflexivity | left; reflexivity].
Qed.

(** The table [{"au_title": None, "jar": "plugin.jar"}] backfilled at
    [au_title] from the key [AU Title] of the piped packet
    [{"AU Title": "Minutes 1901"}]: the table is as it was, and the dict
    returned has the title. *)
Lemma backfilled_frame_au_title :
  let (w', r) := @ScriptPipeline.backfilled _ example_store 1%positive "au_title"
                   (Some "AU Title") (example_world title_text) in
  ScriptPipeline.heap w' !! 1%positive
  = Some {[ "au_title" := PNone; "jar" := PStr "plugin.jar" ]} /\
  match r with
  | Ok result =>
      exists filled,
        ScriptPipeline.heap w' !! result = Some filled /\
        filled !! "jar" = Some (PStr "plugin.jar")
  | Raise _ => False
  end.
Proof.
  pose proof (@backfilled_frame _ example_store (example_world title_text) 1%positive
                {[ "au_title" := PNone; "jar" := PStr "plugin.jar" ]}
                "au_title" (Some "AU Title") eq_refl) as Hb.
  destruct (@ScriptPipeline.backfilled _ example_store 1%positive "au_title"
              (Some "AU Title") (example_world title_text)) as [w' [result|e]].
  - destruct Hb as (Htable & _ & _ & filled & Hfilled & Hframe & _).
    split; [exact Htable|].
    exists filled. split; [exact Hfilled|].
    rewrite (Hframe "jar"); [reflexivity | discriminate].
  - destruct Hb as (_ & _ & _ & Hraise).
    vm_compute in Hraise. discriminate Hraise.
Defined.

(** ** The [where] filter *)

(** Where [data_matches] decides, it decides as the specification says. *)
Lemma data_matches_decides (re_compile : string -> option (string -> bool))
    (d : list (string * pyval)) (key value : string) :
  (forall pattern matches field,
      re_match_slashes value = Some pattern ->
      re_compile pattern = Some matches ->
      dict_get d key = PStr field ->
      GetJSON.data_matches re_compile (PDict d) key value = Ok (matches field)) /\
  (forall field,
      re_match_slashes value = None ->
      dict_get d key = PStr field ->
      GetJSON.data_matches re_compile (PDict d) key value
      = Ok (String.eqb field value)) /\
  (forall n v,
      re_match_slashes value = None ->
      dict_get d key = PInt n ->
      py_int_of_str value = Some v ->
      GetJSON.data_matches re_compile (PDict d) key value = Ok (n =? v)) /\
  (re_match_slashes value = None ->
   dict_get d key = PNone ->
   GetJSON.data_matches re_compile (PDict d) key value = Ok false).
Proof.
  unfold GetJSON.data_matches.
  split; [|split; [|split]].
  - intros pattern matches field -> -> ->. reflexivity.
  - intros field -> ->. reflexivity.
  - intros n v -> -> Hv. simpl. rewrite Hv. reflexivity.
  - intros -> ->. reflexivity.
Qed.

(** C8 (defect): for the item [{"id": 1}] of a list packet and the filter
    [name:/x/], [data_matches] does not decide whether the item is kept: it
    raises, [TypeError] when the pattern is a regular expression, because
    the field [name] of the item is not a text. The same item with the
    filter [name:x], on the path of the literal values, is dropped. The
    query tool run with [--key=items --where=name:/x/] on the packet
    [{"items":[{"name":"x"},{"id":1}]}] ends with that [TypeError]
    uncaught. *)
Theorem data_matches_regex_raises_without_text
    (re_compile : string -> option (string -> bool)) :
  GetJSON.data_matches re_compile (PDict [("id", PInt 1)]) "name" "/x/"
  = match re_compile "x" with
    | Some _ => Raise TypeError
    | None => Raise ReError
    end /\
  GetJSON.data_matches re_compile (PDict [("id", PInt 1)]) "name" "x" = Ok false /\
  snd (@GetJSON.execute _ example_store example_str (fun s => s) (fun _ _ => "")
         (fun _ _ => Raise TypeError) match_all (fun _ _ => Raise TypeError)
         4 [items_text] where_tool)
  = Uncaught TypeError.
Proof.
  split; [|split].
  - unfold GetJSON.data_matches. simpl.
    destruct (re_compile "x"); reflexivity.
  - reflexivity.
  - vm_compute. reflexivity.
Qed.

(** ** The terminator of the output *)

Section OutputTerminator.
Context {J : Type} `{MyPyJSON J}.

Lemma used_json_idem g : used_json (used_json g) = used_json g.
Proof. reflexivity. Qed.

Lemma formatted_used_json g line : formatted (used_json g) line = formatted g line.
Proof. reflexivity. Qed.

Lemma format_line_eq line g :
  GetJSON.format_line line g =
  (if CommandLineTool.switched (CommandLineTool.switches (GetJSON.base g)) "prolog" false
   then used_json g else g,
   Ok (formatted g line)).
Proof.
  unfold GetJSON.format_line, formatted, used_json, bind, gets, ret.
  destruct (CommandLineTool.switched _ "prolog" false);
    cbn [negb GetJSON.base GetJSON.with_json];
    destruct (CommandLineTool.switched _ "epilog" false); reflexivity.
Qed.

Lemma format_lines_eq lines : forall g,
  exists g',
    GetJSON.format_lines lines g = (g', Ok (map (formatted g) lines)) /\
    GetJSON.base g' = GetJSON.base g /\
    (g' = g \/ g' = used_json g).
Proof.
  induction lines as [|line lines IH]; intros g.
  - exists g. split; [reflexivity|]. split; [reflexivity | left; reflexivity].
  - simpl. unfold bind. rewrite format_line_eq.
    destruct (CommandLineTool.switched _ "prolog" false).
    + destruct (IH (used_json g)) as (g' & -> & Hb & Hg).
      exists g'. split; [|split].
      * unfold ret. do 2 f_equal.
      * rewrite Hb. reflexivity.
      * right. destruct Hg as [-> | ->]; reflexivity.
    + destruct (IH g) as (g' & -> & Hb & Hg).
      exists g'. split; [reflexivity|]. split; assumption.
Qed.

(** What [write_output] does. *)
Lemma write_output_eq g :
  match GetJSON.get_output_terminator g None with
  | Ok terminator =>
      exists g',
        GetJSON.write_output g = (g', Ok tt) /\
        CommandLineTool.console (GetJSON.base g') =
        CommandLineTool.console (GetJSON.base g) ++
          match GetJSON._output g with
          | [] => []
          | lines =>
              [(Stdout,
                join (String chr_newline "") (map (formatted g) lines) +:+ terminator)]
          end
  | Raise e => GetJSON.write_output g = (g, Raise e)
  end.
Proof.
  unfold GetJSON.write_output, bind, gets.
  destruct (GetJSON.get_output_terminator g None) as [terminator|e]; [|reflexivity].
  destruct (format_lines_eq (GetJSON._output g) g) as (g' & -> & Hb & Hg).
  destruct (GetJSON._output g) as [|line lines] eqn:Hout.
  - exists g'. split; [reflexivity|]. rewrite Hb, app_nil_r. reflexivity.
  - eexists. split; [reflexivity|].
    unfold GetJSON.on_base, modify. simpl.
    rewrite Hb. reflexivity.
Qed.

End OutputTerminator.

(** C5: the terminator of the output is a newline when table mode is active
    or when the output has more than one line, and is empty otherwise; a
    formatting pass prints the lines of the output as [format_line] gives
    them, joined by newlines, and that terminator after them, and prints
    nothing when there is no line. *)
Theorem output_terminator {J : Type} `{MyPyJSON J} (g : GetJSON.getjson J) :
  (forall output,
      match GetJSON.get_output_terminator g output with
      | Ok terminator =>
          exists table_mode,
            GetJSON.wants_table g = Ok table_mode /\
            let n := length (match output with
                             | None => GetJSON._output g
                             | Some output => output
                             end) in
            (terminator = String chr_newline "" <-> table_mode = true \/ (1 < n)%nat) /\
            (terminator = "" <-> table_mode = false /\ (n <= 1)%nat)
      | Raise e => GetJSON.wants_table g = Raise e
      end) /\
  match GetJSON.get_output_terminator g None with
  | Ok terminator =>
      exists g',
        GetJSON.write_output g = (g', Ok tt) /\
        CommandLineTool.console (GetJSON.base g') =
        CommandLineTool.console (GetJSON.base g) ++
          match GetJSON._output g with
          | [] => []
          | lines =>
              [(Stdout,
                join (String chr_newline "") (map (formatted g) lines) +:+ terminator)]
          end
  | Raise e => GetJSON.write_output g = (g, Raise e)
  end.
Proof.
  split; [|apply write_output_eq].
  intros output. unfold GetJSON.get_output_terminator.
  destruct (GetJSON.wants_table g) as [table_mode|e]; [|reflexivity].
  simpl. exists table_mode. split; [reflexivity|].
  unfold GetJSON.is_multiline_output.
  set (n := length _).
  destruct table_mode; simpl.
  - split; split; try discriminate; intuition congruence.
  - destruct (Z.ltb_spec 1 (Z.of_nat n)).
    + split; split; try discriminate; intros; try lia; intuition lia.
    + split; split; try discriminate; intros; try lia; intuition (try lia; try congruence).
Qed.

(** The keys [a] and [b] of the packet [{"a":1,"b":2}]: two lines of a key,
    a tab and a value, and a newline after the last; the key [a] alone: its
    value, and nothing after it. *)
Example output_terminator_scenarios :
  CommandLineTool.console
    (GetJSON.base
       (fst (@GetJSON.execute _ example_store example_str (fun s => s) (fun _ _ => "")
               (fun _ _ => Raise TypeError) match_all (fun _ _ => Raise TypeError)
               4 [ab_text] two_keys_tool)))
  = [(Stdout,
      "a" +:+ String chr_tab "1" +:+ String chr_newline ("b" +:+ String chr_tab "2")
      +:+ String chr_newline "")] /\
  CommandLineTool.console
    (GetJSON.base
       (fst (@GetJSON.execute _ example_store example_str (fun s => s) (fun _ _ => "")
               (fun _ _ => Raise TypeError) match_all (fun _ _ => Raise TypeError)
               4 [ab_text] one_key_tool)))
  = [(Stdout, "1")].
Proof. split; vm_compute; reflexivity. Qed.

(** ** The passes of [get_json_input] over the input *)

Section InputPasses.
Context {J : Type} `{MyPyJSON J}.
Context (re_compile : string -> option (string -> bool))
        (py_add : pyval -> pyval -> res pyval).

(** The second part of [get_json_input] leaves the object as it is. *)
Lemma append_value_state (g : GetJSON.getjson J) table :
  fst (GetJSON.append_value py_add table g) = g.
Proof.
  unfold GetJSON.append_value, bind, gets, ret, raise, GetJSON.result_of.
  destruct table; try reflexivity.
  destruct (GetJSON.switch g "key+"); try reflexivity.
  cbn [fst snd].
  destruct (is_None (GetJSON.switch g "value+")); cbn [is_None].
  - reflexivity.
  - destruct (is_None (dict_get d s)); [reflexivity|].
    destruct (dict_get d s); destruct (GetJSON.switch g "value+");
      try reflexivity; cbn [fst snd];
      match goal with
      | |- context [py_add ?a ?b] => destruct (py_add a b); reflexivity
      end.
Qed.

Lemma wrap_into_state (g : GetJSON.getjson J) table :
  fst (GetJSON.wrap_into table g) = g.
Proof.
  unfold GetJSON.wrap_into, bind, gets, ret, raise.
  destruct (GetJSON.switch g "into"); reflexivity.
Qed.

Lemma get_json_input_state (g : GetJSON.getjson J) lines :
  fst (GetJSON.get_json_input re_compile py_add lines g)
  = fst (GetJSON.input_table re_compile lines g).
Proof.
  unfold GetJSON.get_json_input, bind.
  destruct (GetJSON.input_table re_compile lines g) as [g1 [table|e]]; [|reflexivity].
  unfold gets. cbn [fst snd].
  destruct (CommandLineTool.switched _ "key+" false).
  - pose proof (append_value_state g1 table) as Ha.
    destruct (GetJSON.append_value py_add table g1) as [g2 [table'|e]];
      cbn [fst] in Ha; subst g2; [|reflexivity].
    destruct (CommandLineTool.switched _ "into" false).
    + apply wrap_into_state.
    + reflexivity.
  - unfold ret. cbn [fst snd].
    destruct (CommandLineTool.switched _ "into" false).
    + apply wrap_into_state.
    + reflexivity.
Qed.

Lemma switched_None sw key :
  switches_get sw key = PNone -> CommandLineTool.switched sw key false = false.
Proof.
  unfold switches_get, CommandLineTool.switched.
  destruct (sw !! key) as [v|]; [intros ->|]; reflexivity.
Qed.

(** Without the switches [key+] and [into], [get_json_input] gives the
    table of the passes over the input. *)
Lemma get_json_input_plain (g : GetJSON.getjson J) lines :
  GetJSON.switch g "key+" = PNone ->
  GetJSON.switch g "into" = PNone ->
  forall g1 r,
    GetJSON.input_table re_compile lines g = (g1, r) ->
    GetJSON.base g1 = GetJSON.base g ->
    GetJSON.get_json_input re_compile py_add lines g = (g1, r).
Proof.
  intros Hk Hi g1 r Ht Hb.
  unfold GetJSON.get_json_input, bind. rewrite Ht.
  destruct r as [table|e]; [|reflexivity].
  unfold gets, ret. cbn beta iota. rewrite Hb.
  rewrite (switched_None _ "key+" Hk). cbn beta iota. rewrite Hb.
  rewrite (switched_None _ "into" Hi). reflexivity.
Qed.

End InputPasses.

Section ScreenPass.
Context {J : Type} `{MyPyJSON J}.
Context (re_compile : string -> option (string -> bool))
        (py_add : pyval -> pyval -> res pyval).

(** A pass over the input is one call of [accept]. *)
Lemma input_pass_calls (g : GetJSON.getjson (J * call_log)) lines screen :
  accept_calls (fst (GetJSON.input_pass re_compile lines screen g))
  = accept_calls g ++ [(lines, screen)].
Proof.
  unfold accept_calls, GetJSON.input_pass, bind, GetJSON.on_json.
  cbn [accept logged].
  destruct (accept lines screen _) as [j1 [[]|e]]; [|reflexivity].
  cbn [fst snd GetJSON.json GetJSON.with_json GetJSON._json].
  destruct (GetJSON.selected re_compile _) as [ok|e]; [|reflexivity].
  cbn [select_where logged fst snd GetJSON.json GetJSON.with_json GetJSON._json].
  destruct (select_where ok j1) as [j2 [[]|e]]; reflexivity.
Qed.

End ScreenPass.

(** C4: in [get_json_input] the store is first run over the input with
    [screen] off. When that pass succeeds, its table is the table of the
    input and the store has received no call with [screen] on. When it
    raises a decode error, the store is run once more, over the same lines,
    with [screen] on, and the table of that pass is the table of the input.
    When it raises anything else, there is no second pass. For a store as
    the specification describes it, the line
    [Some noise {"k":1} trailing text] gives the packet [{"k": 1}] in this
    way. *)
Theorem get_json_input_screen_pass
    (re_compile : string -> option (string -> bool))
    (py_add : pyval -> pyval -> res pyval) :
  (forall (J : Type) (S : MyPyJSON J) (lines : list string)
          (g : GetJSON.getjson (J * call_log)),
      let after := fst (GetJSON.get_json_input re_compile py_add lines g) in
      match GetJSON.input_pass re_compile lines false g with
      | (g1, Ok table) =>
          GetJSON.input_table re_compile lines g = (g1, Ok table) /\
          accept_calls after = accept_calls g ++ [(lines, false)]
      | (g1, Raise e) =>
          if is_JSONDecodeError e then
            GetJSON.input_table re_compile lines g
            = GetJSON.input_pass re_compile lines true g1 /\
            accept_calls after = accept_calls g ++ [(lines, false); (lines, true)]
          else
            GetJSON.get_json_input re_compile py_add lines g = (g1, Raise e) /\
            accept_calls after = accept_calls g ++ [(lines, false)]
      end) /\
  (forall (json_loads : string -> option pyval)
          (g : GetJSON.getjson PacketStore.store),
      json_loads noisy_text = None ->
      json_loads k1_text = Some (PDict [("k", PInt 1)]) ->
      GetJSON._json g = None ->
      GetJSON.switch g "where" = PNone ->
      GetJSON.switch g "key+" = PNone ->
      GetJSON.switch g "into" = PNone ->
      snd (@GetJSON.input_pass _ (PacketStore.spec_store json_loads) re_compile
             [noisy_text] false g) = Raise JSONDecodeError /\
      snd (@GetJSON.get_json_input _ (PacketStore.spec_store json_loads) re_compile
             py_add [noisy_text] g) = Ok (PDict [("k", PInt 1)])).
Proof.
  split.
  - intros J S lines g after.
    pose proof (input_pass_calls re_compile g lines false) as Hdirect.
    pose proof (get_json_input_state re_compile py_add g lines) as Hstate.
    fold after in Hstate.
    destruct (GetJSON.input_pass re_compile lines false g) as [g1 [table|e]] eqn:Hp;
      cbn [fst] in Hdirect.
    + assert (Htable : GetJSON.input_table re_compile lines g = (g1, Ok table)).
      { unfold GetJSON.input_table, try_except. rewrite Hp. reflexivity. }
      split; [exact Htable|]. rewrite Hstate, Htable. exact Hdirect.
    + destruct (is_JSONDecodeError e) eqn:He.
      * assert (Htable : GetJSON.input_table re_compile lines g
                         = GetJSON.input_pass re_compile lines true g1).
        { unfold GetJSON.input_table, try_except. rewrite Hp, He. reflexivity. }
        split; [exact Htable|]. rewrite Hstate, Htable.
        rewrite (input_pass_calls re_compile g1 lines true), Hdirect.
        rewrite <- app_assoc. reflexivity.
      * assert (Htable : GetJSON.input_table re_compile lines g = (g1, Raise e)).
        { unfold GetJSON.input_table, try_except. rewrite Hp, He. reflexivity. }
        split.
        -- unfold GetJSON.get_json_input, bind. rewrite Htable. reflexivity.
        -- rewrite Hstate, Htable. exact Hdirect.
  - intros json_loads g Hnoisy Hk1 Hjson Hwhere Hkey Hinto.
    assert (Hfb : PacketStore.first_balanced noisy_text = Some k1_text)
      by (vm_compute; reflexivity).
    assert (Hdirect :
      @GetJSON.input_pass _ (PacketStore.spec_store json_loads) re_compile
        [noisy_text] false g
      = (GetJSON.with_json
           {| PacketStore.splat := GetJSON.wants_splat g;
              PacketStore.cascade := GetJSON.wants_cascade g;
              PacketStore.packet := [];
              PacketStore.raw_text := PStr noisy_text |} g,
         Raise JSONDecodeError)).
    { unfold GetJSON.input_pass, bind, GetJSON.on_json, GetJSON.json.
      rewrite Hjson.
      cbn [accept new_store PacketStore.spec_store].
      unfold PacketStore.store_accept, PacketStore.accept_lines, PacketStore.extract.
      rewrite Hnoisy. reflexivity. }
    split; [rewrite Hdirect; reflexivity|].
    set (g1 := GetJSON.with_json _ g) in Hdirect.
    assert (Hscreen :
      @GetJSON.input_pass _ (PacketStore.spec_store json_loads) re_compile
        [noisy_text] true g1
      = (GetJSON.with_json
           {| PacketStore.splat := GetJSON.wants_splat g;
              PacketStore.cascade := GetJSON.wants_cascade g;
              PacketStore.packet := [("k", PInt 1)];
              PacketStore.raw_text := PStr noisy_text |} g,
         Ok (PDict [("k", PInt 1)]))).
    { unfold GetJSON.input_pass, bind, GetJSON.on_json, GetJSON.json, g1.
      cbn [GetJSON._json GetJSON.with_json accept PacketStore.spec_store].
      unfold PacketStore.store_accept, PacketStore.accept_lines, PacketStore.extract.
      rewrite Hnoisy, Hfb, Hk1.
      cbn [PacketStore.merge fold_left dict_update fst snd PacketStore.packet
           PacketStore.splat PacketStore.cascade GetJSON.with_json].
      unfold GetJSON.selected, GetJSON.switch in *.
      cbn [GetJSON.base GetJSON.with_json]. rewrite Hwhere.
      cbn [py_truthy select_where PacketStore.spec_store ret gets allData
           GetJSON.json GetJSON._json].
      unfold PacketStore.store_allData.
      cbn [PacketStore.splat PacketStore.packet].
      destruct (GetJSON.wants_splat g); reflexivity. }
    assert (Htable :
      @GetJSON.input_table _ (PacketStore.spec_store json_loads) re_compile
        [noisy_text] g
      = (GetJSON.with_json
           {| PacketStore.splat := GetJSON.wants_splat g;
              PacketStore.cascade := GetJSON.wants_cascade g;
              PacketStore.packet := [("k", PInt 1)];
              PacketStore.raw_text := PStr noisy_text |} g,
         Ok (PDict [("k", PInt 1)]))).
    { unfold GetJSON.input_table, try_except. rewrite Hdirect.
      cbn [is_JSONDecodeError]. exact Hscreen. }
    rewrite (get_json_input_plain re_compile py_add g [noisy_text] Hkey Hinto
               _ _ Htable eq_refl).
    reflexivity.
Qed.

(** The line [Some noise {"k":1} trailing text] read by the query tool, with
    a decoder of JSON texts: the first pass raises a decode error, and the
    packet is [{"k": 1}]. *)
Lemma get_json_input_screen_pass_noisy_line :
  snd (@GetJSON.input_pass _ example_store match_all [noisy_text] false query_tool)
  = Raise JSONDecodeError /\
  snd (@GetJSON.get_json_input _ example_store match_all (fun _ _ => Raise TypeError)
         [noisy_text] query_tool)
  = Ok (PDict [("k", PInt 1)]).
Proof.
  apply (proj2 (get_json_input_screen_pass match_all (fun _ _ => Raise TypeError))
           PacketStore.decode query_tool); reflexivity.
Defined.

(** ** The exit code of the JSON query tool *)

Section ExitCode.
Context {J : Type} `{MyPyJSON J}.
Context (py_str : pyval -> string)
        (url_quote : string -> string)
        (json_dumps : pyval -> pyval -> string)
        (py_percent : string -> list (string * pyval) -> res string)
        (re_compile : string -> option (string -> bool))
        (py_add : pyval -> pyval -> res pyval).

Lemma exit_eq (g : GetJSON.getjson J) :
  GetJSON.exit g =
  (GetJSON.with_base
     (CommandLineTool.with_exitcode (priority_code (GetJSON._flags g)) (GetJSON.base g)) g,
   Exited (priority_code (GetJSON._flags g))).
Proof.
  unfold GetJSON.exit, GetJSON.exitcode, GetJSON.test_flagged, priority_code,
    GetJSON.flags_get.
  destruct (GetJSON.flag_json_error (GetJSON._flags g)); [|reflexivity].
  destruct (GetJSON.flag_key_error (GetJSON._flags g)); [|reflexivity].
  destruct (GetJSON.flag_output_error (GetJSON._flags g)); reflexivity.
Qed.

Lemma get_output_format_text (g : GetJSON.getjson J) :
  output_is_text g ->
  exists parts : list string, forall i, GetJSON.get_output_format g i = Ok (parts !! i).
Proof.
  unfold GetJSON.get_output_format.
  intros [-> | [s ->]]; eexists; intros i; reflexivity.
Qed.

Lemma wants_output_text (g : GetJSON.getjson J) :
  output_is_text g ->
  GetJSON.switch g "template" = PNone ->
  GetJSON.switch g "indent" = PNone ->
  (exists b, GetJSON.wants_json_output g = Ok b) /\
  (exists b, GetJSON.wants_table g = Ok b) /\
  GetJSON.wants_printf_output g = Ok false /\
  (exists i, GetJSON.get_json_indent py_str g = Ok i).
Proof.
  intros Ho Ht Hi.
  destruct (get_output_format_text g Ho) as [parts Hf].
  unfold GetJSON.wants_json_output, GetJSON.wants_table, GetJSON.wants_printf_output,
    GetJSON.get_json_indent.
  rewrite !Hf, Ht, Hi. cbn [res_bind is_None negb].
  split; [|split; [|split]].
  - destruct (GetJSON.opt_eq_str (parts !! 0%nat) "json"); eexists; reflexivity.
  - destruct (GetJSON.opt_eq_str (parts !! 0%nat) "text/tab-separated-values");
      destruct (is_None (GetJSON.switch g "key")); eexists; reflexivity.
  - rewrite andb_false_r. reflexivity.
  - destruct (GetJSON.opt_eq_str (parts !! 1%nat) "prettyprint"); [eexists; reflexivity|].
    destruct (strip_prefix "indent=" _) as [rest|]; [|eexists; reflexivity].
    destruct (dotstar_eol rest) as [m1|]; [|eexists; reflexivity].
    unfold GetJSON.int_or_str, GetJSON.py_int.
    destruct (py_int_of_str m1); eexists; reflexivity.
Qed.

(** A dict shown for a single key that it does not have: the key is
    flagged, and nothing is raised. *)
Lemma display_data_dict_missing fuel d context parse depth k (g : GetJSON.getjson J) :
  dict_lookup d k = None ->
  output_is_text g ->
  GetJSON.switch g "template" = PNone ->
  GetJSON.switch g "indent" = PNone ->
  exists lines,
    GetJSON.display_data_dict py_str url_quote json_dumps py_percent re_compile
      (S fuel) d context parse (PList [PStr k]) depth g
    = (GetJSON.with_output (GetJSON._output g ++ lines)
         (GetJSON.with_flags
            (GetJSON.flags_extend GetJSON.key_error (PStr k) (GetJSON._flags g)) g),
       Ok tt).
Proof.
  intros Hk Ho Ht Hi.
  destruct (wants_output_text g Ho Ht Hi) as ([bj Hj] & [bt Hb] & Hp & [ind Hind]).
  set (g2 := GetJSON.with_flags
               (GetJSON.flags_extend GetJSON.key_error (PStr k) (GetJSON._flags g)) g).
  assert (Hj2 : GetJSON.wants_json_output g2 = Ok bj) by exact Hj.
  assert (Hb2 : GetJSON.wants_table g2 = Ok bt) by exact Hb.
  assert (Hp2 : GetJSON.wants_printf_output g2 = Ok false) by exact Hp.
  assert (Hind2 : GetJSON.get_json_indent py_str g2 = Ok ind) by exact Hind.
  cbn [GetJSON.display_data_dict].
  unfold bind at 1. unfold GetJSON.result_of at 1. cbn [GetJSON.select_keys].
  unfold bind at 1. rewrite Hj.
  unfold bind at 1. rewrite Hb.
  unfold bind at 1. cbn [GetJSON.keys_loop].
  unfold bind at 1. rewrite Hj.
  assert (Hget : GetJSON.dict_getitem d (PStr k) = Raise KeyError).
  { unfold GetJSON.dict_getitem. rewrite Hk. reflexivity. }
  destruct bj.
  - unfold bind at 1, gets at 1.
    destruct (negb (CommandLineTool.switched _ "without-key" false)).
    + unfold bind at 1, GetJSON.result_of at 1. rewrite Hget.
      cbn [is_KeyError fst snd].
      unfold bind at 1, GetJSON.add_flag at 1. cbn [is_None]. unfold modify at 1.
      fold g2.
      unfold bind at 1. rewrite Hp2.
      unfold bind at 1. rewrite Hj2.
      unfold bind at 1. rewrite Hind2.
      unfold GetJSON.output_extend, modify.
      eexists. reflexivity.
    + unfold GetJSON.result_of at 1. rewrite Hget.
      cbn [is_KeyError fst snd].
      unfold bind at 1, GetJSON.add_flag at 1. cbn [is_None]. unfold modify at 1.
      fold g2.
      unfold bind at 1. rewrite Hp2.
      unfold bind at 1. rewrite Hj2.
      unfold bind at 1. rewrite Hind2.
      unfold GetJSON.output_extend, modify.
      eexists. reflexivity.
  - change (Z.of_nat (length [PStr k]) <? 2) with true. cbv iota.
    unfold bind at 1, GetJSON.result_of at 1. rewrite Hget.
    cbn [is_KeyError fst snd].
    unfold bind at 1, GetJSON.add_flag at 1. cbn [is_None]. unfold modify at 1.
    fold g2.
    unfold bind at 1. rewrite Hp2.
    unfold bind at 1. rewrite Hj2.
    unfold bind at 1. rewrite Hb2.
    destruct (bt || match context with PList _ => true | _ => false end).
    + unfold bind, GetJSON.result_of. cbn [GetJSON.join_value GetJSON.str_items join].
      unfold GetJSON.output_extend, modify. eexists. reflexivity.
    + cbn [GetJSON.output_extend_value GetJSON.str_items].
      unfold GetJSON.output_extend, modify. eexists. reflexivity.
Qed.

Lemma same_attributes_refl (g : GetJSON.getjson J) : same_attributes g g.
Proof. repeat split. Qed.

Lemma input_pass_attributes (g : GetJSON.getjson J) lines screen :
  same_attributes g (fst (GetJSON.input_pass re_compile lines screen g)).
Proof.
  unfold GetJSON.input_pass, bind, GetJSON.on_json.
  destruct (accept lines screen _) as [j1 [[]|e]]; [|repeat split].
  destruct (GetJSON.selected re_compile _) as [ok|e]; [|repeat split].
  destruct (select_where ok _) as [j2 [[]|e]]; repeat split.
Qed.

Lemma get_json_input_attributes (g : GetJSON.getjson J) lines :
  same_attributes g (fst (GetJSON.get_json_input re_compile py_add lines g)).
Proof.
  rewrite get_json_input_state.
  unfold GetJSON.input_table, try_except.
  pose proof (input_pass_attributes g lines false) as H1.
  destruct (GetJSON.input_pass re_compile lines false g) as [g1 [table|e]];
    cbn [fst] in H1; [exact H1|].
  destruct (is_JSONDecodeError e); [|exact H1].
  pose proof (input_pass_attributes g1 lines true) as H2.
  destruct H1 as (Hb & Ho & Hf & Hm), H2 as (Hb2 & Ho2 & Hf2 & Hm2).
  repeat split; congruence.
Qed.

Lemma write_output_flags (g : GetJSON.getjson J) :
  GetJSON._flags (fst (GetJSON.write_output g)) = GetJSON._flags g.
Proof.
  unfold GetJSON.write_output, bind, gets.
  destruct (GetJSON.get_output_terminator g None) as [terminator|e]; [|reflexivity].
  destruct (format_lines_eq (GetJSON._output g) g) as (g' & -> & Hb & Hg).
  destruct (0 <? Z.of_nat (length (map (formatted g) (GetJSON._output g))));
    destruct Hg as [-> | ->]; reflexivity.
Qed.

Lemma priority_code_key_error fl :
  GetJSON.flag_json_error fl = [] ->
  GetJSON.flag_key_error fl <> [] ->
  priority_code fl = 1.
Proof.
  unfold priority_code. intros -> Hk.
  destruct (GetJSON.flag_key_error fl); [congruence | reflexivity].
Qed.

Lemma display_data_dict_case fuel d context parse depth :
  @GetJSON.display_data J py_str url_quote json_dumps py_percent re_compile
    (S fuel) (PDict d) context parse depth
  = bind (gets GetJSON.data_keys) (fun keys =>
      GetJSON.display_data_dict py_str url_quote json_dumps py_percent re_compile
        fuel d context parse keys (depth + 1)).
Proof. reflexivity. Qed.

(** The query for one key that the packet of the input does not have. *)
Lemma execute_missing_key fuel lines (g g1 : GetJSON.getjson J) d k :
  (2 <= fuel)%nat ->
  GetJSON.get_json_input re_compile py_add lines g = (g1, Ok (PDict d)) ->
  GetJSON.flags_get (GetJSON._flags g) GetJSON.json_error = [] ->
  GetJSON.data_keys g = PList [PStr k] ->
  dict_lookup d k = None ->
  output_is_text g ->
  GetJSON.switch g "template" = PNone ->
  GetJSON.switch g "indent" = PNone ->
  snd (GetJSON.execute py_str url_quote json_dumps py_percent re_compile py_add
         fuel lines g) = Exited 1.
Proof.
  intros Hfuel Hin Hflags Hkeys Hk Ho Ht Hi.
  destruct fuel as [|[|fuel]]; [lia | lia |].
  pose proof (get_json_input_attributes g lines) as Ha.
  rewrite Hin in Ha. cbn [fst] in Ha. destruct Ha as (Hb & Hout & Hf & Hm).
  assert (Hsw : forall key, GetJSON.switch g1 key = GetJSON.switch g key)
    by (intros key; unfold GetJSON.switch; rewrite Hb; reflexivity).
  assert (Ho1 : output_is_text g1) by (unfold output_is_text; rewrite Hsw; exact Ho).
  assert (Hkeys1 : GetJSON.data_keys g1 = PList [PStr k])
    by (unfold GetJSON.data_keys; rewrite Hb; exact Hkeys).
  destruct (display_data_dict_missing fuel d (PDict d) (GetJSON.switch g1 "parse") 1 k g1
              Hk Ho1 ltac:(rewrite Hsw; exact Ht) ltac:(rewrite Hsw; exact Hi))
    as [lines' Hshow].
  set (g3 := GetJSON.with_output _ _) in Hshow.
  assert (Ho3 : output_is_text g3) by exact Ho1.
  destruct (wants_output_text g3 Ho3 ltac:(rewrite <- Ht, <- Hsw; reflexivity)
              ltac:(rewrite <- Hi, <- Hsw; reflexivity)) as (_ & [bt Hbt] & _).
  pose proof (write_output_eq g3) as Hw.
  pose proof (write_output_flags g3) as Hwf.
  unfold GetJSON.get_output_terminator in Hw. rewrite Hbt in Hw. cbn [res_bind] in Hw.
  destruct Hw as (g4 & Hw & _). rewrite Hw in Hwf. cbn [fst] in Hwf.
  unfold GetJSON.execute, GetJSON.query.
  unfold bind at 1. unfold try_except.
  unfold bind at 1. rewrite Hin.
  unfold bind at 1, gets at 1.
  rewrite display_data_dict_case.
  unfold bind at 1.
  unfold bind at 1, gets at 1. rewrite Hkeys1.
  change (0 + 1) with 1. rewrite Hshow. rewrite Hw.
  unfold bind at 1, gets at 1. rewrite Hwf.
  assert (Herr : GetJSON.flags_get (GetJSON._flags g3) GetJSON.json_error = []).
  { unfold g3. cbn. rewrite Hf. exact Hflags. }
  rewrite Herr. cbn [for_each]. unfold ret.
  rewrite exit_eq. cbn [snd]. f_equal.
  apply priority_code_key_error.
  - rewrite Hwf. exact Herr.
  - rewrite Hwf. unfold g3. cbn.
    destruct (GetJSON.flag_key_error (GetJSON._flags g1)); discriminate.
Qed.

End ExitCode.

(** C3: the exit of the JSON query tool gives the code 2 when a decode
    error is flagged, else 1 when a key error is flagged, else 254 when an
    output error is flagged, else 0, whatever code was stored before, and
    every run of a query that reaches its exit ends with that code for the
    flags it has set. The query for one key that the packet does not have
    ends with the code 1. *)
Theorem query_exit_code {J : Type} `{MyPyJSON J}
    (py_str : pyval -> string) (url_quote : string -> string)
    (json_dumps : pyval -> pyval -> string)
    (py_percent : string -> list (string * pyval) -> res string)
    (re_compile : string -> option (string -> bool))
    (py_add : pyval -> pyval -> res pyval) :
  (forall g : GetJSON.getjson J,
      snd (GetJSON.exit g) = Exited (priority_code (GetJSON._flags g)) /\
      GetJSON._flags (fst (GetJSON.exit g)) = GetJSON._flags g) /\
  (forall fuel lines (g : GetJSON.getjson J),
      match GetJSON.execute py_str url_quote json_dumps py_percent re_compile py_add
              fuel lines g with
      | (g', Exited code) => code = priority_code (GetJSON._flags g')
      | (_, Uncaught _) => True
      end) /\
  (forall fuel lines (g g1 : GetJSON.getjson J) d k,
      (2 <= fuel)%nat ->
      GetJSON.get_json_input re_compile py_add lines g = (g1, Ok (PDict d)) ->
      GetJSON.flags_get (GetJSON._flags g) GetJSON.json_error = [] ->
      GetJSON.data_keys g = PList [PStr k] ->
      dict_lookup d k = None ->
      output_is_text g ->
      GetJSON.switch g "template" = PNone ->
      GetJSON.switch g "indent" = PNone ->
      snd (GetJSON.execute py_str url_quote json_dumps py_percent re_compile py_add
             fuel lines g) = Exited 1).
Proof.
  split; [|split].
  - intros g. rewrite exit_eq. split; reflexivity.
  - intros fuel lines g. unfold GetJSON.execute.
    destruct (GetJSON.query _ _ _ _ _ _ fuel lines g) as [g' [[]|e]]; [|exact I].
    rewrite exit_eq. reflexivity.
  - intros fuel lines g g1 d k. apply execute_missing_key.
Qed.

(** The key [missing] queried in the packet [{"a":1}]: the tool ends with
    the code 1, and has written nothing. *)
Lemma query_exit_code_missing_key :
  snd (@GetJSON.execute _ example_store example_str (fun s => s) (fun _ _ => "")
         (fun _ _ => Raise TypeError) match_all (fun _ _ => Raise TypeError)
         2 [a1_text] missing_key_tool)
  = Exited 1 /\
  CommandLineTool.console
    (GetJSON.base
       (fst (@GetJSON.execute _ example_store example_str (fun s => s) (fun _ _ => "")
               (fun _ _ => Raise TypeError) match_all (fun _ _ => Raise TypeError)
               2 [a1_text] missing_key_tool)))
  = [].
Proof.
  split; [|vm_compute; reflexivity].
  apply (proj2 (proj2 (@query_exit_code _ example_store example_str (fun s => s)
                         (fun _ _ => "") (fun _ _ => Raise TypeError) match_all
                         (fun _ _ => Raise TypeError)))
           2%nat [a1_text] missing_key_tool
           (fst (@GetJSON.get_json_input _ example_store match_all
                   (fun _ _ => Raise TypeError) [a1_text] missing_key_tool))
           [("a", PInt 1)] "missing").
  - lia.
  - vm_compute. reflexivity.
  - reflexivity.
  - reflexivity.
  - reflexivity.
  - left. reflexivity.
  - reflexivity.
  - reflexivity.
Defined.

(** * Further properties of the embedded code *)

(** ** [ADPNScriptPipeline]: the lines of the pipeline *)

Lemma split_on_not_nil sep s : split_on sep s <> [].
Proof.
  destruct s as [|c s]; simpl; [discriminate|].
  destruct (sep c); [discriminate|].
  destruct (split_on sep s); discriminate.
Qed.

Lemma split_on_pieces sep s p :
  p ∈ split_on sep s -> has_char sep p = false.
Proof.
  revert p. induction s as [|c s IH]; intros p Hp; simpl in Hp.
  - apply list_elem_of_singleton in Hp. subst p. reflexivity.
  - destruct (sep c) eqn:Hc.
    + apply elem_of_cons in Hp as [-> | Hp]; [reflexivity | apply IH, Hp].
    + destruct (split_on sep s) as [|q qs] eqn:Hs.
      * apply list_elem_of_singleton in Hp. subst p. simpl. rewrite Hc. reflexivity.
      * apply elem_of_cons in Hp as [-> | Hp].
        -- simpl. rewrite Hc. apply IH. left.
        -- apply IH. right. exact Hp.
Qed.

Lemma concat_all_split_on sep s : concat_all (split_on sep s) = without sep s.
Proof.
  induction s as [|c s IH]; [reflexivity|].
  simpl. destruct (sep c).
  - exact IH.
  - destruct (split_on sep s) as [|q qs] eqn:Hs.
    + exfalso. exact (split_on_not_nil sep s Hs).
    + change (String c (concat_all (q :: qs)) = String c (without sep s)).
      rewrite IH. reflexivity.
Qed.

Lemma concat_all_nonempty l :
  concat_all (filter (fun line => Is_true (nonempty line)) l) = concat_all l.
Proof.
  induction l as [|p ps IH]; [reflexivity|].
  destruct (nonempty p) eqn:Hp.
  - rewrite filter_cons_True by (rewrite Hp; exact I). simpl. rewrite IH. reflexivity.
  - rewrite filter_cons_False by (rewrite Hp; exact id). simpl. rewrite IH.
    unfold nonempty in Hp. apply negb_false_iff, String.eqb_eq in Hp.
    subst p. reflexivity.
Qed.

(** X1: the lines that the pipeline is split into are not empty and hold no
    line break, and together they are the text without its line breaks:
    nothing else is dropped. *)
Theorem split_lines_lines (text : string) :
  (forall line, line ∈ split_lines text ->
                line <> "" /\ has_char is_crlf line = false) /\
  concat_all (split_lines text) = without is_crlf text.
Proof.
  unfold split_lines. split.
  - intros line Hl. apply list_elem_of_filter in Hl as [Hne Hin]. split.
    + intros ->. exact Hne.
    + apply (split_on_pieces is_crlf text line Hin).
  - rewrite concat_all_nonempty. apply concat_all_split_on.
Qed.

(** The text of two lines, the first ended by a carriage return and two
    newlines: the lines are [a] and [b]. *)
Lemma split_lines_lines_crlf :
  ("a" <> "" /\ has_char is_crlf "a" = false) /\
  concat_all (split_lines crlf_text) = "ab".
Proof.
  split.
  - apply (proj1 (split_lines_lines crlf_text) "a").
    change (split_lines crlf_text) with ["a"; "b"]. left.
  - rewrite (proj2 (split_lines_lines crlf_text)). reflexivity.
Defined.

Section Pipelines.
Context {J : Type} `{MyPyJSON J}.

Lemma pipelines_cached (p : ScriptPipeline.pipeline J) lines :
  ScriptPipeline._pipelines p = Some lines ->
  ScriptPipeline.pipelines p = (p, Ok (Some lines)).
Proof.
  intros Hc. unfold ScriptPipeline.pipelines, bind, gets. rewrite Hc.
  cbn. rewrite Hc. reflexivity.
Qed.

(** What property [pipelines] does at its first evaluation. *)
Lemma pipelines_first (p : ScriptPipeline.pipeline J) :
  ScriptPipeline._pipelines p = None ->
  ScriptPipeline.pipelines p =
  if ScriptPipeline.is_piped (ScriptPipeline._stream_in p)
     || negb (ScriptPipeline._conditional p)
  then
    ({| ScriptPipeline._stream_in :=
          {| ScriptPipeline.is_piped := ScriptPipeline.is_piped (ScriptPipeline._stream_in p);
             ScriptPipeline.unread := "" |};
        ScriptPipeline._pipelines :=
          Some (split_lines (ScriptPipeline.unread (ScriptPipeline._stream_in p)));
        ScriptPipeline._conditional := ScriptPipeline._conditional p;
        ScriptPipeline.json := ScriptPipeline.json p |},
     Ok (Some (split_lines (ScriptPipeline.unread (ScriptPipeline._stream_in p)))))
  else (p, Ok None).
Proof.
  intros Hc.
  unfold ScriptPipeline.pipelines, bind, gets, ScriptPipeline.test_piped_input.
  rewrite Hc. cbn.
  destruct (ScriptPipeline.is_piped _ || negb _); cbn; [reflexivity|].
  rewrite Hc. reflexivity.
Qed.

End Pipelines.

(** X2: property [pipelines] reads the input stream at most once: a second
    evaluation gives the same lines and leaves the object as the first left
    it; it never raises; and a conditional pipeline whose input is not piped
    gives no lines and leaves the stream unread. *)
Theorem pipelines_read_once {J : Type} `{MyPyJSON J} (p : ScriptPipeline.pipeline J) :
  (let (p1, r) := ScriptPipeline.pipelines p in
   (exists lines, r = Ok lines) /\
   ScriptPipeline.pipelines p1 = (p1, r)) /\
  (ScriptPipeline._pipelines p = None ->
   ScriptPipeline._conditional p = true ->
   ScriptPipeline.is_piped (ScriptPipeline._stream_in p) = false ->
   ScriptPipeline.pipelines p = (p, Ok None)).
Proof.
  split.
  - destruct (ScriptPipeline._pipelines p) as [lines|] eqn:Hc.
    + rewrite (pipelines_cached p lines Hc). split; [eexists; reflexivity|].
      apply pipelines_cached, Hc.
    + rewrite (pipelines_first p Hc).
      destruct (ScriptPipeline.is_piped _ || negb _) eqn:Hread.
      * split; [eexists; reflexivity|]. apply pipelines_cached. reflexivity.
      * split; [eexists; reflexivity|]. rewrite (pipelines_first p Hc), Hread.
        reflexivity.
  - intros Hc Hcond Hpiped. rewrite (pipelines_first p Hc), Hcond, Hpiped. reflexivity.
Qed.

(** A conditional pipeline on a terminal is not read. *)
Lemma pipelines_read_once_on_terminal :
  @ScriptPipeline.pipelines _ (on_terminal "typed text")
  = (on_terminal "typed text", Ok None).
Proof.
  apply (proj2 (@pipelines_read_once _ example_store (on_terminal "typed text")));
    reflexivity.
Defined.

(** X3: without lines of a pipeline (a conditional pipeline whose input is
    not piped and was not read), [get_data] gives [None] for every key: it
    reads nothing from the stream and leaves the object, and so the store,
    as they are. *)
Theorem get_data_without_input {J : Type} `{MyPyJSON J}
    (p : ScriptPipeline.pipeline J) (key : option string)
    (Hcache : ScriptPipeline._pipelines p = None)
    (Hcond : ScriptPipeline._conditional p = true)
    (Hpiped : ScriptPipeline.is_piped (ScriptPipeline._stream_in p) = false) :
  ScriptPipeline.get_data key p = (p, Ok PNone).
Proof.
  unfold ScriptPipeline.get_data, bind.
  rewrite (pipelines_first p Hcache), Hcond, Hpiped. reflexivity.
Qed.

Lemma get_data_without_input_on_terminal :
  @ScriptPipeline.get_data _ example_store (Some "AU Title") (on_terminal title_text)
  = (on_terminal title_text, Ok PNone).
Proof.
  apply (@get_data_without_input _ example_store); reflexivity.
Defined.

(** X4: [backfilled] turns to the pipeline only when the table has no value
    for the key: then the object is left as [get_data] leaves it, and
    otherwise it is left as it was, with its input unread. *)
Theorem backfilled_reads_when_absent {J : Type} `{MyPyJSON J}
    (w : ScriptPipeline.world J) (table : positive) (key : string)
    (data_source : option string) :
  ScriptPipeline.self (fst (ScriptPipeline.backfilled table key data_source w))
  = if is_None (switches_get (ScriptPipeline.heap w !!! table) key)
    then fst (ScriptPipeline.get_data data_source (ScriptPipeline.self w))
    else ScriptPipeline.self w.
Proof.
  unfold ScriptPipeline.backfilled, bind, ScriptPipeline.copy_dict,
    ScriptPipeline.read_dict, gets, ret.
  cbn [ScriptPipeline.heap ScriptPipeline.self].
  rewrite lookup_total_insert_eq.
  destruct (is_None (switches_get _ key)); [|reflexivity].
  unfold ScriptPipeline.on_self. cbn [ScriptPipeline.heap ScriptPipeline.self].
  destruct (ScriptPipeline.get_data data_source (ScriptPipeline.self w))
    as [p' [v|e]]; [|reflexivity].
  destruct (is_None v); reflexivity.
Qed.

Lemma scan_parameters_sized name pairs : forall result,
  ScriptPipeline.scan_parameters name result pairs =
  if forallb sized pairs
  then ScriptPipeline.scan_parameters name result pairs
  else Raise TypeError.
Proof.
  induction pairs as [|item rest IH]; intros result; [reflexivity|].
  cbn [forallb ScriptPipeline.scan_parameters].
  unfold ScriptPipeline.scan_pair, sized.
  destruct (py_len item) as [n|e] eqn:Hlen.
  - cbn [res_bind andb].
    destruct (n =? 2); [destruct (unpack_pair item) as [[k v]|]|];
      cbn [res_bind]; apply IH.
  - destruct item; simpl in Hlen; try discriminate Hlen; injection Hlen as <-;
      reflexivity.
Qed.

Lemma scan_parameters_returns name pairs : forall result,
  forallb sized pairs = true ->
  exists v, ScriptPipeline.scan_parameters name result pairs = Ok v.
Proof.
  induction pairs as [|item rest IH]; intros result Hs; [eexists; reflexivity|].
  cbn [forallb] in Hs. apply andb_true_iff in Hs as [Hi Hrest].
  cbn [ScriptPipeline.scan_parameters]. unfold ScriptPipeline.scan_pair.
  unfold sized in Hi. destruct (py_len item) as [n|e]; [|discriminate Hi].
  cbn [res_bind].
  destruct (n =? 2); [destruct (unpack_pair item) as [[k v]|]|];
    cbn [res_bind]; apply IH, Hrest.
Qed.

Lemma scan_parameters_no_pair name pairs : forall result,
  forallb (fun item => sized item && negb (is_pair item)) pairs = true ->
  ScriptPipeline.scan_parameters name result pairs = Ok result.
Proof.
  induction pairs as [|item rest IH]; intros result Hs; [reflexivity|].
  cbn [forallb] in Hs. apply andb_true_iff in Hs as [Hi Hrest].
  apply andb_true_iff in Hi as [Hsized Hpair].
  cbn [ScriptPipeline.scan_parameters]. unfold ScriptPipeline.scan_pair.
  unfold sized in Hsized. unfold is_pair in Hpair.
  destruct (py_len item) as [n|e]; [|discriminate Hsized].
  cbn [res_bind]. apply negb_true_iff in Hpair. rewrite Hpair.
  cbn [res_bind]. apply IH, Hrest.
Qed.

(** X5: the entries of the list [parameters] that [get_data] goes through
    for a key [@name]: an entry that has no length (a number, a truth value,
    [None]) makes the call raise [TypeError], whatever the name; when every
    entry has a length the call returns; and entries whose length is not 2
    are passed over, so that a list of such entries gives the value of the
    plain lookup. *)
Theorem get_data_parameter_entries {J : Type} `{MyPyJSON J}
    (p p1 : ScriptPipeline.pipeline J) (lines : list string) (j : J)
    (d : list (string * pyval)) (name : string) (pairs : list pyval)
    (Hpipe : ScriptPipeline.pipelines p = (p1, Ok (Some lines)))
    (Haccept : accept lines false (ScriptPipeline.json p1) = (j, Ok tt))
    (Hdata : allData j = PDict d)
    (Hname : no_newline name = true)
    (Hpairs : dict_get d "parameters" = PList pairs) :
  ((forallb sized pairs = false) ->
   snd (ScriptPipeline.get_data (Some (String "@" name)) p) = Raise TypeError) /\
  ((forallb sized pairs = true) ->
   exists v, snd (ScriptPipeline.get_data (Some (String "@" name)) p) = Ok v) /\
  ((forallb (fun item => sized item && negb (is_pair item)) pairs = true) ->
   snd (ScriptPipeline.get_data (Some (String "@" name)) p)
   = Ok (dict_get d (String "@" name))).
Proof.
  rewrite (get_data_key p p1 lines j d _ Hpipe Haccept Hdata).
  rewrite Hpairs, (re_match_at_marked name Hname).
  split; [|split].
  - intros Hs. rewrite scan_parameters_sized, Hs. reflexivity.
  - intros Hs. apply scan_parameters_returns, Hs.
  - intros Hs. apply scan_parameters_no_pair, Hs.
Qed.

(** The packet [{"parameters": [1, 2]}]: asking for [@x] raises. *)
Lemma get_data_parameter_entries_numbers :
  snd (@ScriptPipeline.get_data _ example_store (Some "@x") (piped numbers_text))
  = Raise TypeError.
Proof.
  apply (proj1 (@get_data_parameter_entries _ example_store (piped numbers_text)
                  (fst (@ScriptPipeline.pipelines _ (piped numbers_text)))
                  [numbers_text]
                  (fst (@accept _ example_store [numbers_text] false
                          (@new_store _ example_store true false)))
                  [("parameters", PList [PInt 1; PInt 2])] "x" [PInt 1; PInt 2]
                  eq_refl eq_refl eq_refl eq_refl eq_refl)).
  reflexivity.
Defined.

(** ** [ADPNCommandLineTool]: construction, verbosity and switches *)

Lemma verbose_setter_cases rhs t :
  (exists z, CommandLineTool.verbose_setter rhs t
             = (CommandLineTool.with_verbose z t, Ok tt)) \/
  (exists e, CommandLineTool.verbose_setter rhs t = (t, Raise e)).
Proof.
  destruct rhs as [|b|z|f|s|l|d]; simpl;
    try (left; eexists; reflexivity); try (right; eexists; reflexivity).
  - unfold bind, lift. destruct (int_of_float f) as [z|e];
      [left | right]; eexists; reflexivity.
  - destruct (py_int_of_str s); left; eexists; reflexivity.
Qed.

Lemma debug_setter_cases rhs t :
  CommandLineTool.debug_setter rhs t =
  match CommandLineTool.convertto_numeric_value (CommandLineTool.switches t) None rhs with
  | Ok z => (CommandLineTool.with_debug z t, Ok tt)
  | Raise e => (t, Raise e)
  end.
Proof.
  unfold CommandLineTool.debug_setter, bind.
  destruct (CommandLineTool.convertto_numeric_value _ _ _); reflexivity.
Qed.

(** X6: what the constructor leaves: the name and the switches it was
    given, and an empty console; and when it returns, the level of [debug]
    is the number that the switch [debug] stands for, the level of [verbose]
    is not below it, and with [--quiet] the level of [verbose] is that of
    [debug], or 0 when that is negative: [--quiet] silences the tool only
    when [debug] is not above 0. *)
Theorem init_verbose_covers_debug (name : string) (sw : gmap string pyval) :
  let (t, r) := CommandLineTool.init name sw in
  CommandLineTool.scriptname t = name /\
  CommandLineTool.switches t = sw /\
  CommandLineTool.console t = [] /\
  (r = Ok tt ->
   CommandLineTool.convertto_numeric_value sw None (switches_get sw "debug")
   = Ok (CommandLineTool._debug t) /\
   CommandLineTool._debug t <= CommandLineTool._verbose t /\
   (py_truthy (switches_get sw "quiet") = true ->
    CommandLineTool._verbose t = Z.max 0 (CommandLineTool._debug t))).
Proof.
  unfold CommandLineTool.init, bind, CommandLineTool.exitcode_setter.
  rewrite set_exitcode_in_range by lia.
  set (t0 := CommandLineTool.with_exitcode 0 _).
  set (rhs := if py_truthy (switches_get sw "quiet") then PInt 0
              else switches_get sw "verbose").
  destruct (verbose_setter_cases rhs t0) as [[v Hv] | [e He]].
  - rewrite Hv. rewrite debug_setter_cases.
    change (CommandLineTool.switches (CommandLineTool.with_verbose v t0)) with sw.
    destruct (CommandLineTool.convertto_numeric_value sw None (switches_get sw "debug"))
      as [d|e] eqn:Hd.
    + unfold gets. cbn [CommandLineTool.with_debug CommandLineTool.with_verbose
                         CommandLineTool._debug CommandLineTool._verbose].
      assert (Hquiet : py_truthy (switches_get sw "quiet") = true -> v = 0).
      { intros Hq. subst rhs. rewrite Hq in Hv. simpl in Hv.
        unfold modify in Hv. injection Hv as Hv. lia. }
      destruct (Z.ltb_spec v d) as [Hlt|Hlt];
        simpl; repeat split; try reflexivity; try lia;
        intros Hq; apply Hquiet in Hq; lia.
    + simpl. repeat split; try reflexivity; discriminate.
  - rewrite He. simpl. repeat split; try reflexivity; discriminate.
Qed.

(** [--quiet --debug=2]: the tool is as verbose as with [--verbose=2]. *)
Lemma init_verbose_covers_debug_quiet :
  CommandLineTool._verbose
    (fst (CommandLineTool.init "adpn" {[ "quiet" := PBool true; "debug" := PInt 2 ]}))
  = 2.
Proof.
  pose proof (init_verbose_covers_debug "adpn"
                {[ "quiet" := PBool true; "debug" := PInt 2 ]}) as Hinit.
  destruct (CommandLineTool.init "adpn" {[ "quiet" := PBool true; "debug" := PInt 2 ]})
    as [t r] eqn:Ht.
  destruct Hinit as (_ & _ & _ & Hok).
  assert (Hr : r = Ok tt) by (apply (f_equal snd) in Ht; vm_compute in Ht; congruence).
  destruct (Hok Hr) as (Hd & _ & Hq).
  change (Ok 2 = Ok (CommandLineTool._debug t)) in Hd. injection Hd as Hd.
  cbn [fst]. rewrite (Hq eq_refl), <- Hd. reflexivity.
Defined.

Lemma rstrip_cons sp c s :
  sp c = false -> rstrip sp (String c s) = String c (rstrip sp s).
Proof. intros Hc. simpl. rewrite Hc. destruct (rstrip sp s); reflexivity. Qed.

Lemma rstrip_digits_comma ds rest :
  all_digits ds = true ->
  rstrip is_int_space (ds +:+ String "," rest)
  = ds +:+ String "," (rstrip is_int_space rest).
Proof.
  induction ds as [|c s IH]; intros Hd.
  - apply rstrip_cons. reflexivity.
  - apply all_digits_cons in Hd as [Hc Hs].
    change (String c s +:+ String "," rest) with (String c (s +:+ String "," rest)).
    rewrite (rstrip_cons _ c _ (digit_not_space c Hc)), (IH Hs). reflexivity.
Qed.

Lemma int_digits_comma ds rest : forall acc sep,
  all_digits ds = true ->
  int_digits acc sep (ds +:+ String "," rest) = None.
Proof.
  induction ds as [|c s IH]; intros acc sep Hd; [reflexivity|].
  apply all_digits_cons in Hd as [Hc Hs].
  simpl. rewrite Hc. apply IH, Hs.
Qed.

Lemma py_int_of_digits_comma ds rest :
  all_digits ds = true -> ds <> "" ->
  py_int_of_str (ds +:+ String "," rest) = None.
Proof.
  intros Hd Hne. unfold py_int_of_str.
  destruct ds as [|c s]; [congruence|].
  pose proof Hd as Hd'. apply all_digits_cons in Hd' as [Hc Hs].
  change (String c s +:+ String "," rest) with (String c (s +:+ String "," rest)).
  cbn [lstrip]. rewrite (digit_not_space c Hc).
  change (String c (s +:+ String "," rest)) with (String c s +:+ String "," rest).
  rewrite (rstrip_digits_comma _ rest Hd).
  change (String c s +:+ String "," (rstrip is_int_space rest))
    with (String c (s +:+ String "," (rstrip is_int_space rest))).
  destruct (digit_not_sign c Hc) as [Hplus Hminus].
  assert (Hgo : int_digits 0 true (String c (s +:+ String "," (rstrip is_int_space rest)))
                = None).
  { change (String c (s +:+ String "," (rstrip is_int_space rest)))
      with (String c s +:+ String "," (rstrip is_int_space rest)).
    apply int_digits_comma, Hd. }
  destruct c as [[] [] [] [] [] [] [] []]; try discriminate Hc; exact Hgo.
Qed.

(** X7: the setter of [verbose] that is in force (the second of the two
    that the class defines) and the setter of [debug] store the same
    number for every value, but for a text of digits, a comma and a
    comment: there [debug] takes the number, and [verbose] takes 1, as for
    any text that is not a number. *)
Theorem verbose_setter_ignores_comment (t : CommandLineTool.tool) :
  (forall rhs,
      (forall s, rhs = PStr s -> re_match_leading_number s = None) ->
      CommandLineTool.verbose_setter rhs t =
      match CommandLineTool.convertto_numeric_value (CommandLineTool.switches t) None rhs with
      | Ok z => (CommandLineTool.with_verbose z t, Ok tt)
      | Raise e => (t, Raise e)
      end) /\
  (forall ds rest,
      all_digits ds = true -> ds <> "" -> single_line rest ->
      CommandLineTool.verbose_setter (PStr (ds +:+ String "," rest)) t
      = (CommandLineTool.with_verbose 1 t, Ok tt) /\
      CommandLineTool.debug_setter (PStr (ds +:+ String "," rest)) t
      = (CommandLineTool.with_debug (digits_value 0 ds) t, Ok tt)).
Proof.
  split.
  - intros rhs Hno. unfold CommandLineTool.convertto_numeric_value.
    destruct rhs as [|b|z|f|s|l|d]; try reflexivity;
      try (simpl; unfold bind, lift; destruct (int_of_float f); reflexivity).
    cbn [is_None]. rewrite (Hno s eq_refl). simpl.
    destruct (py_int_of_str s); reflexivity.
  - intros ds rest Hd Hne Hl. split.
    + cbn [CommandLineTool.verbose_setter].
      rewrite (py_int_of_digits_comma ds rest Hd Hne).
      destruct ds as [|c s]; [congruence | reflexivity].
    + rewrite debug_setter_cases. unfold CommandLineTool.convertto_numeric_value.
      cbn [is_None]. rewrite (re_match_leading_number_digits ds rest Hd Hne Hl).
      rewrite (py_int_of_digits ds Hd Hne). reflexivity.
Qed.

(** [--verbose=3,loud] gives the level 1, [--debug=3,loud] the level 3. *)
Lemma verbose_setter_ignores_comment_3 :
  CommandLineTool._verbose
    (fst (CommandLineTool.verbose_setter (PStr "3,loud") package_tool)) = 1 /\
  CommandLineTool._debug
    (fst (CommandLineTool.debug_setter (PStr "3,loud") package_tool)) = 3 /\
  CommandLineTool._verbose
    (fst (CommandLineTool.verbose_setter (PStr "loud") package_tool)) = 1.
Proof.
  destruct (verbose_setter_ignores_comment package_tool) as [Hsame Hcomment].
  destruct (Hcomment "3" "loud" eq_refl) as [Hv Hd].
  - discriminate.
  - exists "loud". split; [reflexivity | left; reflexivity].
  - split; [|split].
    + change (PStr "3,loud") with (PStr ("3" +:+ String "," "loud")).
      rewrite Hv. reflexivity.
    + change (PStr "3,loud") with (PStr ("3" +:+ String "," "loud")).
      rewrite Hd. reflexivity.
    + rewrite (Hsame (PStr "loud")); [reflexivity|].
      intros s Hs. injection Hs as <-. reflexivity.
Defined.

(** X8: a key that is switched is present: [switched(key)] implies
    [switched(key, just_present=True)]; a key that the table does not have,
    or has with [None] or an empty list, is neither; and a key with a value
    that is false but not [None] (such as 0 or the empty text) is present
    without being switched. *)
Theorem switched_is_present (sw : gmap string pyval) (key : string) :
  (CommandLineTool.switched sw key false = true ->
   CommandLineTool.switched sw key true = true) /\
  (switches_get sw key = PNone \/ switches_get sw key = PList [] ->
   CommandLineTool.switched sw key true = false) /\
  (CommandLineTool.switched sw key true = false ->
   switches_get sw key = PNone \/ switches_get sw key = PList []) /\
  (forall v, switches_get sw key = v -> py_truthy v = false -> is_None v = false ->
             v <> PList [] ->
             CommandLineTool.switched sw key true = true /\
             CommandLineTool.switched sw key false = false).
Proof.
  unfold CommandLineTool.switched, switches_get.
  destruct (sw !! key) as [v|].
  2: { cbn. split; [discriminate|]. split; [reflexivity|].
       split; [left; reflexivity|]. intros v <- _ Hn. discriminate Hn. }
  split; [|split; [|split]].
  - destruct v as [|b|z|f|s|[|x l]|d]; cbn; intros H;
      (reflexivity || discriminate H).
  - intros [-> | ->]; reflexivity.
  - destruct v as [|b|z|f|s|[|x l]|d]; cbn; intros H; try discriminate H; auto.
  - intros v' <- Ht Hn Hl.
    destruct v as [|b|z|f|s|[|x l]|d]; cbn in *;
      try discriminate; try congruence; auto.
Qed.

Lemma switched_is_present_zero :
  CommandLineTool.switched {[ "verbose" := PInt 0 ]} "verbose" true = true /\
  CommandLineTool.switched {[ "verbose" := PInt 0 ]} "verbose" false = false.
Proof.
  apply (proj2 (proj2 (proj2 (switched_is_present {[ "verbose" := PInt 0 ]} "verbose")))
           (PInt 0)); [reflexivity | reflexivity | reflexivity | discriminate].
Defined.

(** ** [ADPNCommandLineTool]: the output of a tool *)

(** The pattern of [json_output] on the texts it was tried on. *)
Example re_match_json_examples :
  map ToolOutput.re_match_json
    ["json"; "application/json"; "application/json;indent=2"; "jsonx/json";
     "json/json"; "json;"; "text/json";
     "text/plain"; ""; "a/b/json"; "/json"; "application/jsonx"; "xjson";
     "application/json ;x"]
  = [true; true; true; true; true; true; true;
     false; false; false; false; false; false; false] /\
  ToolOutput.re_match_json ("json" +:+ String chr_newline "") = true /\
  ToolOutput.re_match_json ("json;" +:+ String chr_newline "") = true /\
  ToolOutput.re_match_json ("a" +:+ String chr_newline "b/json") = true /\
  ToolOutput.re_match_json ("json;a" +:+ String chr_newline "b") = false /\
  ToolOutput.re_match_json
    ("application/json" +:+ String chr_newline (String chr_newline "")) = false.
Proof. repeat split; reflexivity. Qed.

(** X9: the two properties that tell the kind of output apart: a tool
    whose [json_output] holds has no [plain_text_output]; without a switch
    [output], the output is plain text and not JSON; and with a switch
    [output] that is not a text, such as [None], for which
    [plain_text_output] holds, [json_output] raises [TypeError]. *)
Theorem json_output_excludes_plain_text (t : CommandLineTool.tool) :
  (ToolOutput.json_output t = Ok true ->
   CommandLineTool.plain_text_output t = false) /\
  (CommandLineTool.switches t !! "output" = None ->
   ToolOutput.json_output t = Ok false /\
   CommandLineTool.plain_text_output t = true) /\
  (forall v,
      CommandLineTool.switches t !! "output" = Some v ->
      (forall s, v <> PStr s) ->
      ToolOutput.json_output t = Raise TypeError) /\
  (CommandLineTool.switches t !! "output" = Some PNone ->
   CommandLineTool.plain_text_output t = true).
Proof.
  unfold ToolOutput.json_output, CommandLineTool.plain_text_output, switches_get.
  split; [|split; [|split]].
  - destruct (CommandLineTool.switches t !! "output") as [v|]; [|discriminate].
    destruct v as [|b|z|f|s|l|d]; try discriminate.
    intros Hm. injection Hm as Hm. cbn [is_None eq_str orb].
    destruct (String.eqb_spec s "text/plain") as [->|]; [discriminate Hm | reflexivity].
  - intros ->. split; reflexivity.
  - intros v -> Hv. destruct v as [|b|z|f|s|l|d]; try reflexivity.
    exfalso. exact (Hv s eq_refl).
  - intros ->. reflexivity.
Qed.

(** A tool made with [--output=application/json], and one made with the
    switch [output] left at [None]. *)
Lemma json_output_excludes_plain_text_examples :
  CommandLineTool.plain_text_output json_package_tool = false /\
  ToolOutput.json_output
    (fst (CommandLineTool.init "adpn" {[ "output" := PNone ]})) = Raise TypeError /\
  ToolOutput.json_output (fst (CommandLineTool.init "adpn" no_switches)) = Ok false.
Proof.
  split; [|split].
  - apply (proj1 (json_output_excludes_plain_text json_package_tool)). reflexivity.
  - apply (proj1 (proj2 (proj2 (json_output_excludes_plain_text
             (fst (CommandLineTool.init "adpn" {[ "output" := PNone ]})))))
             PNone); [reflexivity | discriminate].
  - apply (proj1 (proj2 (json_output_excludes_plain_text
             (fst (CommandLineTool.init "adpn" no_switches))))). reflexivity.
Defined.

Lemma append_empty (s : string) : s +:+ "" = s.
Proof.
  induction s as [|c s IH]; [reflexivity|].
  change (String c (s +:+ "") = String c s). rewrite IH. reflexivity.
Qed.

(** X10: [write_output] prints the prolog, when it has one, on the standard
    output, whatever stream it is given for the data, and then the data,
    encoded or not, on that stream, followed by the terminator; when
    [json_encode] is left to the switch [output] and that switch is not a
    text, it raises [TypeError] after the prolog was printed. *)
Theorem tool_write_output_streams (py_str json_dumps : pyval -> string)
    (data : pyval) (prolog : option string) (json_encode : option bool)
    (terminator : string) (s : stream) (t : CommandLineTool.tool) :
  let prolog_lines :=
    match prolog with
    | Some text => if nonempty text then [(Stdout, text)] else []
    | None => []
    end in
  let (t', r) := ToolOutput.write_output py_str json_dumps data prolog json_encode
                   terminator s t in
  CommandLineTool._exitcode t' = CommandLineTool._exitcode t /\
  match (match json_encode with
         | Some b => Ok b
         | None => ToolOutput.json_output t
         end) with
  | Ok encode =>
      r = Ok tt /\
      CommandLineTool.console t' =
      CommandLineTool.console t ++ prolog_lines
      ++ [(s, (if encode then json_dumps data else py_str data) +:+ terminator)]
  | Raise e =>
      r = Raise e /\ e = TypeError /\
      CommandLineTool.console t' = CommandLineTool.console t ++ prolog_lines
  end.
Proof.
  unfold ToolOutput.write_output, bind.
  assert (Hjson : forall text,
             ToolOutput.json_output (CommandLineTool.print_to Stdout text "" t)
             = ToolOutput.json_output t) by reflexivity.
  assert (Herr : forall e, ToolOutput.json_output t = Raise e -> e = TypeError).
  { unfold ToolOutput.json_output. intros e.
    destruct (CommandLineTool.switches t !! "output") as [[|b|z|f|x|l|d]|];
      intros He; try discriminate He; injection He as <-; reflexivity. }
  destruct prolog as [text|]; [destruct (nonempty text)|];
    unfold modify, ret; cbn [fst snd];
    (destruct json_encode as [b|];
     [unfold ret; destruct b
     |rewrite ?Hjson; destruct (ToolOutput.json_output t) as [b|e] eqn:Hj;
      [destruct b|]]);
    unfold CommandLineTool.print_to;
    cbn [CommandLineTool.console CommandLineTool._exitcode];
    rewrite ?append_empty, ?app_nil_r, <- ?app_assoc;
    repeat split; try reflexivity; apply (Herr e eq_refl).
Qed.

(** ** [ADPNPackageContentScript]: how a run of the packaging ends *)

Section ErrorsOnly.

Lemma prints_errors_only_ret {A} (a : A) : prints_errors_only (ret a).
Proof. intros t. exists []. simpl. rewrite app_nil_r. reflexivity. Qed.

Lemma prints_errors_only_raise {A} e : prints_errors_only (@raise _ A e).
Proof. intros t. exists []. simpl. rewrite app_nil_r. reflexivity. Qed.

Lemma prints_errors_only_lift {A} (r : res A) : prints_errors_only (lift r).
Proof. intros t. exists []. simpl. rewrite app_nil_r. reflexivity. Qed.

Lemma prints_errors_only_gets {A} (f : CommandLineTool.tool -> A) :
  prints_errors_only (gets f).
Proof. intros t. exists []. simpl. rewrite app_nil_r. reflexivity. Qed.

Lemma prints_errors_only_bind {A B} (m : M CommandLineTool.tool A)
    (k : A -> M CommandLineTool.tool B) :
  prints_errors_only m -> (forall a, prints_errors_only (k a)) ->
  prints_errors_only (bind m k).
Proof.
  intros Hm Hk t. unfold bind.
  destruct (Hm t) as [l1 H1]. destruct (m t) as [t1 [a|e]]; cbn [fst] in *.
  - destruct (Hk a t1) as [l2 H2]. exists (l1 ++ l2)%list.
    rewrite H2, H1, map_app, app_assoc. reflexivity.
  - exists l1. exact H1.
Qed.

Lemma prints_errors_only_print text :
  prints_errors_only (CommandLineTool.print Stderr text).
Proof. intros t. eexists [_]. reflexivity. Qed.

Lemma prints_errors_only_write_error code message prefix :
  prints_errors_only (CommandLineTool.write_error code message prefix).
Proof.
  intros t.
  destruct (write_error_cases code message prefix t)
    as [(c & _ & _ & ->) | (t1 & Ht1 & _ & ->)].
  - exists []. simpl. rewrite app_nil_r. reflexivity.
  - eexists [_]. cbn [fst CommandLineTool.print_to CommandLineTool.console].
    subst t1. destruct code; reflexivity.
Qed.

End ErrorsOnly.

Create HintDb errors_only.

#[local] Hint Resolve prints_errors_only_ret prints_errors_only_raise
  prints_errors_only_lift prints_errors_only_gets prints_errors_only_print
  prints_errors_only_write_error : errors_only.

Lemma prints_errors_only_handler (py_str : pyval -> string)
    (py_str_args : list pyval -> string) (realpath : string -> string) (e : exn) :
  prints_errors_only (PackageContent.handler py_str py_str_args realpath e).
Proof.
  destruct e; cbn [PackageContent.handler]; auto with errors_only.
  - unfold PackageContent.on_assertion.
    repeat (first
      [ solve [auto with errors_only]
      | match goal with
        | |- prints_errors_only (if ?c then _ else _) => destruct c
        end
      | apply prints_errors_only_bind; [|intros ?] ]).
  - apply prints_errors_only_bind; [auto with errors_only|].
    intros code. destruct (3 =? code); auto with errors_only.
Qed.

(** X11: whatever the failure of the steps of the packaging, what the
    tool prints while it handles the failure is printed on the standard
    error stream: the standard output keeps what the steps have left on
    it. *)
Theorem package_failure_prints_errors_only
    (py_str : pyval -> string) (py_str_args : list pyval -> string)
    (realpath : string -> string)
    (steps : M CommandLineTool.tool unit) (t t1 : CommandLineTool.tool) (e : exn)
    (Hsteps : steps t = (t1, Raise e)) :
  let t' := fst (PackageContent.execute py_str py_str_args realpath steps t) in
  (exists lines : list string,
      CommandLineTool.console t'
      = CommandLineTool.console t1 ++ map (fun line => (Stderr, line)) lines) /\
  shown_on Stdout (CommandLineTool.console t')
  = shown_on Stdout (CommandLineTool.console t1).
Proof.
  intros t'.
  assert (Hlines : exists lines : list string,
             CommandLineTool.console t'
             = CommandLineTool.console t1 ++ map (fun line => (Stderr, line)) lines).
  { subst t'. unfold PackageContent.execute, try_except. rewrite Hsteps.
    destruct (PackageContent.handled e) eqn:Hh.
    - destruct (prints_errors_only_handler py_str py_str_args realpath e t1)
        as [lines Hl].
      exists lines. rewrite <- Hl.
      destruct (PackageContent.handler py_str py_str_args realpath e t1)
        as [t2 [[]|e2]]; reflexivity.
    - exists []. simpl. rewrite app_nil_r. reflexivity. }
  split; [exact Hlines|].
  destruct Hlines as [lines ->].
  unfold shown_on. rewrite omap_app.
  assert (Hnone : forall l : list string,
             omap (fun e0 : stream * string =>
                     match e0, Stdout with
                     | (Stdout, text), Stdout => Some text
                     | (Stderr, text), Stderr => Some text
                     | _, _ => None
                     end) (map (fun line => (Stderr, line)) l) = []).
  { induction l as [|x l IH]; [reflexivity | exact IH]. }
  rewrite Hnone, app_nil_r. reflexivity.
Qed.

(** A failed requirement on the parameter [jar]: nothing is added to the
    standard output. *)
Lemma package_failure_prints_errors_only_jar :
  shown_on Stdout
    (CommandLineTool.console
       (fst (PackageContent.execute example_str (fun _ => "args") (fun p => p)
               (raise (AssertionError [PStr "Required"; PList [PStr "jar"]]))
               package_tool)))
  = shown_on Stdout (CommandLineTool.console package_tool).
Proof.
  apply (proj2 (package_failure_prints_errors_only example_str (fun _ => "args")
                  (fun p => p)
                  (raise (AssertionError [PStr "Required"; PList [PStr "jar"]]))
                  package_tool package_tool
                  (AssertionError [PStr "Required"; PList [PStr "jar"]]) eq_refl)).
Defined.

(** X12: how [execute] ends: when the steps return, with the exit code the
    object holds; at a keyboard interrupt, with the code 255, after the
    line that starts with [^C] on the standard error stream; when a file is
    not found, with the code 3 when that is the code the object holds, and
    else with the exception uncaught; and every exception the handlers are
    not made for is left uncaught, with the object as the steps left it. *)
Theorem package_execute_outcomes
    (py_str : pyval -> string) (py_str_args : list pyval -> string)
    (realpath : string -> string)
    (steps : M CommandLineTool.tool unit) (t t1 : CommandLineTool.tool) :
  (steps t = (t1, Ok tt) ->
   PackageContent.execute py_str py_str_args realpath steps t
   = (t1, Exited (CommandLineTool._exitcode t1))) /\
  (steps t = (t1, Raise KeyboardInterrupt) ->
   PackageContent.execute py_str py_str_args realpath steps t
   = (CommandLineTool.print_to Stderr
        (("^C" +:+ String chr_newline "") +:+ "["
         +:+ CommandLineTool.scriptname t1 +:+ "] " +:+ "Keyboard Interrupt.")
        (String chr_newline "") (CommandLineTool.with_exitcode 255 t1),
      Exited 255)) /\
  (steps t = (t1, Raise FileNotFoundError) ->
   PackageContent.execute py_str py_str_args realpath steps t
   = (t1, if CommandLineTool._exitcode t1 =? 3 then Exited 3
          else Uncaught FileNotFoundError)) /\
  (forall e,
      steps t = (t1, Raise e) -> PackageContent.handled e = false ->
      PackageContent.execute py_str py_str_args realpath steps t = (t1, Uncaught e)).
Proof.
  unfold PackageContent.execute, try_except.
  split; [|split; [|split]].
  - intros ->. reflexivity.
  - intros ->. cbn [PackageContent.handled PackageContent.handler].
    rewrite write_error_in_range by lia. reflexivity.
  - intros ->. cbn [PackageContent.handled PackageContent.handler].
    unfold bind, gets, CommandLineTool.exitcode.
    rewrite (Z.eqb_sym 3).
    destruct (Z.eqb_spec (CommandLineTool._exitcode t1) 3) as [Heq|Hne];
      [|reflexivity].
    unfold ret, CommandLineTool.exit, CommandLineTool.exitcode. rewrite Heq.
    reflexivity.
  - intros e -> ->. reflexivity.
Qed.

(** A keyboard interrupt during the steps, and a file that is not found
    while the exit code is 0. *)
Lemma package_execute_outcomes_examples :
  snd (PackageContent.execute example_str (fun _ => "args") (fun p => p)
         (raise KeyboardInterrupt) package_tool) = Exited 255 /\
  snd (PackageContent.execute example_str (fun _ => "args") (fun p => p)
         (raise FileNotFoundError) package_tool) = Uncaught FileNotFoundError /\
  snd (PackageContent.execute example_str (fun _ => "args") (fun p => p)
         (raise KeyError) package_tool) = Uncaught KeyError.
Proof.
  split; [|split].
  - rewrite (proj1 (proj2 (package_execute_outcomes example_str (fun _ => "args")
               (fun p => p) (raise KeyboardInterrupt) package_tool package_tool))
               eq_refl).
    reflexivity.
  - rewrite (proj1 (proj2 (proj2 (package_execute_outcomes example_str
               (fun _ => "args") (fun p => p) (raise FileNotFoundError)
               package_tool package_tool))) eq_refl).
    reflexivity.
  - rewrite (proj2 (proj2 (proj2 (package_execute_outcomes example_str
               (fun _ => "args") (fun p => p) (raise KeyError)
               package_tool package_tool))) KeyError eq_refl eq_refl).
    reflexivity.
Defined.

(** ** [ADPNPackageContentScript]: the title and the subdirectory *)





(** X14: a subdirectory that is assigned is the subdirectory that is read,
    also when it is [None]; it is kept under both switches, [directory] and
    [subdirectory]; the other switches and the manifest are left as they
    were. *)
Theorem subdirectory_round_trip (rhs : pyval) (s : PackageTitle.script) :
  let s' := PackageTitle.subdirectory_setter rhs s in
  PackageTitle.subdirectory s' = rhs /\
  switches_get (PackageTitle.switches s') "directory" = rhs /\
  switches_get (PackageTitle.switches s') "subdirectory" = rhs /\
  (forall key, key <> "directory" -> key <> "subdirectory" ->
               PackageTitle.switches s' !! key = PackageTitle.switches s !! key) /\
  PackageTitle.manifest_data s' = PackageTitle.manifest_data s.
Proof.
  intros s'.
  assert (Hd : switches_get (PackageTitle.switches s') "directory" = rhs).
  { unfold s', PackageTitle.subdirectory_setter, switches_get.
    cbn [PackageTitle.switches]. rewrite lookup_insert_eq. reflexivity. }
  assert (Hs : switches_get (PackageTitle.switches s') "subdirectory" = rhs).
  { unfold s', PackageTitle.subdirectory_setter, switches_get.
    cbn [PackageTitle.switches].
    rewrite lookup_insert_ne by discriminate. rewrite lookup_insert_eq. reflexivity. }
  split; [|split; [exact Hd|split; [exact Hs|split]]].
  - unfold PackageTitle.subdirectory. rewrite Hd, Hs.
    destruct (is_None rhs); reflexivity.
  - intros key H1 H2. unfold s', PackageTitle.subdirectory_setter.
    cbn [PackageTitle.switches].
    rewrite !lookup_insert_ne by congruence. reflexivity.
  - reflexivity.
Qed.

(** Assigning the subdirectory leaves the title that was given. *)
Lemma subdirectory_round_trip_minutes :
  PackageTitle.switches
    (PackageTitle.subdirectory_setter (PStr "minutes")
       (title_script {[ "au_title" := PStr "Given" ]})) !! "au_title"
  = Some (PStr "Given").
Proof.
  destruct (subdirectory_round_trip (PStr "minutes")
              (title_script {[ "au_title" := PStr "Given" ]}))
    as (_ & _ & _ & Hkeys & _).
  rewrite (Hkeys "au_title"); [reflexivity | discriminate | discriminate].
Defined.

(** ** [ADPNDataConverter]: the lines of the output *)

Lemma str_items_not_str l1 v l2 :
  (forall s, v <> PStr s) -> GetJSON.str_items (l1 ++ v :: l2) = None.
Proof.
  intros Hv. induction l1 as [|x l1 IH].
  - destruct v; try reflexivity. exfalso. eapply Hv. reflexivity.
  - destruct x; try reflexivity. simpl. rewrite IH. reflexivity.
Qed.

Lemma concat_all_chars s :
  concat_all (map (fun ch => String ch "") (list_ascii_of_string s)) = s.
Proof. induction s as [|c s IH]; [reflexivity | simpl; rewrite IH; reflexivity]. Qed.

Lemma filter_nil_iff {A} (ok : A -> bool) l :
  List.filter ok l = [] <-> (forall x, In x l -> ok x = false).
Proof.
  induction l as [|x l IH]; simpl.
  - split; [intros _ y [] | reflexivity].
  - destruct (ok x) eqn:Hx.
    + split; [discriminate|]. intros H. specialize (H x (or_introl eq_refl)). congruence.
    + rewrite IH. split.
      * intros H y [<-|Hy]; [exact Hx | apply H, Hy].
      * intros H y Hy. apply H. right. exact Hy.
Qed.

(** X15: the lines that [add_output] adds, and what [write_output] prints
    of them. A list of texts adds its items; a text adds one line for each
    of its characters, not one line; a list with an item that is not a text
    fails the assertion, and a value of another type raises [TypeError],
    both with the output as it was. [write_output] prints once, the lines
    that pass the filter, joined, or nothing at all when no line passes. *)
Theorem converter_add_and_write_output (c : DataConverter.converter) :
  (forall lines,
      DataConverter.add_output (PList (map PStr lines)) c
      = ({| DataConverter.data := DataConverter.data c;
            DataConverter._output := DataConverter._output c ++ lines;
            DataConverter._mime := DataConverter._mime c |}, Ok tt)) /\
  (forall s,
      let (c', r) := DataConverter.add_output (PStr s) c in
      r = Ok tt /\
      exists added,
        DataConverter._output c' = DataConverter._output c ++ added /\
        length added = String.length s /\
        Forall (fun line => String.length line = 1%nat) added /\
        concat_all added = s) /\
  (forall l1 v l2,
      (forall s, v <> PStr s) ->
      DataConverter.add_output (PList (l1 ++ v :: l2)) c
      = (c, Raise (AssertionError [PStr DataConverter.lines_message]))) /\
  (forall v,
      (forall s, v <> PStr s) -> (forall l, v <> PList l) ->
      DataConverter.add_output v c = (c, Raise TypeError)) /\
  (forall template where_ delimiter terminator file,
      (DataConverter.write_output template where_ delimiter terminator file c = [] <->
       forall line, In line (DataConverter._output c) ->
                    match where_ with Some ok => ok line | None => true end = false) /\
      (length (DataConverter.write_output template where_ delimiter terminator file c)
       <= 1)%nat) /\
  (forall delimiter terminator file,
      DataConverter._output c <> [] ->
      DataConverter.write_output None None delimiter (Some terminator) file c
      = [(file, join delimiter (DataConverter._output c) +:+ terminator)]).
Proof.
  split; [|split; [|split; [|split; [|split]]]].
  - intros lines. unfold DataConverter.add_output.
    rewrite str_items_strs. reflexivity.
  - intros s. cbn [DataConverter.add_output]. unfold modify.
    split; [reflexivity|].
    exists (map (fun ch => String ch "") (list_ascii_of_string s)).
    cbn [DataConverter._output].
    split; [reflexivity|]. split; [|split].
    + rewrite length_map. clear. induction s as [|ch s IH]; [reflexivity|].
      simpl. rewrite IH. reflexivity.
    + clear. induction s as [|ch s IH]; constructor; [reflexivity | exact IH].
    + apply concat_all_chars.
  - intros l1 v l2 Hv. unfold DataConverter.add_output.
    rewrite (str_items_not_str l1 v l2 Hv). reflexivity.
  - intros v Hs Hl. destruct v; try reflexivity.
    + exfalso. eapply Hs. reflexivity.
    + exfalso. eapply Hl. reflexivity.
  - intros template where_ delimiter terminator file.
    unfold DataConverter.write_output.
    set (ok := match where_ with Some f => f | None => fun _ => true end).
    assert (Hok : forall line,
               match where_ with Some ok0 => ok0 line | None => true end = ok line)
      by (intros line; unfold ok; destruct where_; reflexivity).
    split.
    + rewrite length_map.
      destruct (List.filter ok (DataConverter._output c)) as [|x l] eqn:Hf.
      * split; [|reflexivity]. intros _ line Hin. rewrite Hok.
        apply (proj1 (filter_nil_iff ok _) Hf line Hin).
      * split; [discriminate|]. intros Hnone. exfalso.
        assert (Hnil : List.filter ok (DataConverter._output c) = []).
        { apply filter_nil_iff. intros y Hy. rewrite <- Hok. apply Hnone, Hy. }
        congruence.
    + destruct (0 <? _); simpl; lia.
  - intros delimiter terminator file Hne. unfold DataConverter.write_output.
    assert (Hall : forall l : list string, List.filter (fun _ => true) l = l).
    { induction l as [|x l IH]; [reflexivity | simpl; rewrite IH; reflexivity]. }
    rewrite Hall, map_id.
    destruct (DataConverter._output c) as [|x l]; [congruence | reflexivity].
Qed.

(** [add_output("abc")] on a new converter, written out: three lines. *)
Lemma converter_add_and_write_output_abc :
  DataConverter.write_output None None (String chr_newline "") (Some "") Stdout
    (fst (DataConverter.add_output (PStr "abc") (new_converter PNone)))
  = [(Stdout, "a" +:+ String chr_newline "" +:+ "b" +:+ String chr_newline ""
              +:+ "c")] /\
  DataConverter.add_output (PList [PStr "a"; PInt 1]) (new_converter PNone)
  = (new_converter PNone, Raise (AssertionError [PStr DataConverter.lines_message])).
Proof.
  split.
  - destruct (converter_add_and_write_output
                (fst (DataConverter.add_output (PStr "abc") (new_converter PNone))))
      as (_ & _ & _ & _ & _ & Hwrite).
    rewrite Hwrite; [reflexivity | discriminate].
  - destruct (converter_add_and_write_output (new_converter PNone))
      as (_ & _ & Hassert & _).
    apply (Hassert [PStr "a"] (PInt 1) []). discriminate.
Defined.

(** ** [ADPNGetJSON]: formats, lists and appended values *)

Lemma split_all_not_nil sep s : split_all sep s <> [].
Proof.
  destruct s as [|c s]; simpl; [discriminate|].
  destruct (Ascii.eqb c sep); [discriminate|].
  destruct (split_all sep s); discriminate.
Qed.

Section Formats.
Context {J : Type}.

Lemma get_output_format_spec (g : GetJSON.getjson J) spec i :
  output_spec g = PStr spec ->
  GetJSON.get_output_format g i = Ok (split_all ";" spec !! i).
Proof.
  unfold output_spec, GetJSON.get_output_format. intros ->. reflexivity.
Qed.

End Formats.

(** X16: table mode is decided by the format of the output alone: it is
    asked for by the first part [text/tab-separated-values] or by the second
    part [table]. The absence of keys never implies it, because a format
    always has a first part; so the terminator of the output is a newline
    for these formats and for an output of more than one line, and empty
    otherwise. *)
Theorem wants_table_by_output {J : Type}
    (g : GetJSON.getjson J) (spec : string)
    (Hspec : output_spec g = PStr spec) :
  exists fmt0 rest,
    split_all ";" spec = fmt0 :: rest /\
    let requested :=
      String.eqb fmt0 "text/tab-separated-values"
      || match rest with
         | fmt1 :: _ => String.eqb fmt1 "table"
         | [] => false
         end in
    GetJSON.wants_table g = Ok requested /\
    GetJSON.get_output_terminator g None
    = Ok (if requested || (1 <? Z.of_nat (length (GetJSON._output g)))
          then String chr_newline "" else "").
Proof.
  destruct (split_all ";" spec) as [|fmt0 rest] eqn:Hsplit;
    [exfalso; exact (split_all_not_nil _ _ Hsplit)|].
  exists fmt0, rest. split; [reflexivity|].
  assert (Hw : GetJSON.wants_table g =
               Ok (String.eqb fmt0 "text/tab-separated-values"
                   || match rest with
                      | fmt1 :: _ => String.eqb fmt1 "table"
                      | [] => false
                      end)).
  { unfold GetJSON.wants_table.
    rewrite !(get_output_format_spec g spec _ Hspec), Hsplit.
    cbn [lookup list_lookup res_bind GetJSON.opt_eq_str].
    destruct (String.eqb fmt0 "text/tab-separated-values"); cbn [res_bind orb].
    - destruct (is_None (GetJSON.switch g "key")); reflexivity.
    - destruct rest as [|fmt1 rest']; cbn [lookup list_lookup GetJSON.opt_eq_str];
        destruct (is_None (GetJSON.switch g "key")); reflexivity. }
  cbv zeta. split; [exact Hw|].
  unfold GetJSON.get_output_terminator. rewrite Hw. reflexivity.
Qed.

(** The query tool without switches, which has the format [text/plain]:
    no table mode, though no key is given. *)
Lemma wants_table_by_output_default :
  GetJSON.wants_table query_tool = Ok false.
Proof.
  destruct (@wants_table_by_output _ query_tool "text/plain" eq_refl)
    as (fmt0 & rest & Hsplit & Hw & _).
  injection Hsplit as <- <-. exact Hw.
Defined.

Section Lists.
Context {J : Type} `{MyPyJSON J}.
Context (py_str : pyval -> string)
        (url_quote : string -> string)
        (json_dumps : pyval -> pyval -> string)
        (py_percent : string -> list (string * pyval) -> res string)
        (re_compile : string -> option (string -> bool)).

Lemma get_output_line (g : GetJSON.getjson J) spec :
  output_spec g = PStr spec ->
  exists show : pyval -> string,
    forall (g' : GetJSON.getjson J) value,
      GetJSON.base g' = GetJSON.base g ->
      GetJSON._default_mime g' = GetJSON._default_mime g ->
      GetJSON.get_output py_str url_quote g' value PNone false = Ok [show value].
Proof.
  intros Hspec.
  exists (fun value =>
            if GetJSON.opt_eq_str (split_all ";" spec !! 0%nat) "urlencode"
               || GetJSON.opt_eq_str (split_all ";" spec !! 0%nat) "multipart/form-data"
            then url_quote (py_str value) else py_str value).
  intros g' value Hb Hm.
  assert (Hspec' : output_spec g' = PStr spec).
  { unfold output_spec, GetJSON.switch in *. rewrite Hb, Hm. exact Hspec. }
  unfold GetJSON.get_output.
  rewrite !(get_output_format_spec g' spec _ Hspec').
  cbn [res_bind].
  destruct (GetJSON.opt_eq_str (split_all ";" spec !! 0%nat) "urlencode");
    cbn [res_bind orb]; reflexivity.
Qed.

Lemma display_data_list_case fuel items context parse depth :
  @GetJSON.display_data_list J py_str url_quote json_dumps py_percent re_compile
    (S fuel) items context parse depth
  = for_each items (fun item =>
      bind (fun g => (g, GetJSON.selected re_compile g)) (fun ok =>
      bind (GetJSON.result_of (ok item)) (fun keep =>
        if keep then
          if py_truthy parse then
            GetJSON.display_data py_str url_quote json_dumps py_percent re_compile
              fuel item context (PInt 0) (depth + 1)
          else
            match item with
            | PList _ =>
                bind (GetJSON.result_of (GetJSON.join_value (String chr_tab "") item))
                  (fun line => GetJSON.output_extend [line])
            | _ => GetJSON.add_output py_str url_quote item
            end
        else ret tt))).
Proof. reflexivity. Qed.

Lemma for_each_shown (body : pyval -> M (GetJSON.getjson J) unit)
    (show : pyval -> string) (g0 : GetJSON.getjson J) items :
  (forall item (g : GetJSON.getjson J),
      In item items ->
      GetJSON.base g = GetJSON.base g0 ->
      GetJSON._default_mime g = GetJSON._default_mime g0 ->
      body item g = (GetJSON.with_output (GetJSON._output g ++ [show item]) g, Ok tt)) ->
  forall g : GetJSON.getjson J,
    GetJSON.base g = GetJSON.base g0 ->
    GetJSON._default_mime g = GetJSON._default_mime g0 ->
    for_each items body g
    = (GetJSON.with_output (GetJSON._output g ++ map show items) g, Ok tt).
Proof.
  induction items as [|item items IH]; intros Hbody g Hb Hm.
  - cbn [for_each map]. unfold ret. rewrite app_nil_r. destruct g; reflexivity.
  - cbn [for_each]. unfold bind.
    rewrite (Hbody item g (or_introl eq_refl) Hb Hm).
    rewrite IH; [| intros i g' Hi; apply Hbody; right; exact Hi | exact Hb | exact Hm].
    cbn [GetJSON.with_output GetJSON._output GetJSON.base GetJSON._flags
         GetJSON._default_mime GetJSON._json map].
    rewrite <- app_assoc. reflexivity.
Qed.

Lemma display_data_list_shown fuel context parse depth
    (show : pyval -> string) (g0 : GetJSON.getjson J) items :
  (forall (g' : GetJSON.getjson J) value,
      GetJSON.base g' = GetJSON.base g0 ->
      GetJSON._default_mime g' = GetJSON._default_mime g0 ->
      GetJSON.get_output py_str url_quote g' value PNone false = Ok [show value]) ->
  py_truthy (GetJSON.switch g0 "where") = false ->
  py_truthy parse = false ->
  forallb not_list items = true ->
  GetJSON.display_data_list py_str url_quote json_dumps py_percent re_compile
    (S fuel) items context parse depth g0
  = (GetJSON.with_output (GetJSON._output g0 ++ map show items) g0, Ok tt).
Proof.
  intros Hshow Hwhere Hparse Hitems.
  rewrite display_data_list_case.
  apply (for_each_shown _ show g0 items); [|reflexivity|reflexivity].
  intros item g Hin Hb Hm.
  assert (Hitem : not_list item = true).
  { rewrite forallb_forall in Hitems. apply Hitems, Hin. }
  unfold bind at 1.
  assert (Hsel : GetJSON.selected re_compile g = Ok (fun _ => Ok true)).
  { unfold GetJSON.selected, GetJSON.switch in *. rewrite Hb, Hwhere. reflexivity. }
  rewrite Hsel. unfold bind at 1, GetJSON.result_of at 1.
  rewrite Hparse.
  assert (Hadd : GetJSON.add_output py_str url_quote item g
                 = (GetJSON.with_output (GetJSON._output g ++ [show item]) g, Ok tt)).
  { unfold GetJSON.add_output, bind. rewrite (Hshow g item Hb Hm). reflexivity. }
  destruct item; try exact Hadd. discriminate Hitem.
Qed.

End Lists.

(** X17: a list is shown one line for each of its items, in their order:
    without a filter and without [--parse], [display_data_list] adds to the
    output, for the items of a list that holds no list, the line that
    [get_output] gives for each item, and leaves the flags and the console
    as they are. *)
Theorem display_data_list_lines {J : Type}
    (py_str : pyval -> string) (url_quote : string -> string)
    (json_dumps : pyval -> pyval -> string)
    (py_percent : string -> list (string * pyval) -> res string)
    (re_compile : string -> option (string -> bool))
    (fuel : nat) (items : list pyval) (context parse : pyval) (depth : Z)
    (g : GetJSON.getjson J) (spec : string)
    (Hspec : output_spec g = PStr spec)
    (Hwhere : py_truthy (GetJSON.switch g "where") = false)
    (Hparse : py_truthy parse = false)
    (Hitems : forallb not_list items = true) :
  exists show : pyval -> string,
    (forall value,
        GetJSON.get_output py_str url_quote g value PNone false = Ok [show value]) /\
    GetJSON.display_data_list py_str url_quote json_dumps py_percent re_compile
      (S fuel) items context parse depth g
    = (GetJSON.with_output (GetJSON._output g ++ map show items) g, Ok tt).
Proof.
  destruct (get_output_line py_str url_quote g spec Hspec) as [show Hshow].
  exists show. split.
  - intros value. apply Hshow; reflexivity.
  - apply (display_data_list_shown py_str url_quote json_dumps py_percent re_compile
             fuel context parse depth show g items Hshow Hwhere Hparse Hitems).
Qed.

(** The list ["x", "y", "z"] shown by the query tool: three lines. *)
Lemma display_data_list_lines_xyz :
  GetJSON._output
    (fst (@GetJSON.display_data_list _ example_str (fun s => s)
            (fun _ _ => "") (fun _ _ => Raise TypeError) match_all
            1 [PStr "x"; PStr "y"; PStr "z"] PNone PNone 1 items_tool))
  = ["x"; "y"; "z"].
Proof.
  destruct (@display_data_list_lines _ example_str (fun s => s)
              (fun _ _ => "") (fun _ _ => Raise TypeError) match_all
              0 [PStr "x"; PStr "y"; PStr "z"] PNone PNone 1 items_tool "text/plain"
              eq_refl eq_refl eq_refl eq_refl) as (show & Hshow & ->).
  cbn [fst GetJSON.with_output GetJSON._output map].
  pose proof (Hshow (PStr "x")) as Hx. pose proof (Hshow (PStr "y")) as Hy.
  pose proof (Hshow (PStr "z")) as Hz.
  vm_compute in Hx, Hy, Hz.
  injection Hx as <-. injection Hy as <-. injection Hz as <-. reflexivity.
Defined.

Lemma dict_lookup_update_eq d k v : dict_lookup (dict_update d k v) k = Some v.
Proof.
  induction d as [|[k0 v0] d IH]; simpl.
  - rewrite String.eqb_refl. reflexivity.
  - destruct (String.eqb k0 k) eqn:Hk; simpl; rewrite Hk; [reflexivity | exact IH].
Qed.

Lemma dict_lookup_update_ne d k v k' :
  k' <> k -> dict_lookup (dict_update d k v) k' = dict_lookup d k'.
Proof.
  intros Hne. induction d as [|[k0 v0] d IH]; simpl.
  - destruct (String.eqb_spec k k'); [congruence | reflexivity].
  - destruct (String.eqb_spec k0 k) as [->|Hk]; simpl.
    + destruct (String.eqb_spec k k'); [congruence | reflexivity].
    + destruct (String.eqb k0 k'); [reflexivity | exact IH].
Qed.

Lemma keys_of_update d k v :
  keys_of (dict_update d k v)
  = match dict_lookup d k with
    | Some _ => keys_of d
    | None => keys_of d ++ [k]
    end.
Proof.
  unfold keys_of. induction d as [|[k0 v0] d IH]; simpl; [reflexivity|].
  destruct (String.eqb k0 k); simpl; [reflexivity|].
  rewrite IH. destruct (dict_lookup d k); reflexivity.
Qed.

(** X18: what [--key+] does to the table of the input: without [--value+]
    it puts the value of [--value:] under the key, whatever was there; with
    [--value+] it puts that value under a key that had none, and appends it,
    as one item, to a list that the key had. In each case the key then has
    the new value, the other keys have the values they had, and the order
    of the keys is kept, a new key coming last. *)
Theorem append_value_cases {J : Type} (py_add : pyval -> pyval -> res pyval)
    (g : GetJSON.getjson J) (d : list (string * pyval)) (k : string)
    (Hkey : GetJSON.switch g "key+" = PStr k) :
  let new_value := GetJSON.switch g "value+" in
  (is_None new_value = true ->
   GetJSON.append_value py_add (PDict d) g
   = (g, Ok (PDict (dict_update d k (GetJSON.switch g "value:"))))) /\
  (is_None new_value = false -> dict_get d k = PNone ->
   GetJSON.append_value py_add (PDict d) g
   = (g, Ok (PDict (dict_update d k new_value)))) /\
  (forall l,
      is_None new_value = false -> not_list new_value = true ->
      dict_get d k = PList l ->
      GetJSON.append_value py_add (PDict d) g
      = (g, Ok (PDict (dict_update d k (PList (l ++ [new_value])))))) /\
  (forall v,
      dict_get (dict_update d k v) k = v /\
      (forall k', k' <> k -> dict_get (dict_update d k v) k' = dict_get d k') /\
      keys_of (dict_update d k v)
      = match dict_lookup d k with
        | Some _ => keys_of d
        | None => keys_of d ++ [k]
        end).
Proof.
  intros new_value.
  unfold GetJSON.append_value, bind, gets, ret. rewrite Hkey. fold new_value.
  split; [|split; [|split]].
  - intros ->. reflexivity.
  - intros -> ->. reflexivity.
  - intros l Hn Hl ->. rewrite Hn. cbn [is_None].
    destruct new_value; try reflexivity. discriminate Hl.
  - intros v. split; [|split].
    + unfold dict_get. rewrite dict_lookup_update_eq. reflexivity.
    + intros k' Hk. unfold dict_get. rewrite (dict_lookup_update_ne d k v k' Hk).
      reflexivity.
    + apply keys_of_update.
Qed.

(** [--key+=tags --value+=new] on the table [{"tags": ["old"], "n": 1}]. *)
Lemma append_value_cases_tags :
  GetJSON.append_value (fun _ _ => Raise TypeError)
    (PDict [("tags", PList [PStr "old"]); ("n", PInt 1)]) append_tool
  = (append_tool,
     Ok (PDict [("tags", PList [PStr "old"; PStr "new"]); ("n", PInt 1)])).
Proof.
  destruct (@append_value_cases _ (fun _ _ => Raise TypeError) append_tool
              [("tags", PList [PStr "old"]); ("n", PInt 1)] "tags" eq_refl)
    as (_ & _ & Hlist & _).
  apply (Hlist [PStr "old"]); reflexivity.
Defined.

Lemma all_digits_no_newline ds : all_digits ds = true -> no_newline ds = true.
Proof.
  induction ds as [|c s IH]; intros Hd; [reflexivity|].
  apply all_digits_cons in Hd as [Hc Hs]. simpl. rewrite (IH Hs), andb_true_r.
  destruct c as [[] [] [] [] [] [] [] []]; try discriminate Hc; reflexivity.
Qed.

(** X19: where the indentation of the JSON output comes from: from the
    switch [indent] when there is one; else from the second part of the
    format of the output: 0 for [prettyprint], the number for [indent=]
    followed by digits; and without such a part there is none. *)
Theorem json_indent_sources {J : Type} (py_str : pyval -> string)
    (g : GetJSON.getjson J) (spec : string)
    (Hspec : output_spec g = PStr spec) :
  let fmt1 := split_all ";" spec !! 1%nat in
  (is_None (GetJSON.switch g "indent") = false ->
   GetJSON.get_json_indent py_str g
   = GetJSON.int_or_str py_str (GetJSON.switch g "indent")) /\
  (forall z, GetJSON.switch g "indent" = PInt z ->
             GetJSON.get_json_indent py_str g = Ok (PInt z)) /\
  (is_None (GetJSON.switch g "indent") = true -> fmt1 = Some "prettyprint" ->
   GetJSON.get_json_indent py_str g = Ok (PInt 0)) /\
  (forall ds,
      is_None (GetJSON.switch g "indent") = true ->
      fmt1 = Some ("indent=" +:+ ds) -> all_digits ds = true -> ds <> "" ->
      GetJSON.get_json_indent py_str g = Ok (PInt (digits_value 0 ds))) /\
  (is_None (GetJSON.switch g "indent") = true -> fmt1 = None ->
   GetJSON.get_json_indent py_str g = Ok PNone).
Proof.
  intros fmt1.
  unfold GetJSON.get_json_indent.
  rewrite !(get_output_format_spec g spec _ Hspec). fold fmt1. cbn [res_bind].
  split; [|split; [|split; [|split]]].
  - intros ->. reflexivity.
  - intros z ->. reflexivity.
  - intros -> ->. reflexivity.
  - intros ds -> -> Hd Hne. cbn [negb].
    unfold String.append. cbn -[dotstar_eol GetJSON.int_or_str].
    fold String.append.
    rewrite (dotstar_eol_no_newline ds (all_digits_no_newline ds Hd)).
    unfold GetJSON.int_or_str, GetJSON.py_int.
    rewrite (py_int_of_digits ds Hd Hne). reflexivity.
  - intros -> ->. reflexivity.
Qed.

(** [--output=application/json;indent=2]: the indentation is 2. *)
Lemma json_indent_sources_2 :
  GetJSON.get_json_indent example_str indent_tool = Ok (PInt 2).
Proof.
  destruct (json_indent_sources example_str indent_tool "application/json;indent=2"
              eq_refl) as (_ & _ & _ & Hdigits & _).
  apply (Hdigits "2"); [reflexivity | reflexivity | reflexivity | discriminate].
Defined.

(** ** [ADPNGetJSON]: a run of the query *)

Section Runs.
Context {J : Type} `{MyPyJSON J}.
Context (py_str : pyval -> string)
        (url_quote : string -> string)
        (json_dumps : pyval -> pyval -> string)
        (py_percent : string -> list (string * pyval) -> res string)
        (re_compile : string -> option (string -> bool))
        (py_add : pyval -> pyval -> res pyval).

(** Both passes over the input fail to decode it. *)
Lemma get_json_input_undecoded (g : GetJSON.getjson J) lines j1 j2 :
  accept lines false (GetJSON.json g) = (j1, Raise JSONDecodeError) ->
  accept lines true j1 = (j2, Raise JSONDecodeError) ->
  GetJSON.get_json_input re_compile py_add lines g
  = (GetJSON.with_json j2 g, Raise JSONDecodeError).
Proof.
  intros H1 H2.
  assert (Hp1 : GetJSON.input_pass re_compile lines false g
                = (GetJSON.with_json j1 g, Raise JSONDecodeError)).
  { unfold GetJSON.input_pass, bind, GetJSON.on_json. rewrite H1. reflexivity. }
  assert (Hp2 : GetJSON.input_pass re_compile lines true (GetJSON.with_json j1 g)
                = (GetJSON.with_json j2 g, Raise JSONDecodeError)).
  { unfold GetJSON.input_pass, bind, GetJSON.on_json.
    change (GetJSON.json (GetJSON.with_json j1 g)) with j1.
    rewrite H2. reflexivity. }
  unfold GetJSON.get_json_input, bind, GetJSON.input_table, try_except.
  rewrite Hp1. cbn [is_JSONDecodeError]. rewrite Hp2. reflexivity.
Qed.

Lemma query_undecoded fuel (g : GetJSON.getjson J) lines j1 j2 text :
  accept lines false (GetJSON.json g) = (j1, Raise JSONDecodeError) ->
  accept lines true j1 = (j2, Raise JSONDecodeError) ->
  raw j2 = PStr text ->
  GetJSON.flags_get (GetJSON._flags g) GetJSON.json_error = [] ->
  let flagged :=
    GetJSON.with_flags
      (GetJSON.flags_extend GetJSON.json_error (PStr text) (GetJSON._flags g))
      (GetJSON.with_json j2 g) in
  GetJSON.query py_str url_quote json_dumps py_percent re_compile py_add fuel lines g
  = if CommandLineTool.switched (CommandLineTool.switches (GetJSON.base g)) "quiet" false
    then (flagged, Ok tt)
    else
      (GetJSON.with_base
         (CommandLineTool.print_to Stderr
            ("[" +:+ CommandLineTool.scriptname (GetJSON.base g) +:+ "] "
             +:+ GetJSON.json_error_message text)
            (String chr_newline "")
            (CommandLineTool.with_exitcode 2 (GetJSON.base g))) flagged,
       Ok tt).
Proof.
  intros H1 H2 Hraw Hflags flagged.
  unfold GetJSON.query. unfold bind at 1. unfold try_except.
  unfold bind at 1.
  rewrite (get_json_input_undecoded g lines j1 j2 H1 H2).
  cbn [is_JSONDecodeError].
  unfold bind at 1.
  change (GetJSON.json (GetJSON.with_json j2 g)) with j2.
  rewrite Hraw. unfold GetJSON.add_flag. cbn [is_None]. unfold modify at 1.
  change (GetJSON.with_flags _ (GetJSON.with_json j2 (GetJSON.with_json j2 g)))
    with flagged.
  unfold bind at 1, gets at 1.
  assert (Herr : GetJSON.flags_get (GetJSON._flags flagged) GetJSON.json_error
                 = [PStr text]).
  { unfold flagged. cbn [GetJSON._flags GetJSON.with_flags GetJSON.flags_extend
                         GetJSON.flags_get GetJSON.flag_json_error].
    unfold GetJSON.flags_get in Hflags. rewrite Hflags. reflexivity. }
  rewrite Herr. cbn [for_each]. unfold bind at 1. unfold bind at 1, gets at 1.
  change (CommandLineTool.switches (GetJSON.base flagged))
    with (CommandLineTool.switches (GetJSON.base g)).
  destruct (CommandLineTool.switched _ "quiet" false); cbn [negb].
  - reflexivity.
  - unfold GetJSON.write_error, GetJSON.exitcode_setter, GetJSON.on_base, bind, gets.
    cbn [GetJSON.base GetJSON.with_flags GetJSON.with_json flagged].
    rewrite set_exitcode_in_range by lia. reflexivity.
Qed.

End Runs.

(** X20: a run of the query on an input that neither pass can decode:
    the tool prints nothing on the standard output, reports once on the
    standard error stream the text that it could not decode, without the
    white space around it, unless [--quiet] is switched, flags the error and
    exits with the code 2, with [--quiet] too. *)
Theorem query_decode_failure {J : Type} `{MyPyJSON J}
    (py_str : pyval -> string) (url_quote : string -> string)
    (json_dumps : pyval -> pyval -> string)
    (py_percent : string -> list (string * pyval) -> res string)
    (re_compile : string -> option (string -> bool))
    (py_add : pyval -> pyval -> res pyval)
    (fuel : nat) (lines : list string) (g : GetJSON.getjson J) (j1 j2 : J)
    (text : string)
    (Hfirst : accept lines false (GetJSON.json g) = (j1, Raise JSONDecodeError))
    (Hsecond : accept lines true j1 = (j2, Raise JSONDecodeError))
    (Hraw : raw j2 = PStr text)
    (Hflags : GetJSON.flags_get (GetJSON._flags g) GetJSON.json_error = []) :
  let (g', out) := GetJSON.execute py_str url_quote json_dumps py_percent re_compile
                     py_add fuel lines g in
  out = Exited 2 /\
  GetJSON._output g' = GetJSON._output g /\
  GetJSON.flags_get (GetJSON._flags g') GetJSON.json_error = [PStr text] /\
  CommandLineTool.console (GetJSON.base g')
  = CommandLineTool.console (GetJSON.base g)
    ++ (if CommandLineTool.switched (CommandLineTool.switches (GetJSON.base g))
             "quiet" false
        then []
        else [(Stderr,
               ("[" +:+ CommandLineTool.scriptname (GetJSON.base g) +:+ "] "
                +:+ GetJSON.json_error_message text) +:+ String chr_newline "")]).
Proof.
  unfold GetJSON.execute.
  rewrite (query_undecoded py_str url_quote json_dumps py_percent re_compile py_add
             fuel g lines j1 j2 text Hfirst Hsecond Hraw Hflags).
  unfold GetJSON.flags_get in Hflags.
  destruct (CommandLineTool.switched _ "quiet" false);
    rewrite exit_eq;
    cbn [GetJSON._output GetJSON._flags GetJSON.base GetJSON.with_base
         GetJSON.with_flags GetJSON.with_json GetJSON.flags_extend
         GetJSON.flags_get GetJSON.flag_json_error priority_code
         CommandLineTool.console CommandLineTool.with_exitcode
         CommandLineTool.print_to];
    rewrite Hflags; cbn [app]; rewrite ?app_nil_r; repeat split; reflexivity.
Qed.

(** The input [no json here]: the exit code is 2, and the text is
    reported. *)
Lemma query_decode_failure_no_json :
  let (g', out) := @GetJSON.execute _ example_store example_str (fun s => s)
                     (fun _ _ => "") (fun _ _ => Raise TypeError) match_all
                     (fun _ _ => Raise TypeError) 4 ["  no json here "] query_tool in
  out = Exited 2 /\
  shown_on Stdout (CommandLineTool.console (GetJSON.base g')) = [] /\
  shown_on Stderr (CommandLineTool.console (GetJSON.base g'))
  = ["[adpn-json.py] " +:+ GetJSON.json_error_message "no json here"
     +:+ String chr_newline ""].
Proof.
  pose proof (@query_decode_failure _ example_store example_str (fun s => s)
                (fun _ _ => "") (fun _ _ => Raise TypeError) match_all
                (fun _ _ => Raise TypeError) 4 ["  no json here "] query_tool
                (fst (@accept _ example_store ["  no json here "] false
                        (@GetJSON.json _ example_store query_tool)))
                (fst (@accept _ example_store ["  no json here "] true
                        (fst (@accept _ example_store ["  no json here "] false
                                (@GetJSON.json _ example_store query_tool)))))
                "  no json here " eq_refl eq_refl eq_refl eq_refl) as Hrun.
  destruct (@GetJSON.execute _ example_store example_str (fun s => s)
              (fun _ _ => "") (fun _ _ => Raise TypeError) match_all
              (fun _ _ => Raise TypeError) 4 ["  no json here "] query_tool)
    as [g' out].
  destruct Hrun as (Hout & _ & _ & Hconsole).
  split; [exact Hout|]. rewrite Hconsole. split; reflexivity.
Defined.

Section SingleKey.
Context {J : Type} `{MyPyJSON J}.
Context (py_str : pyval -> string)
        (url_quote : string -> string)
        (json_dumps : pyval -> pyval -> string)
        (py_percent : string -> list (string * pyval) -> res string)
        (re_compile : string -> option (string -> bool))
        (py_add : pyval -> pyval -> res pyval).

Lemma plain_text_modes (g : GetJSON.getjson J) :
  output_spec g = PStr "text/plain" ->
  GetJSON.switch g "template" = PNone ->
  GetJSON.wants_json_output g = Ok false /\
  GetJSON.wants_table g = Ok false /\
  GetJSON.wants_printf_output g = Ok false /\
  (forall value key pair,
      GetJSON.get_output py_str url_quote g value key pair
      = Ok [if pair then py_str key +:+ String chr_tab "" +:+ py_str value
            else py_str value]).
Proof.
  intros Hspec Ht.
  unfold GetJSON.wants_json_output, GetJSON.wants_table, GetJSON.wants_printf_output,
    GetJSON.get_output.
  rewrite !(get_output_format_spec g "text/plain" _ Hspec), Ht.
  cbn. repeat split.
  destruct (is_None (GetJSON.switch g "key")); reflexivity.
Qed.

(** A dict shown for a single key whose value is neither a list nor a
    dict. *)
Lemma display_data_dict_single fuel d context parse depth k v (g : GetJSON.getjson J) :
  dict_lookup d k = Some v ->
  is_scalar v = true ->
  (forall l, context <> PList l) ->
  output_spec g = PStr "text/plain" ->
  GetJSON.switch g "template" = PNone ->
  GetJSON.display_data_dict py_str url_quote json_dumps py_percent re_compile
    (S fuel) d context parse (PList [PStr k]) depth g
  = (GetJSON.with_output (GetJSON._output g ++ [py_str v]) g, Ok tt).
Proof.
  intros Hk Hv Hc Hspec Ht.
  destruct (plain_text_modes g Hspec Ht) as (Hj & Hb & Hp & Hshow).
  cbn [GetJSON.display_data_dict].
  unfold bind at 1. unfold GetJSON.result_of at 1. cbn [GetJSON.select_keys].
  unfold bind at 1. rewrite Hj.
  unfold bind at 1. rewrite Hb.
  unfold bind at 1. cbn [GetJSON.keys_loop].
  unfold bind at 1. rewrite Hj.
  assert (Hget : GetJSON.dict_getitem d (PStr k) = Ok v).
  { unfold GetJSON.dict_getitem. rewrite Hk. reflexivity. }
  change (Z.of_nat (length [PStr k]) <? 2) with true. cbv iota.
  unfold bind at 1, GetJSON.result_of at 1. rewrite Hget.
  assert (Hbody : (bind (fun g0 : GetJSON.getjson J =>
                           (g0, GetJSON.get_output py_str url_quote g0 v (PStr k)
                                  (false || (1 <? Z.of_nat (length [PStr k])))))
                     (fun lines => GetJSON.result_of (GetJSON.out_extend (PList []) lines))) g
                  = (g, Ok (PList [PStr (py_str v)]))).
  { unfold bind. rewrite Hshow. reflexivity. }
  destruct v; try discriminate Hv; rewrite Hbody;
    unfold ret, bind; cbn [fst snd]; rewrite Hp; cbn [fst snd];
    rewrite Hj; cbn [fst snd]; rewrite Hb; cbn [fst snd orb];
    (destruct context; try (exfalso; eapply Hc; reflexivity));
    reflexivity.
Qed.

End SingleKey.

(** X21: the common use of the query tool, the value of one key: for a
    packet that has the key with a value that is neither a list nor a dict,
    and the plain text format without a template, a prolog or an epilog,
    the tool prints the text of the value on the standard output, without
    a newline after it, prints nothing else, and exits with the code 0. *)
Theorem query_single_key {J : Type} `{MyPyJSON J}
    (py_str : pyval -> string) (url_quote : string -> string)
    (json_dumps : pyval -> pyval -> string)
    (py_percent : string -> list (string * pyval) -> res string)
    (re_compile : string -> option (string -> bool))
    (py_add : pyval -> pyval -> res pyval)
    (fuel : nat) (lines : list string) (g g1 : GetJSON.getjson J)
    (d : list (string * pyval)) (k : string) (v : pyval)
    (Hfuel : (2 <= fuel)%nat)
    (Hin : GetJSON.get_json_input re_compile py_add lines g = (g1, Ok (PDict d)))
    (Hflags : GetJSON._flags g = GetJSON.no_flags)
    (Hout : GetJSON._output g = [])
    (Hkeys : GetJSON.data_keys g = PList [PStr k])
    (Hk : dict_lookup d k = Some v)
    (Hv : is_scalar v = true)
    (Hspec : output_spec g = PStr "text/plain")
    (Ht : GetJSON.switch g "template" = PNone)
    (Hprolog : CommandLineTool.switched
                 (CommandLineTool.switches (GetJSON.base g)) "prolog" false = false)
    (Hepilog : CommandLineTool.switched
                 (CommandLineTool.switches (GetJSON.base g)) "epilog" false = false) :
  let (g', out) := GetJSON.execute py_str url_quote json_dumps py_percent re_compile
                     py_add fuel lines g in
  out = Exited 0 /\
  GetJSON._output g' = [py_str v] /\
  CommandLineTool.console (GetJSON.base g')
  = CommandLineTool.console (GetJSON.base g) ++ [(Stdout, py_str v)].
Proof.
  destruct fuel as [|[|fuel]]; [lia | lia |].
  pose proof (get_json_input_attributes re_compile py_add g lines) as Ha.
  rewrite Hin in Ha. cbn [fst] in Ha. destruct Ha as (Hb & Ho & Hf & Hm).
  assert (Hsw : forall key, GetJSON.switch g1 key = GetJSON.switch g key)
    by (intros key; unfold GetJSON.switch; rewrite Hb; reflexivity).
  assert (Hspec1 : output_spec g1 = PStr "text/plain")
    by (unfold output_spec; rewrite Hsw, Hm; exact Hspec).
  assert (Hkeys1 : GetJSON.data_keys g1 = PList [PStr k])
    by (unfold GetJSON.data_keys; rewrite Hb; exact Hkeys).
  pose proof (display_data_dict_single py_str url_quote json_dumps py_percent
                re_compile fuel d (PDict d) (GetJSON.switch g1 "parse") 1 k v
                g1 Hk Hv ltac:(intros l; discriminate) Hspec1
                ltac:(rewrite Hsw; exact Ht)) as Hshow.
  rewrite Ho, Hout in Hshow. cbn [app] in Hshow.
  set (g2 := GetJSON.with_output [py_str v] g1) in Hshow.
  assert (Hspec2 : output_spec g2 = PStr "text/plain") by exact Hspec1.
  destruct (plain_text_modes py_str url_quote g2 Hspec2 ltac:(rewrite <- Ht, <- Hsw; reflexivity))
    as (_ & Hbt & _).
  pose proof (write_output_eq g2) as Hw.
  pose proof (write_output_flags g2) as Hwf.
  unfold GetJSON.get_output_terminator in Hw. rewrite Hbt in Hw. cbn [res_bind] in Hw.
  destruct Hw as (g3 & Hw & Hconsole). rewrite Hw in Hwf. cbn [fst] in Hwf.
  assert (Hout3 : GetJSON._output g3 = [py_str v]).
  { pose proof (format_lines_eq (GetJSON._output g2) g2) as (g' & Hfl & _ & Hg').
    unfold GetJSON.write_output, bind, gets in Hw.
    unfold GetJSON.get_output_terminator in Hw. rewrite Hbt in Hw. cbn [res_bind] in Hw.
    rewrite Hfl in Hw.
    destruct (0 <? Z.of_nat (length (map (formatted g2) (GetJSON._output g2))));
      [unfold GetJSON.on_base, modify in Hw | unfold ret in Hw];
      injection Hw as <-; destruct Hg' as [-> | ->]; reflexivity. }
  unfold GetJSON.execute, GetJSON.query.
  unfold bind at 1. unfold try_except.
  unfold bind at 1. rewrite Hin.
  unfold bind at 1, gets at 1.
  rewrite display_data_dict_case.
  unfold bind at 1.
  unfold bind at 1, gets at 1. rewrite Hkeys1.
  change (0 + 1) with 1. rewrite Hshow. rewrite Hw.
  unfold bind at 1, gets at 1. rewrite Hwf.
  assert (Hfl2 : GetJSON._flags g2 = GetJSON.no_flags)
    by (unfold g2; cbn [GetJSON._flags GetJSON.with_output]; rewrite Hf; exact Hflags).
  rewrite Hfl2. cbn [GetJSON.flags_get GetJSON.no_flags GetJSON.flag_json_error for_each].
  unfold ret. rewrite exit_eq. rewrite Hwf, Hfl2.
  cbn [priority_code GetJSON.no_flags GetJSON.flag_json_error GetJSON.flag_key_error
       GetJSON.flag_output_error GetJSON._output GetJSON.with_base GetJSON.base
       CommandLineTool.console CommandLineTool.with_exitcode].
  split; [reflexivity|]. split; [exact Hout3|].
  rewrite Hconsole.
  cbn [g2 GetJSON._output GetJSON.with_output GetJSON.base map join].
  rewrite Hb. do 3 f_equal.
  change (GetJSON.is_multiline_output g2 None) with false. cbn [orb].
  rewrite append_empty.
  unfold formatted, g2.
  cbn [GetJSON.base GetJSON.with_output]. rewrite Hb, Hprolog, Hepilog.
  reflexivity.
Qed.


(** [--key=a] on the packet [{"a":1,"b":2}]: the output is [1]. *)
Lemma query_single_key_a :
  let (g', out) := @GetJSON.execute _ example_store example_str (fun s => s)
                     (fun _ _ => "") (fun _ _ => Raise TypeError) match_all
                     (fun _ _ => Raise TypeError) 4 [ab_text] one_key_tool in
  out = Exited 0 /\
  CommandLineTool.console (GetJSON.base g') = [(Stdout, "1")].
Proof.
  pose proof (@query_single_key _ example_store example_str (fun s => s)
                (fun _ _ => "") (fun _ _ => Raise TypeError) match_all
                (fun _ _ => Raise TypeError) 4 [ab_text] one_key_tool
                (fst (@GetJSON.get_json_input _ example_store match_all
                        (fun _ _ => Raise TypeError) [ab_text] one_key_tool))
                [("a", PInt 1); ("b", PInt 2)] "a" (PInt 1)
                ltac:(lia) eq_refl eq_refl eq_refl eq_refl eq_refl eq_refl eq_refl
                eq_refl eq_refl eq_refl) as Hrun.
  destruct (@GetJSON.execute _ example_store example_str (fun s => s)
              (fun _ _ => "") (fun _ _ => Raise TypeError) match_all
              (fun _ _ => Raise TypeError) 4 [ab_text] one_key_tool) as [g' out].
  destruct Hrun as (Hcode & _ & Hconsole).
  split; [exact Hcode | exact Hconsole].
Defined.

Section Keys.
Context {J : Type} `{MyPyJSON J}.
Context (py_str : pyval -> string)
        (url_quote : string -> string)
        (json_dumps : pyval -> pyval -> string)
        (py_percent : string -> list (string * pyval) -> res string)
        (re_compile : string -> option (string -> bool)).

(** The loop over the keys, for a body that adds a line for a key that the
    dict has and raises [KeyError] for one that it has not. *)
Lemma keys_loop_found (body : pyval -> pyval -> M (GetJSON.getjson J) pyval)
    (line : string -> string) (d : list (string * pyval)) (g : GetJSON.getjson J) keys :
  (forall k l,
      body (PStr k) (PList l) g
      = match dict_lookup d k with
        | Some _ => (g, Ok (PList (l ++ [PStr (line k)])))
        | None => (g, Raise KeyError)
        end) ->
  forall l,
    GetJSON.keys_loop body (map PStr keys) (PList l) g
    = (g, Ok (PList (l ++ map PStr (map line (keys_found d keys))),
              option_map PStr (key_missing d keys))).
Proof.
  intros Hbody. induction keys as [|k keys IH]; intros l.
  - cbn. unfold ret. rewrite app_nil_r. reflexivity.
  - cbn [map GetJSON.keys_loop keys_found key_missing]. rewrite Hbody.
    destruct (dict_lookup d k).
    + rewrite IH. cbn [map]. rewrite <- app_assoc. reflexivity.
    + cbn. rewrite app_nil_r. reflexivity.
Qed.

End Keys.

(** X22: the query for two keys or more in the plain text format: each key
    that the packet has gives a line, the key, a tab and the text of the
    value, in the order in which the keys are asked for; but the first key
    that the packet does not have ends the loop: it is flagged, and the
    keys asked for after it give no line, whether the packet has them or
    not. *)
Theorem display_keys_until_missing {J : Type}
    (py_str : pyval -> string) (url_quote : string -> string)
    (json_dumps : pyval -> pyval -> string)
    (py_percent : string -> list (string * pyval) -> res string)
    (re_compile : string -> option (string -> bool))
    (fuel : nat) (d : list (string * pyval)) (context parse : pyval) (depth : Z)
    (keys : list string) (g : GetJSON.getjson J)
    (Hkeys : (2 <= length keys)%nat)
    (Hcontext : forall l, context <> PList l)
    (Hspec : output_spec g = PStr "text/plain")
    (Ht : GetJSON.switch g "template" = PNone) :
  GetJSON.display_data_dict py_str url_quote json_dumps py_percent re_compile
    (S fuel) d context parse (PList (map PStr keys)) depth g
  = (GetJSON.with_output
       (GetJSON._output g
        ++ map (fun k => py_str (PStr k) +:+ String chr_tab "" +:+ py_str (dict_get d k))
             (keys_found d keys))
       (match key_missing d keys with
        | Some k =>
            GetJSON.with_flags
              (GetJSON.flags_extend GetJSON.key_error (PStr k) (GetJSON._flags g)) g
        | None => g
        end),
     Ok tt).
Proof.
  destruct (plain_text_modes py_str url_quote g Hspec Ht) as (Hj & Hb & Hp & Hshow).
  destruct keys as [|k1 [|k2 keys]]; [simpl in Hkeys; lia | simpl in Hkeys; lia |].
  set (ks := k1 :: k2 :: keys) in *.
  set (line := fun k => py_str (PStr k) +:+ String chr_tab "" +:+ py_str (dict_get d k)).
  cbn [GetJSON.display_data_dict].
  unfold bind at 1. unfold GetJSON.result_of at 1.
  change (GetJSON.select_keys d (PList (map PStr ks))) with (Ok (map PStr ks)).
  cbv beta iota.
  unfold bind at 1. rewrite Hj.
  unfold bind at 1. rewrite Hb.
  unfold bind at 1.
  match goal with
  | |- context [GetJSON.keys_loop ?body _ _ _] =>
      rewrite (keys_loop_found body line d g ks)
  end.
  - cbn [fst snd].
    set (g1 := match key_missing d ks with
               | Some k =>
                   GetJSON.with_flags
                     (GetJSON.flags_extend GetJSON.key_error (PStr k) (GetJSON._flags g)) g
               | None => g
               end).
    assert (Hstep : (match option_map PStr (key_missing d ks) with
                     | Some key => GetJSON.add_flag GetJSON.key_error key
                     | None => ret tt
                     end) g = (g1, Ok tt)).
    { unfold g1. destruct (key_missing d ks); reflexivity. }
    assert (Hp1 : GetJSON.wants_printf_output g1 = Ok false)
      by (unfold g1; destruct (key_missing d ks); exact Hp).
    assert (Hj1 : GetJSON.wants_json_output g1 = Ok false)
      by (unfold g1; destruct (key_missing d ks); exact Hj).
    assert (Hb1 : GetJSON.wants_table g1 = Ok false)
      by (unfold g1; destruct (key_missing d ks); exact Hb).
    unfold bind at 1. rewrite Hstep.
    unfold bind at 1. rewrite Hp1.
    unfold bind at 1. rewrite Hj1.
    unfold bind at 1. rewrite Hb1. cbn [orb app].
    assert (Hc : match context with PList _ => true | _ => false end = false).
    { destruct context; try reflexivity. exfalso. eapply Hcontext. reflexivity. }
    assert (Ho1 : GetJSON._output g1 = GetJSON._output g)
      by (unfold g1; destruct (key_missing d ks); reflexivity).
    rewrite Hc. unfold GetJSON.output_extend_value.
    rewrite str_items_strs. unfold GetJSON.output_extend, modify.
    rewrite Ho1. reflexivity.
  - intros k l. unfold bind at 1. rewrite Hj.
    change (Z.of_nat (length (map PStr ks)) <? 2)
      with (Z.of_nat (S (S (length (map PStr keys)))) <? 2).
    assert (Hlen : (Z.of_nat (S (S (length (map PStr keys)))) <? 2) = false)
      by (apply Z.ltb_ge; lia).
    rewrite Hlen.
    assert (Hpaired : (false || (1 <? Z.of_nat (S (S (length (map PStr keys)))))) = true)
      by (apply Z.ltb_lt; lia).
    unfold bind, GetJSON.result_of, GetJSON.dict_getitem, line, dict_get.
    destruct (dict_lookup d k) as [v|]; [|reflexivity].
    rewrite Hshow.
    change (length (map PStr ks)) with (S (S (length (map PStr keys)))).
    rewrite Hpaired. reflexivity.
Qed.

(** [--key=a --key=zz --key=b] on the packet [{"a":1,"b":2}]: one line,
    for [a]; the key [zz] is flagged, and [b] is not shown. *)
Lemma display_keys_until_missing_zz :
  let g' := fst (@GetJSON.display_data_dict _ example_str (fun s => s)
                   (fun _ _ => "") (fun _ _ => Raise TypeError) match_all
                   1 [("a", PInt 1); ("b", PInt 2)] PNone PNone
                   (PList (map PStr ["a"; "zz"; "b"])) 1 three_keys_tool) in
  GetJSON._output g' = ["a" +:+ String chr_tab "" +:+ "1"] /\
  GetJSON.flag_key_error (GetJSON._flags g') = [PStr "zz"].
Proof.
  intros g'. unfold g'.
  rewrite (@display_keys_until_missing _ example_str (fun s => s)
             (fun _ _ => "") (fun _ _ => Raise TypeError) match_all
             0 [("a", PInt 1); ("b", PInt 2)] PNone PNone 1 ["a"; "zz"; "b"]
             three_keys_tool ltac:(simpl; lia) ltac:(intros l; discriminate)
             eq_refl eq_refl).
  split; reflexivity.
Defined.

(** X23: the filter of [--where]: without the switch every item is
    selected; a filter without a colon raises [ValueError]; and a filter
    [key:value] selects every item that is not a dict, and, for a value that
    is not written between slashes, decides on every dict, but for a dict
    whose field is an integer while the value is not the text of one, where
    it raises [ValueError]. *)
Theorem where_filter {J : Type} (re_compile : string -> option (string -> bool))
    (g : GetJSON.getjson J) :
  (py_truthy (GetJSON.switch g "where") = false ->
   exists ok, GetJSON.selected re_compile g = Ok ok /\ forall x, ok x = Ok true) /\
  (forall spec,
      GetJSON.switch g "where" = PStr spec -> spec <> "" ->
      snd (split_once ":" spec) = None ->
      GetJSON.selected re_compile g = Raise ValueError) /\
  (forall spec key value,
      GetJSON.switch g "where" = PStr spec ->
      split_once ":" spec = (key, Some value) ->
      exists ok,
        GetJSON.selected re_compile g = Ok ok /\
        (forall x, is_dict x = false -> ok x = Ok true) /\
        (forall d,
            re_match_slashes value = None ->
            match GetJSON.as_int (dict_get d key), py_int_of_str value with
            | Some _, None => ok (PDict d) = Raise ValueError
            | _, _ => exists b, ok (PDict d) = Ok b
            end)).
Proof.
  unfold GetJSON.selected.
  split; [|split].
  - intros ->. eexists. split; [reflexivity|]. intros x. reflexivity.
  - intros spec -> Hne Hsplit.
    assert (Ht : py_truthy (PStr spec) = true).
    { destruct spec; [congruence | reflexivity]. }
    rewrite Ht. destruct (split_once ":" spec) as [key [value|]]; [discriminate|].
    reflexivity.
  - intros spec key value -> Hsplit.
    assert (Ht : py_truthy (PStr spec) = true).
    { destruct spec; [discriminate Hsplit | reflexivity]. }
    rewrite Ht, Hsplit. eexists. split; [reflexivity|]. split.
    + intros x Hx. destruct x; try reflexivity. discriminate Hx.
    + intros d Hlit. unfold GetJSON.data_matches. rewrite Hlit.
      destruct (dict_get d key) as [|b|z|f|s|l|d']; cbn [GetJSON.as_int];
        try (eexists; reflexivity);
        destruct (py_int_of_str value); try reflexivity; eexists; reflexivity.
Qed.

(** [--where=id:abc]: the item [{"id": 1}] raises, the item
    [{"id": "abc"}] is selected and the item 7 is selected. *)
Lemma where_filter_id_abc :
  exists ok,
    GetJSON.selected match_all where_id_tool = Ok ok /\
    ok (PDict [("id", PInt 1)]) = Raise ValueError /\
    ok (PInt 7) = Ok true.
Proof.
  destruct (proj2 (proj2 (@where_filter _ match_all where_id_tool))
              "id:abc" "id" "abc" eq_refl eq_refl) as (ok & Hok & Hother & Hdict).
  exists ok. split; [exact Hok|]. split.
  - exact (Hdict [("id", PInt 1)] eq_refl).
  - apply Hother. reflexivity.
Defined.
